(** * Order lifecycle and stock ledger of the storefront server

    A shallow embedding of the request handlers of the Express/MongoDB
    server (stock ledger, order move engine, cancellation and return
    workflows) and the properties of its specification.

    JavaScript values are modelled as a small dynamically typed universe,
    MongoDB collections as finite maps keyed by [_id], and every handler
    as a computation in a state-and-exception monad whose state is the
    database.  Each database round trip ([await]) is a point where the
    environment may let writes of concurrent requests land, or make the
    call reject. *)

From Stdlib Require Import ZArith String Ascii List Bool Lia.
From Stdlib Require QArith Qround.
From stdpp Require Import base option list gmap strings fin_maps pretty.
Import ListNotations.

Local Open Scope string_scope.
Local Open Scope Z_scope.

(** ** JavaScript values *)

(** Numbers are restricted to integers ([stockQuantity] and item quantities
    are integral); [NaN] only arises as the result of a conversion and is
    modelled by [None] there. *)
#[local] Set Warnings "-register-all".

Inductive value : Type :=
| VUndef
| VNull
| VBool (b : bool)
| VNum (n : Z)
| VStr (s : string)
| VDate (t : Z)
| VInvalidDate
| VOid (o : string)
| VArr (l : list value)
| VObj (o : list (string * value)).

(** A document (a plain object): properties in insertion order. *)
Abbreviation doc := (list (string * value)).

(** ObjectIds are represented by their 24 character hexadecimal form. *)
Abbreviation oid := string.

(** [o.k] for a plain object [o]. *)
Fixpoint dget (d : doc) (k : string) : value :=
  match d with
  | [] => VUndef
  | (k', v) :: d' => if String.eqb k' k then v else dget d' k
  end.

(** [delete o.k] *)
Fixpoint ddel (d : doc) (k : string) : doc :=
  match d with
  | [] => []
  | (k', v) :: d' => if String.eqb k' k then ddel d' k else (k', v) :: ddel d' k
  end.

(** [o.k = v]: an existing property keeps its position, a new one is
    appended. *)
Fixpoint dset (d : doc) (k : string) (v : value) : doc :=
  match d with
  | [] => [(k, v)]
  | (k', v') :: d' =>
      if String.eqb k' k then (k, v) :: d' else (k', v') :: dset d' k v
  end.

(** [{...a, ...b}] *)
Definition dspread (a b : doc) : doc :=
  fold_left (fun acc kv => dset acc (fst kv) (snd kv)) b a.

(** [v.k] and [v?.k] where [v] is known not to be null or undefined, or is
    guarded by [&&] / [?.]: property access on a primitive yields
    [undefined]. *)
Definition prop (v : value) (k : string) : value :=
  match v with
  | VObj d => dget d k
  | _ => VUndef
  end.

(** ToBoolean *)
Definition truthy (v : value) : bool :=
  match v with
  | VUndef | VNull => false
  | VBool b => b
  | VNum n => negb (n =? 0)
  | VStr s => negb (String.eqb s EmptyString)
  | VDate _ | VInvalidDate | VOid _ | VArr _ | VObj _ => true
  end.

(** [a || b] and [a && b] *)
Definition js_or (a b : value) : value := if truthy a then a else b.
Definition js_and (a b : value) : value := if truthy a then b else a.

Declare Scope js_scope.
Delimit Scope js_scope with js.
Infix "||" := js_or : js_scope.
Infix "&&" := js_and : js_scope.

(** [v === 'literal'] *)
Definition is_str (v : value) (s : string) : bool :=
  match v with
  | VStr s' => String.eqb s' s
  | _ => false
  end.

(** [Array.isArray(v)] *)
Definition isArray (v : value) : bool :=
  match v with
  | VArr _ => true
  | _ => false
  end.

(** [[s1, ..., sn].includes(v)] for string literals. *)
Definition includes (l : list string) (v : value) : bool :=
  existsb (is_str v) l.

(** Structural equality of values: BSON equality of a stored field and a
    query operand of the same type. *)
Fixpoint value_eqb (a b : value) : bool :=
  match a, b with
  | VUndef, VUndef => true
  | VNull, VNull => true
  | VBool x, VBool y => Bool.eqb x y
  | VNum x, VNum y => Z.eqb x y
  | VStr x, VStr y => String.eqb x y
  | VDate x, VDate y => Z.eqb x y
  | VInvalidDate, VInvalidDate => true
  | VOid x, VOid y => String.eqb x y
  | VArr x, VArr y =>
      (fix go (l1 l2 : list value) : bool :=
         match l1, l2 with
         | [], [] => true
         | h1 :: t1, h2 :: t2 => andb (value_eqb h1 h2) (go t1 t2)
         | _, _ => false
         end) x y
  | VObj x, VObj y =>
      (fix go (l1 l2 : list (string * value)) : bool :=
         match l1, l2 with
         | [], [] => true
         | (k1, h1) :: t1, (k2, h2) :: t2 =>
             andb (andb (String.eqb k1 k2) (value_eqb h1 h2)) (go t1 t2)
         | _, _ => false
         end) x y
  | _, _ => false
  end.

(** The driver serialises [undefined] as [null] (its default,
    [ignoreUndefined: false]). *)
Fixpoint to_bson (v : value) : value :=
  match v with
  | VUndef => VNull
  | VArr l => VArr (map to_bson l)
  | VObj d => VObj (map (fun kv => (fst kv, to_bson (snd kv))) d)
  | _ => v
  end.

Definition doc_to_bson (d : doc) : doc :=
  map (fun kv => (fst kv, to_bson (snd kv))) d.

(** ** Strings *)

Definition lower_ascii (c : ascii) : ascii :=
  let n := nat_of_ascii c in
  if andb (Nat.leb 65 n) (Nat.leb n 90) then ascii_of_nat (n + 32) else c.

(** [s.toLowerCase()]; only the ASCII letters are mapped, which decides
    membership in a list of lower-case ASCII words the same way. *)
Fixpoint toLowerCase (s : string) : string :=
  match s with
  | EmptyString => EmptyString
  | String c s' => String (lower_ascii c) (toLowerCase s')
  end.

(** [s.slice(-6)] *)
Definition slice_last6 (s : string) : string :=
  let n := String.length s in
  substring (n - 6) 6 s.

Definition hex_digit (c : ascii) : bool :=
  let n := nat_of_ascii c in
  orb (andb (Nat.leb 48 n) (Nat.leb n 57))
      (orb (andb (Nat.leb 65 n) (Nat.leb n 70))
           (andb (Nat.leb 97 n) (Nat.leb n 102))).

Fixpoint all_hex (s : string) : bool :=
  match s with
  | EmptyString => true
  | String c s' => andb (hex_digit c) (all_hex s')
  end.

Definition is_hex24 (s : string) : bool :=
  andb (Nat.eqb (String.length s) 24) (all_hex s).

(** ** Conversions of the language runtime and of the driver

    The handlers rely on a few conversions whose full definition belongs to
    the JavaScript runtime and to the BSON library.  They are taken as an
    interface; the laws are the ones the proofs use. *)
Class Runtime := {
  (** [Number(v)]; [None] is [NaN]. *)
  ToNumber : value -> option Z;
  (** [String(v)] and template interpolation. *)
  ToString : value -> string;
  (** [new ObjectId(v)]; [None] when the constructor throws. *)
  ObjectId_new : value -> option oid;
  (** [a + b] on operands that are not both numbers. *)
  js_plus_other : value -> value -> value;
  ToNumber_num : forall n, ToNumber (VNum n) = Some n;
  ToString_str : forall s, ToString (VStr s) = s
}.

(** [a + b] *)
Definition js_plus `{Runtime} (a b : value) : value :=
  match a, b with
  | VNum x, VNum y => VNum (x + y)
  | _, _ => js_plus_other a b
  end.

(** [a < q] where [q] is known to be a number: the left operand is
    converted with ToNumber, and a comparison with [NaN] is false. *)
Definition js_lt_num `{Runtime} (a : value) (q : Z) : bool :=
  match ToNumber a with
  | Some x => x <? q
  | None => false
  end.

(** ** The database *)

Abbreviation collection := (gmap string doc).
Abbreviation Database := (gmap string collection).

(** [database.collection(name)]: a collection that was never written to is
    empty. *)
Definition coll (db : Database) (name : string) : collection :=
  default ∅ (db !! name).

Definition set_coll (db : Database) (name : string) (c : collection) : Database :=
  <[name := c]> db.

(** ** Handlers as computations

    The environment of one request: the identifier the driver generates for
    an insert, the clock, the writes of concurrent requests that land just
    before the [k]-th database call of this request, and whether that call
    (an operation on a collection) rejects. *)
Inductive dbop := OpFindOne | OpFind | OpInsertOne | OpDeleteOne | OpUpdateOne.

Record Env := {
  env_oid : nat -> oid;
  env_now : nat -> Z;
  env_interfere : nat -> Database -> Database;
  env_fault : nat -> dbop -> string -> bool
}.

(** One entry per database call: the operation, the collection, and whether
    the call resolved. *)
Record call := { call_op : dbop; call_coll : string; call_ok : bool }.

Record State := {
  st_db : Database;
  st_calls : list call;     (* the calls made so far, oldest first *)
  st_log : list string      (* console.error *)
}.

(** The number of database calls made so far. *)
Definition ticks (s : State) : nat := length (st_calls s).

(** The state after one more database call. *)
Definition after (s : State) (o : dbop) (name : string) (ok : bool) (db : Database)
    : State :=
  {| st_db := db;
     st_calls := st_calls s ++ [{| call_op := o; call_coll := name; call_ok := ok |}];
     st_log := st_log s |}.

Inductive outcome (A : Type) : Type :=
| Done (a : A)
| Thrown (msg : string).
Arguments Done {A} a.
Arguments Thrown {A} msg.

Definition is_done {A} (r : outcome A) : bool :=
  match r with
  | Done _ => true
  | Thrown _ => false
  end.

Definition M (A : Type) : Type := Env -> State -> outcome A * State.

Definition ret {A} (a : A) : M A := fun _ s => (Done a, s).

Definition bind {A B} (m : M A) (k : A -> M B) : M B :=
  fun e s =>
    match m e s with
    | (Done a, s') => k a e s'
    | (Thrown msg, s') => (Thrown msg, s')
    end.

Notation "'let*' x ':=' m 'in' k" := (bind m (fun x => k))
  (at level 10, x name, m at level 100, k at level 200).
Notation "m1 ;; m2" := (bind m1 (fun _ => m2))
  (at level 100, m2 at level 200, right associativity).

(** [throw new Error(msg)] *)
Definition throw {A} (msg : string) : M A := fun _ s => (Thrown msg, s).

(** [try { m } catch (error) { h error.message }] *)
Definition try_catch {A} (m : M A) (h : string -> M A) : M A :=
  fun e s =>
    match m e s with
    | (Done a, s') => (Done a, s')
    | (Thrown msg, s') => h msg e s'
    end.

(** [console.error(msg)] *)
Definition console_error (msg : string) : M unit :=
  fun _ s => (Done tt, {| st_db := st_db s; st_calls := st_calls s;
                          st_log := st_log s ++ [msg] |}).

(** [new Date()] *)
Definition new_Date : M value :=
  fun e s => (Done (VDate (env_now e (ticks s))), s).

(** [Date.now()] *)
Definition Date_now : M Z :=
  fun e s => (Done (env_now e (ticks s)), s).

(** One round trip to the database on collection [name]: concurrent writes
    land, then the call either rejects or runs [op] atomically.  [op]
    receives the identifier the driver would generate. *)
Definition db_call {A} (o : dbop) (name : string)
    (op : oid -> Database -> outcome A * Database) : M A :=
  fun e s =>
    let k := ticks s in
    let db := env_interfere e k (st_db s) in
    if env_fault e k o name then
      (Thrown "MongoNetworkError", after s o name false db)
    else
      let r := op (env_oid e k) db in
      (fst r, after s o name (is_done (fst r)) (snd r)).

(** [throw] for a property access on [null] or [undefined]; any other
    receiver yields the property or [undefined]. *)
Definition member (v : value) (k : string) : M value :=
  match v with
  | VUndef | VNull => throw "TypeError: Cannot read properties of null or undefined"
  | _ => ret (prop v k)
  end.

Definition new_ObjectId `{Runtime} (v : value) : M oid :=
  match ObjectId_new v with
  | Some o => ret o
  | None => throw "BSONError: input must be a 24 character hex string"
  end.

(** *** Collection operations *)

Record InsertOneResult := { acknowledged : bool; insertedId : oid }.

(** The document as stored: [_id] first, [undefined] serialised as [null]. *)
Definition stored (id : oid) (d : doc) : doc :=
  ("_id", VOid id) :: doc_to_bson (ddel d "_id").

(** [collection.insertOne(d)]: a document without [_id] receives a
    generated one; [_id] is unique within a collection. *)
Definition insertOne (name : string) (d : doc) : M InsertOneResult :=
  db_call OpInsertOne name (fun fresh db =>
    let id := match dget d "_id" with VOid o => o | _ => fresh end in
    match coll db name !! id with
    | Some _ => (Thrown "E11000 duplicate key error", db)
    | None =>
        (Done {| acknowledged := true; insertedId := id |},
         set_coll db name (<[id := stored id d]> (coll db name)))
    end).

(** [collection.findOne({ _id: o })]: the document or [null]. *)
Definition findOne_id (name : string) (o : oid) : M value :=
  db_call OpFindOne name (fun _ db =>
    (Done (match coll db name !! o with Some d => VObj d | None => VNull end), db)).

(** [collection.deleteOne({ _id: o })]: the [deletedCount]. *)
Definition deleteOne_id (name : string) (o : oid) : M Z :=
  db_call OpDeleteOne name (fun _ db =>
    match coll db name !! o with
    | Some _ => (Done 1, set_coll db name (delete o (coll db name)))
    | None => (Done 0, db)
    end).

(** [collection.find(filter).toArray()] *)
Definition find (name : string) (filter : doc -> bool) : M (list doc) :=
  db_call OpFind name (fun _ db =>
    (Done (List.filter filter (map snd (map_to_list (coll db name)))), db)).

Record UpdateResult := { matchedCount : Z; modifiedCount : Z }.

Definition update_result (matched : bool) (old new : doc) : UpdateResult :=
  {| matchedCount := if matched then 1 else 0;
     modifiedCount :=
       if matched then (if value_eqb (VObj old) (VObj new) then 0 else 1) else 0 |}.

Definition UpdateResult_json (r : UpdateResult) : value :=
  VObj [("acknowledged", VBool true);
        ("modifiedCount", VNum (modifiedCount r));
        ("upsertedId", VNull);
        ("upsertedCount", VNum 0);
        ("matchedCount", VNum (matchedCount r))].

(** [collection.updateOne({ _id: o }, { $inc: { [field]: q } })]: a missing
    field is set to [q]; a field that is not a number makes the server
    refuse the update. *)
Definition updateOne_inc (name : string) (o : oid) (field : string) (q : Z)
    : M UpdateResult :=
  db_call OpUpdateOne name (fun _ db =>
    match coll db name !! o with
    | None => (Done (update_result false [] []), db)
    | Some d =>
        match dget d field with
        | VNum n =>
            let d' := dset d field (VNum (n + q)) in
            (Done (update_result true d d'), set_coll db name (<[o := d']> (coll db name)))
        | VUndef =>
            let d' := dset d field (VNum q) in
            (Done (update_result true d d'), set_coll db name (<[o := d']> (coll db name)))
        | _ => (Thrown "Cannot apply $inc to a value of non-numeric type", db)
        end
    end).

(** [collection.updateOne({ _id: o }, { $set: fields })] *)
Definition updateOne_set (name : string) (o : oid) (fields : doc)
    : M UpdateResult :=
  db_call OpUpdateOne name (fun _ db =>
    match coll db name !! o with
    | None => (Done (update_result false [] []), db)
    | Some d =>
        let d' := dspread d (doc_to_bson fields) in
        (Done (update_result true d d'), set_coll db name (<[o := d']> (coll db name)))
    end).

(** ** HTTP responses *)

Record response := { status : Z; body : doc }.

(** [res.status(code).json(b)]; [res.json(b)] is [json 200 b]. *)
Definition json (code : Z) (b : doc) : M response :=
  ret {| status := code; body := b |}.

(** ** Stock ledger *)

Section StockLedger.
Context `{Runtime}.

(** The body of the [for] loop of [PUT /api/products/bulk-stock], from index
    [i] on; [results] are the update results pushed so far. *)
Fixpoint bulk_stock_loop (updates : list value) (results : list value)
    : M response :=
  match updates with
  | [] =>
      json 200 [("success", VBool true);
                ("message", VStr "Stock updated successfully");
                ("results", VArr results)]
  | update :: rest =>
      let* id := member update "id" in
      let* quantity := member update "quantity" in
      (* Validate the update object *)
      match quantity with
      | VNum q =>
          if negb (truthy id) then
            console_error "❌ Invalid update object:" ;;
            json 400 [("error", VStr "Each update must have id and quantity")]
          else
            (* Check if the product exists first *)
            let* oid_ := new_ObjectId id in
            let* existingProduct := findOne_id "Products" oid_ in
            if negb (truthy existingProduct) then
              console_error ("❌ Product not found: " +:+ ToString id) ;;
              json 404 [("error", VStr ("Product not found: " +:+ ToString id))]
            else
              (* Check if there's enough stock *)
              if js_lt_num (prop existingProduct "stockQuantity") q then
                let msg :=
                  "Insufficient stock for " +:+ ToString (prop existingProduct "name")
                  +:+ ". Available: " +:+ ToString (prop existingProduct "stockQuantity")
                  +:+ ", Requested: " +:+ ToString quantity in
                console_error ("❌ " +:+ msg) ;;
                json 400 [("error", VStr msg)]
              else
                (* Update the stock *)
                let* oid2 := new_ObjectId id in
                let* result := updateOne_inc "Products" oid2 "stockQuantity" (- q) in
                bulk_stock_loop rest (results ++ [UpdateResult_json result])
      | _ =>
          console_error "❌ Invalid update object:" ;;
          json 400 [("error", VStr "Each update must have id and quantity")]
      end
  end.

(** [PUT /api/products/bulk-stock] *)
Definition bulk_stock (req_body : doc) : M response :=
  try_catch
    (let updates := dget req_body "updates" in
     if negb (truthy updates) then
       console_error "❌ No updates provided in request body" ;;
       json 400 [("error", VStr "Updates field is required")]
     else
       match updates with
       | VArr l => bulk_stock_loop l []
       | _ =>
           console_error "❌ Updates is not an array:" ;;
           json 400 [("error", VStr "Updates must be an array")]
       end)
    (fun message =>
       console_error "❌ Error updating bulk stock:" ;;
       console_error "❌ Error stack:" ;;
       json 500 [("error", VStr "Failed to update bulk stock");
                 ("details", VStr message)]).

(** [new Date(Date.now() + (expiresInMinutes * 60 * 1000))] *)
Definition expiry (now : Z) (expiresInMinutes : value) : value :=
  match ToNumber expiresInMinutes with
  | Some m => VDate (now + m * 60 * 1000)
  | None => VInvalidDate
  end.

(** [POST /api/products/reserve-stock] *)
Definition reserve_stock (req_body : doc) : M response :=
  try_catch
    (let items := dget req_body "items" in
     let reservationId := dget req_body "reservationId" in
     let expiresInMinutes :=
       match dget req_body "expiresInMinutes" with
       | VUndef => VNum 15
       | v => v
       end in
     if negb (truthy items) || negb (isArray items) || negb (truthy reservationId) then
       json 400 [("error", VStr "Items array and reservationId are required")]
     else
       let* now := Date_now in
       let expiresAt := expiry now expiresInMinutes in
       (* Create reservation record *)
       let* createdAt := new_Date in
       let reservation :=
         [("reservationId", reservationId);
          ("items", items);
          ("createdAt", createdAt);
          ("expiresAt", expiresAt);
          ("status", VStr "active")] in
       insertOne "StockReservations" reservation ;;
       json 200 [("success", VBool true);
                 ("reservationId", reservationId);
                 ("expiresAt", expiresAt);
                 ("message", VStr ("Stock reserved for " +:+ ToString expiresInMinutes
                                   +:+ " minutes"))])
    (fun _ =>
       console_error "❌ Error reserving stock:" ;;
       json 500 [("error", VStr "Failed to reserve stock")]).

(** The [for ... of] loop of [POST /api/products/restore-stock]. *)
Fixpoint restore_stock_loop (items : list value) (reason : value)
    (results : list value) : M response :=
  match items with
  | [] =>
      json 200 [("success", VBool true);
                ("message", VStr ("Stock restored for "
                                  +:+ ToString (VNum (Z.of_nat (length results)))
                                  +:+ " products"));
                ("reason", reason);
                ("results", VArr results)]
  | item :: rest =>
      let* id := member item "id" in
      let* quantity := member item "quantity" in
      match quantity with
      | VNum q =>
          if negb (truthy id) then
            json 400 [("error", VStr "Each item must have id and quantity")]
          else
            let* oid_ := new_ObjectId id in
            let* product := findOne_id "Products" oid_ in
            if negb (truthy product) then
              console_error ("❌ Product not found for restoration: " +:+ ToString id) ;;
              restore_stock_loop rest reason results
            else
              (* Restore stock by adding the quantity back *)
              let* oid2 := new_ObjectId id in
              let* result := updateOne_inc "Products" oid2 "stockQuantity" q in
              restore_stock_loop rest reason
                (results ++
                 [VObj [("productId", id);
                        ("productName", prop product "name");
                        ("restoredQuantity", quantity);
                        ("newStock", js_plus (prop product "stockQuantity") quantity)]])
      | _ => json 400 [("error", VStr "Each item must have id and quantity")]
      end
  end.

(** [POST /api/products/restore-stock] *)
Definition restore_stock (req_body : doc) : M response :=
  try_catch
    (let items := dget req_body "items" in
     let reason :=
       match dget req_body "reason" with
       | VUndef => VStr "Order cancelled"
       | v => v
       end in
     match items with
     | VArr l => restore_stock_loop l reason []
     | _ => json 400 [("error", VStr "Items array is required")]
     end)
    (fun _ =>
       console_error "❌ Error restoring stock:" ;;
       json 500 [("error", VStr "Failed to restore stock")]).

End StockLedger.

(** ** Order move engine *)

Section OrderLifecycle.
Context `{Runtime}.

(** The result of indexing the object literal [collectionMapping]: one of
    its own properties, a property inherited from [Object.prototype]
    (truthy, but not a collection name), or [undefined]. *)
Inductive mapped := Mapped (name : string) | Inherited | Unmapped.

Definition Object_prototype_keys : list string :=
  ["constructor"; "__proto__"; "hasOwnProperty"; "isPrototypeOf";
   "propertyIsEnumerable"; "toLocaleString"; "toString"; "valueOf";
   "__defineGetter__"; "__defineSetter__"; "__lookupGetter__";
   "__lookupSetter__"].

Definition collectionMapping (key : value) : mapped :=
  let k := ToString key in
  if String.eqb k "orders" then Mapped "PendingOrders"
  else if String.eqb k "pending" then Mapped "PendingOrders"
  else if String.eqb k "accepted" then Mapped "AcceptedOrders"
  else if String.eqb k "delivered" then Mapped "DeliveredOrders"
  else if String.eqb k "denied" then Mapped "DeniedOrders"
  else if String.eqb k "returned" then Mapped "ReturnedOrders"
  else if existsb (String.eqb k) Object_prototype_keys then Inherited
  else Unmapped.

(** [database.collection(x)] refuses a name that is not a string. *)
Definition collection_name (m : mapped) : M string :=
  match m with
  | Mapped name => ret name
  | _ => throw "MongoInvalidArgumentError: Collection name must be a String"
  end.

(** [if (v) o.k = v] *)
Definition set_if_truthy (d : doc) (k : string) (v : value) : doc :=
  if truthy v then dset d k v else d.

(** The [switch (toCollection)] of the move: the fields set per target. *)
Definition stamp_for_target (toCollection denialReason returnReason returnImage now : value)
    (updatedOrder : doc) : doc :=
  if is_str toCollection "pending" then
    dset (dset updatedOrder "status" (VStr "pending")) "displayStatus" (VStr "pending")
  else if is_str toCollection "accepted" then
    dset (dset (dset updatedOrder "status" (VStr "approved"))
               "displayStatus" (VStr "approved"))
         "approvedAt" now
  else if is_str toCollection "delivered" then
    dset (dset (dset updatedOrder "status" (VStr "delivered"))
               "displayStatus" (VStr "delivered"))
         "deliveredAt" now
  else if is_str toCollection "denied" then
    set_if_truthy
      (dset (dset (dset updatedOrder "status" (VStr "denied"))
                  "displayStatus" (VStr "denied"))
            "deniedAt" now)
      "denialReason" denialReason
  else if is_str toCollection "returned" then
    let o1 := dset (dset (dset updatedOrder "status" (VStr "returned"))
                         "displayStatus" (VStr "returned"))
                   "returnedAt" now in
    (* Handle return documentation *)
    let o2 := set_if_truthy o1 "returnReason" returnReason in
    let o3 := if truthy returnImage
              then dset (dset o2 "returnImage" returnImage) "returnImageUploadedAt" now
              else o2 in
    (* Add return processing metadata *)
    dset (dset o3 "returnProcessedBy" (VStr "staff")) "returnProcessingDate" now
  else updatedOrder.

(** [...(v && { k: w })] *)
Definition spread_if (v : value) (k : string) (w : value) : doc :=
  if truthy v then [(k, w)] else [].

(** [POST /api/orders/move] *)
Definition move_order (req_body : doc) : M response :=
  try_catch
    (let orderId := dget req_body "orderId" in
     let operation := dget req_body "operation" in
     let fromCollection := dget req_body "fromCollection" in
     let toCollection := dget req_body "toCollection" in
     let denialReason := dget req_body "denialReason" in
     let returnReason := dget req_body "returnReason" in
     let returnImage := dget req_body "returnImage" in
     if negb (truthy orderId) || negb (truthy operation)
        || negb (truthy fromCollection) || negb (truthy toCollection) then
       json 400 [("error", VStr "Missing required fields: orderId, operation, fromCollection, toCollection")]
     else
       let sourceCollectionName := collectionMapping fromCollection in
       let targetCollectionName := collectionMapping toCollection in
       match sourceCollectionName, targetCollectionName with
       | Unmapped, _ | _, Unmapped => json 400 [("error", VStr "Invalid collection names")]
       | _, _ =>
           let* sourceCollection := collection_name sourceCollectionName in
           let* targetCollection := collection_name targetCollectionName in
           (* Find the order in the source collection *)
           let* oid_ := new_ObjectId orderId in
           let* order := findOne_id sourceCollection oid_ in
           match order with
           | VObj order =>
               (* Prepare the order for the target collection *)
               let updatedOrder := ddel order "_id" in
               let* now := new_Date in
               let updatedOrder :=
                 stamp_for_target toCollection denialReason returnReason returnImage
                                  now updatedOrder in
               let updatedOrder := dset updatedOrder "updatedAt" now in
               let updatedOrder := dset updatedOrder "lastModifiedBy" (VStr "staff") in
               (* Insert into target collection *)
               let* insertResult := insertOne targetCollection updatedOrder in
               if negb (truthy (VOid (insertedId insertResult))) then
                 throw "Failed to insert order into target collection"
               else
               (* Remove from source collection *)
               let* oid2 := new_ObjectId orderId in
               let* deletedCount := deleteOne_id sourceCollection oid2 in
               if deletedCount =? 0 then
                 (* If deletion failed, remove the inserted order to maintain consistency *)
                 deleteOne_id targetCollection (insertedId insertResult) ;;
                 throw "Failed to remove order from source collection"
               else
                 json 200 ([("success", VBool true);
                            ("message", VStr ("Order successfully moved to "
                                              +:+ ToString toCollection));
                            ("newOrderId", VOid (insertedId insertResult));
                            ("operation", operation)]
                           ++ spread_if returnReason "returnReason" returnReason
                           ++ spread_if returnImage "returnImageSaved" (VBool true))
           | _ =>
               json 404 [("error", VStr ("Order not found in " +:+ sourceCollection))]
           end
       end)
    (fun message =>
       console_error "❌ Error moving order between collections:" ;;
       json 500 [("error", VStr "Failed to move order between collections");
                 ("details", VStr message)]).

(** ** Request workflows *)

(** [for (const { name, collection } of collections)]: the first collection
    holding the order, with the order. *)
Fixpoint find_in_collections (names : list string) (id : value)
    : M (option (string * doc)) :=
  match names with
  | [] => ret None
  | name :: rest =>
      let* oid_ := new_ObjectId id in
      let* originalOrder := findOne_id name oid_ in
      match originalOrder with
      | VObj d => ret (Some (name, d))
      | _ => find_in_collections rest id
      end
  end.

(** [v.slice(-6)]: strings and arrays have [slice]. *)
Definition js_slice_last6 (v : value) : M value :=
  match v with
  | VStr s => ret (VStr (slice_last6 s))
  | VArr l => ret (VArr (skipn (length l - 6) l))
  | _ => throw "TypeError: orderId.slice is not a function"
  end.

(** [v.substring(0, 50)], evaluated for its exception only. *)
Definition check_substring (v : value) : M unit :=
  match v with
  | VStr _ => ret tt
  | _ => if truthy v then throw "TypeError: additionalComments.substring is not a function"
         else ret tt
  end.

(** [v.toLowerCase()] *)
Definition js_toLowerCase (v : value) : M string :=
  match v with
  | VStr s => ret (toLowerCase s)
  | _ => throw "TypeError: currentStatus.toLowerCase is not a function"
  end.

(** [originalOrder.k || (originalOrder.payment && originalOrder.payment.k') || null] *)
Definition payment_field (originalOrder : doc) (k k' : string) : value :=
  (dget originalOrder k
   || (dget originalOrder "payment" && prop (dget originalOrder "payment") k')
   || VNull)%js.

(** [v !== undefined && v !== null] *)
Definition is_present (v : value) : bool :=
  match v with
  | VUndef | VNull => false
  | _ => true
  end.

(** The record built by [POST /api/orders/cancel-request]. *)
Definition cancellationRequest_of (orderId reason additionalComments : value)
    (originalOrder : doc) (orderNumber : value) (currentStatus : value)
    (submittedAt : value) (sourceCollectionName : string) : doc :=
  let userId := dget originalOrder "userId" in
  [("originalOrderId", orderId);
   ("userId", (userId || VNull)%js);
   ("userIdString", if is_present userId then VStr (ToString userId) else VNull);
   ("userIdNumber",
     if is_present userId then
       match ToNumber userId with
       | Some n => VNum n
       | None => VNull
       end
     else VNull);
   ("orderNumber", orderNumber);
   ("customerName",
     (dget originalOrder "fullName" || dget originalOrder "buyerinfo" || VStr "N/A")%js);
   ("customerEmail", (dget originalOrder "email" || VStr "N/A")%js);
   ("customerPhone", (dget originalOrder "phoneNumber" || VStr "N/A")%js);
   ("itemsordered", (dget originalOrder "itemsordered" || VArr [])%js);
   ("payment", (dget originalOrder "payment" || VNull)%js);
   ("paymentMethod", payment_field originalOrder "paymentMethod" "method");
   ("paymentType", payment_field originalOrder "paymentType" "type");
   ("paymentSplitPercent", payment_field originalOrder "paymentSplitPercent" "splitPercent");
   ("paymentReference", payment_field originalOrder "paymentReference" "reference");
   ("paymentAmount", payment_field originalOrder "paymentAmount" "amount");
   ("changeUponDelivery", payment_field originalOrder "changeUponDelivery" "changeUponDelivery");
   ("proofOfPayment", payment_field originalOrder "proofOfPayment" "proof");
   ("reason", reason);
   ("additionalComments", (additionalComments || VStr EmptyString)%js);
   ("originalOrderTotal", (dget originalOrder "total" || VNum 0)%js);
   ("originalOrderDate", (dget originalOrder "orderDate" || dget originalOrder "createdAt")%js);
   ("originalOrderStatus", currentStatus);
   ("status", VStr "pending_review");
   ("submittedAt", submittedAt);
   ("submittedBy", VStr "customer");
   ("sourceCollection", VStr sourceCollectionName);
   ("notes", (dget originalOrder "notes" || VStr EmptyString)%js);
   ("address", (dget originalOrder "address" || VNull)%js);
   ("shipping", (dget originalOrder "shipping" || VNull)%js);
   ("phoneNumber",
     (dget originalOrder "phoneNumber"
      || (dget originalOrder "shipping" && prop (dget originalOrder "shipping") "phoneNumber")
      || VNull)%js)].

(** [POST /api/orders/cancel-request] *)
Definition cancel_request (req_body : doc) : M response :=
  try_catch
    (let orderId := dget req_body "orderId" in
     let reason := dget req_body "reason" in
     let additionalComments := dget req_body "additionalComments" in
     check_substring additionalComments ;;
     if negb (truthy orderId) || negb (truthy reason) then
       json 400 [("success", VBool false);
                 ("message", VStr "Missing required fields: orderId and reason")]
     else
       (* Find the original order in any collection *)
       let* found := find_in_collections ["PendingOrders"; "AcceptedOrders"] orderId in
       match found with
       | None =>
           json 404 [("success", VBool false);
                     ("message", VStr "Order not found or cannot be cancelled")]
       | Some (sourceCollection, originalOrder) =>
           (* Check if order can be cancelled (only pending and accepted orders) *)
           let currentStatus := (dget originalOrder "status" || VStr "pending")%js in
           let* lowered := js_toLowerCase currentStatus in
           if negb (includes ["pending"; "active"; "approved"] (VStr lowered)) then
             json 400 [("success", VBool false);
                       ("message", VStr "This order cannot be cancelled at this stage")]
           else
             (* Create cancellation request record *)
             let* orderNumber :=
               if truthy (dget originalOrder "orderNumber")
               then ret (dget originalOrder "orderNumber")
               else (let* tail := js_slice_last6 orderId in
                     ret (VStr ("ORD-" +:+ ToString tail))) in
             let* submittedAt := new_Date in
             let cancellationRequest :=
               cancellationRequest_of orderId reason additionalComments originalOrder
                 orderNumber currentStatus submittedAt sourceCollection in
             (* Save cancellation request to CancellationRequests collection *)
             let* result := insertOne "CancellationRequests" cancellationRequest in
             (* Remove the original order from its source collection now that the
                cancellation request is stored *)
             let* oid_ := new_ObjectId orderId in
             let* deletedCount := deleteOne_id sourceCollection oid_ in
             if deletedCount =? 0 then
               console_error ("❌ Failed to remove original order " +:+ ToString orderId
                              +:+ " from " +:+ sourceCollection
                              +:+ " after creating cancellation request. Rolling back cancellation request.") ;;
               deleteOne_id "CancellationRequests" (insertedId result) ;;
               json 500 [("success", VBool false);
                         ("message", VStr "Failed to remove the original order after creating the cancellation request. Please try again.")]
             else
               (* Create staff notification for new cancellation request *)
               let* now := Date_now in
               let* createdAt := new_Date in
               let customerName := dget cancellationRequest "customerName" in
               let notification :=
                 [("id", VStr ("cancel_" +:+ ToString (VOid (insertedId result))
                               +:+ "_" +:+ ToString (VNum now)));
                  ("title", VStr "🚫 New Cancellation Request");
                  ("message", VStr (ToString customerName +:+ " requested to cancel order "
                                    +:+ ToString orderNumber));
                  ("type", VStr "cancellation_request");
                  ("orderId", orderId);
                  ("requestId", VOid (insertedId result));
                  ("customerName", customerName);
                  ("customerEmail", dget cancellationRequest "customerEmail");
                  ("orderNumber", orderNumber);
                  ("reason", reason);
                  ("read", VBool false);
                  ("createdAt", createdAt);
                  ("priority", VStr "high")] in
               insertOne "StaffNotifications" notification ;;
               json 200 [("success", VBool true);
                         ("message", VStr "Cancellation request submitted successfully");
                         ("requestId", VOid (insertedId result));
                         ("status", VStr "pending_review")]
       end)
    (fun message =>
       console_error "❌ Error processing cancellation request:" ;;
       json 500 [("success", VBool false);
                 ("message", VStr "Failed to submit cancellation request");
                 ("error", VStr message)]).

(** [{ field: { $in: candidates } }]: the field equals a candidate, or is
    an array with an element that does. *)
Definition mongo_in (v : value) (candidates : list value) : bool :=
  existsb (value_eqb v) candidates
  || match v with
     | VArr l => existsb (fun x => existsb (value_eqb x) candidates) l
     | _ => false
     end.

(** [orderIds.map(id => { try { return new ObjectId(id) } catch (e) { return null } })
             .filter(id => id !== null)] *)
Definition to_objectIds (orderIds : list value) : list value :=
  omap (fun id => VOid <$> ObjectId_new id) orderIds.

(** [POST /api/orders/check-cancellation-requests] *)
Definition check_cancellation_requests (req_body : doc) : M response :=
  try_catch
    (match dget req_body "orderIds" with
     | VArr orderIds =>
         (* Convert orderIds to ObjectIds *)
         let objectIds := to_objectIds orderIds in
         (* Find pending cancellation requests for these orders *)
         let* pendingCancellations :=
           find "CancellationRequests" (fun d =>
             mongo_in (dget d "originalOrderId") objectIds
             && mongo_in (dget d "status") [VStr "pending_review"; VStr "pending"]) in
         (* Create a map of orderId -> hasPendingCancellation *)
         let cancellationMap :=
           fold_left (fun m cancellation =>
                        dset m (ToString (dget cancellation "originalOrderId")) (VBool true))
                     pendingCancellations [] in
         json 200 [("success", VBool true); ("cancellationMap", VObj cancellationMap)]
     | _ =>
         json 400 [("success", VBool false); ("message", VStr "orderIds array is required")]
     end)
    (fun message =>
       console_error "❌ Error checking cancellation requests:" ;;
       json 500 [("success", VBool false); ("error", VStr message)]).

(** [v.length === 0] *)
Definition length_is_zero (v : value) : bool :=
  match v with
  | VArr l => Nat.eqb (length l) 0
  | VStr s => Nat.eqb (String.length s) 0
  | VObj d => match dget d "length" with VNum n => n =? 0 | _ => false end
  | _ => false
  end.

(** [POST /api/orders/return-request] *)
Definition return_request (req_body : doc) : M response :=
  try_catch
    (let orderId := dget req_body "orderId" in
     let returnType := dget req_body "returnType" in
     let selectedItems := dget req_body "selectedItems" in
     let reason := dget req_body "reason" in
     let additionalComments := dget req_body "additionalComments" in
     let returnImage := dget req_body "returnImage" in
     if negb (truthy orderId) || negb (truthy returnType)
        || negb (truthy selectedItems) || length_is_zero selectedItems then
       json 400 [("success", VBool false);
                 ("message", VStr "Missing required fields: orderId, returnType, and selectedItems")]
     else
       (* Find the original order in any collection *)
       let* found :=
         find_in_collections ["DeliveredOrders"; "AcceptedOrders"; "PendingOrders"] orderId in
       match found with
       | None => json 404 [("success", VBool false); ("message", VStr "Order not found")]
       | Some (sourceCollection, originalOrder) =>
           (* Create return request record *)
           let* orderNumber :=
             if truthy (dget originalOrder "orderNumber")
             then ret (dget originalOrder "orderNumber")
             else (let* tail := js_slice_last6 orderId in
                   ret (VStr ("ORD-" +:+ ToString tail))) in
           let* submittedAt := new_Date in
           let returnRequest :=
             [("originalOrderId", orderId);
              ("orderNumber", orderNumber);
              ("customerName",
                (dget originalOrder "fullName" || dget originalOrder "buyerinfo" || VStr "N/A")%js);
              ("customerEmail", (dget originalOrder "email" || VStr "N/A")%js);
              ("customerPhone", (dget originalOrder "phoneNumber" || VStr "N/A")%js);
              ("returnType", returnType);
              ("selectedItems", selectedItems);
              ("reason", reason);
              ("additionalComments", (additionalComments || VStr EmptyString)%js);
              ("returnImage", (returnImage || VNull)%js);
              ("originalOrderTotal", (dget originalOrder "total" || VNum 0)%js);
              ("originalOrderDate",
                (dget originalOrder "orderDate" || dget originalOrder "createdAt")%js);
              ("status", VStr "pending_review");
              ("submittedAt", submittedAt);
              ("submittedBy", VStr "customer");
              ("sourceCollection", VStr sourceCollection)] in
           (* Save return request to ReturnRequests collection *)
           let* result := insertOne "ReturnRequests" returnRequest in
           (* Create staff notification for new return request *)
           let* now := Date_now in
           let* createdAt := new_Date in
           let customerName := dget returnRequest "customerName" in
           let notification :=
             [("id", VStr ("return_" +:+ ToString (VOid (insertedId result))
                           +:+ "_" +:+ ToString (VNum now)));
              ("title", VStr "🔄 New Return/Exchange Request");
              ("message", VStr (ToString customerName +:+ " submitted a "
                                +:+ ToString returnType +:+ " request for order "
                                +:+ ToString orderNumber));
              ("type", VStr "return_request");
              ("orderId", orderId);
              ("requestId", VOid (insertedId result));
              ("customerName", customerName);
              ("customerEmail", dget returnRequest "customerEmail");
              ("orderNumber", orderNumber);
              ("returnType", returnType);
              ("reason", reason);
              ("read", VBool false);
              ("createdAt", createdAt);
              ("priority", VStr "medium")] in
           insertOne "StaffNotifications" notification ;;
           json 200 [("success", VBool true);
                     ("message", VStr "Return/exchange request submitted successfully");
                     ("requestId", VOid (insertedId result));
                     ("status", VStr "pending_review")]
       end)
    (fun message =>
       console_error "❌ Error processing return request:" ;;
       json 500 [("success", VBool false);
                 ("message", VStr "Failed to submit return request");
                 ("error", VStr message)]).

(** [m.catch(() => {})] *)
Definition swallow {A} (m : M A) : M unit :=
  try_catch (m ;; ret tt) (fun _ => ret tt).

(** The search for the original order of a return request: a lookup that
    throws (invalid identifier, failing call) is skipped. *)
Fixpoint locate_original (names : list string) (id : value)
    : M (option (string * doc)) :=
  match names with
  | [] => ret None
  | name :: rest =>
      let* found :=
        try_catch (let* oid_ := new_ObjectId id in findOne_id name oid_)
                  (fun _ => ret VNull) in
      match found with
      | VObj d => ret (Some (name, d))
      | _ => locate_original rest id
      end
  end.

(** [action === 'approve' ? a : b] *)
Definition if_approve {A} (action : value) (a b : A) : A :=
  if is_str action "approve" then a else b.

(** The record archived by [PUT /api/orders/return-request/:requestId]. *)
Definition archivedRecord_of (requestObjectId : oid) (action staffNotes returnImage : value)
    (returnRequest : doc) (originalOrder : value)
    (originalOrderCollectionName : value) (processedAt : value) : doc :=
  let decisionStatus := VStr (if_approve action "accepted" "rejected") in
  let originalOrderId := dget returnRequest "originalOrderId" in
  [("requestId", VOid requestObjectId);
   ("status", decisionStatus);
   ("action", action);
   ("staffNotes", (staffNotes || VStr EmptyString)%js);
   ("staffDecisionImage", (returnImage || VNull)%js);
   ("originalOrderId", (originalOrderId || VNull)%js);
   ("orderNumber",
     (dget returnRequest "orderNumber" || prop originalOrder "orderNumber"
      || (if truthy originalOrderId
          then VStr ("ORD-" +:+ slice_last6 (ToString originalOrderId))
          else VNull))%js);
   ("customerName",
     (dget returnRequest "customerName" || prop originalOrder "fullName"
      || prop originalOrder "customerName" || prop originalOrder "buyerinfo"
      || VStr "N/A")%js);
   ("customerEmail",
     (dget returnRequest "customerEmail" || prop originalOrder "email" || VStr "N/A")%js);
   ("customerPhone",
     (dget returnRequest "customerPhone" || prop originalOrder "phoneNumber" || VStr "N/A")%js);
   ("returnType", (dget returnRequest "returnType" || VStr "return")%js);
   ("customerReason",
     (dget returnRequest "reason" || dget returnRequest "returnReason" || VStr EmptyString)%js);
   ("selectedItems",
     (dget returnRequest "selectedItems" || dget returnRequest "itemsordered"
      || prop originalOrder "itemsordered" || VArr [])%js);
   ("customerImage", (dget returnRequest "returnImage" || VNull)%js);
   ("staffDecision", decisionStatus);
   ("originalOrderCollection", originalOrderCollectionName);
   ("submittedAt",
     (dget returnRequest "submittedAt" || dget returnRequest "createdAt" || processedAt)%js);
   ("processedAt", processedAt);
   ("processedBy", VStr "staff");
   ("requestSnapshot", VObj returnRequest);
   ("originalOrderSnapshot", (originalOrder || VNull)%js)].

(** [staffNotes ? `${label}${staffNotes}` : otherwise] *)
Definition notes_or (staffNotes : value) (label otherwise : string) : string :=
  if truthy staffNotes then label +:+ ToString staffNotes else otherwise.

(** [PUT /api/orders/return-request/:requestId] *)
Definition process_return_request (requestId : string) (req_body : doc) : M response :=
  try_catch
    (let action := dget req_body "action" in
     let staffNotes := dget req_body "staffNotes" in
     let returnImage := dget req_body "returnImage" in
     if negb (includes ["approve"; "reject"] action) then
       json 400 [("success", VBool false);
                 ("message", VStr "Invalid action. Must be 'approve' or 'reject'")]
     else
       let* requestObjectId := new_ObjectId (VStr requestId) in
       (* Find the return request *)
       let* returnRequest := findOne_id "ReturnRequests" requestObjectId in
       match returnRequest with
       | VObj returnRequest =>
           (* Gather original order details (if still present in any collection) *)
           let* located :=
             locate_original ["DeliveredOrders"; "AcceptedOrders"; "PendingOrders"; "Orders"]
                             (dget returnRequest "originalOrderId") in
           let originalOrder :=
             match located with Some (_, d) => VObj d | None => VNull end in
           let originalOrderCollectionName :=
             match located with Some (name, _) => VStr name | None => VNull end in
           let* processedAt := new_Date in
           let decisionStatus := VStr (if_approve action "accepted" "rejected") in
           let archivedRecord :=
             archivedRecord_of requestObjectId action staffNotes returnImage returnRequest
               originalOrder originalOrderCollectionName processedAt in
           let* archiveResult := insertOne "ReturnedOrders" archivedRecord in
           if negb (acknowledged archiveResult) then
             throw "Failed to archive return request"
           else
           (* Remove the original return request only after successful archive *)
           let* deletedCount := deleteOne_id "ReturnRequests" requestObjectId in
           if deletedCount =? 0 then
             swallow (deleteOne_id "ReturnedOrders" (insertedId archiveResult)) ;;
             throw "Failed to remove original return request"
           else
           (* If the return was accepted and we located the original order, remove it
              from its collection *)
           (match located with
            | Some (name, _) =>
                if is_str action "approve" then
                  let* oid_ := new_ObjectId (dget returnRequest "originalOrderId") in
                  swallow (deleteOne_id name oid_)
                else ret tt
            | None => ret tt
            end) ;;
           (* Create notifications for both user and staff *)
           let userId :=
             (dget returnRequest "userId" || prop originalOrder "userId"
              || prop originalOrder "customerId" || VNull)%js in
           let orderNumber := dget archivedRecord "orderNumber" in
           let customerName := dget archivedRecord "customerName" in
           (* Create user notification *)
           (if truthy userId then
              try_catch
                (let userNotification :=
                   [("userId", userId);
                    ("title", VStr (if_approve action "↩️ Return Request Approved"
                                                      "🚫 Return Request Rejected"));
                    ("message",
                      VStr (if_approve action
                              ("Your return request for order " +:+ ToString orderNumber
                               +:+ " has been approved. "
                               +:+ notes_or staffNotes "Staff notes: "
                                     "We will begin processing the return shortly.")
                              ("Your return request for order " +:+ ToString orderNumber
                               +:+ " has been rejected. "
                               +:+ notes_or staffNotes "Reason: "
                                     "Please contact us if you would like to discuss this decision.")));
                    ("type", VStr (if_approve action "order_return_approved"
                                                     "order_return_rejected"));
                    ("orderId", (dget returnRequest "originalOrderId" || VNull)%js);
                    ("orderNumber", orderNumber);
                    ("requestId", VStr requestId);
                    ("returnType", dget archivedRecord "returnType");
                    ("staffNotes", (staffNotes || VNull)%js);
                    ("read", VBool false);
                    ("createdAt", processedAt)] in
                 insertOne "UserNotifications" userNotification ;;
                 ret tt)
                (fun _ =>
                   (* Don't fail the entire request if notification creation fails *)
                   console_error "❌ Error creating user notification:")
            else ret tt) ;;
           (* Create staff notification *)
           try_catch
             (let staffNotification :=
                [("title", VStr (if_approve action "✅ Return Request Processed (Approved)"
                                                   "❌ Return Request Processed (Rejected)"));
                 ("message",
                   VStr ("Return request for order " +:+ ToString orderNumber +:+ " ("
                         +:+ ToString customerName +:+ ") has been "
                         +:+ if_approve action "approved" "rejected" +:+ ". "
                         +:+ notes_or staffNotes "Notes: " EmptyString));
                 ("type", VStr (if_approve action "return_processed_approved"
                                                  "return_processed_rejected"));
                 ("orderId", (dget returnRequest "originalOrderId" || VNull)%js);
                 ("orderNumber", orderNumber);
                 ("requestId", VStr requestId);
                 ("customerName", customerName);
                 ("customerEmail", dget archivedRecord "customerEmail");
                 ("returnType", dget archivedRecord "returnType");
                 ("decision", decisionStatus);
                 ("staffNotes", (staffNotes || VNull)%js);
                 ("archivedId", VOid (insertedId archiveResult));
                 ("read", VBool false);
                 ("createdAt", processedAt);
                 ("priority", VStr "medium")] in
              insertOne "StaffNotifications" staffNotification ;;
              ret tt)
             (fun _ =>
                (* Don't fail the entire request if notification creation fails *)
                console_error "❌ Error creating staff notification:") ;;
           json 200 [("success", VBool true);
                     ("message", VStr ("Return request " +:+ ToString action
                                       +:+ "d successfully"));
                     ("status", decisionStatus);
                     ("archivedId", VOid (insertedId archiveResult))]
       | _ =>
           json 404 [("success", VBool false); ("message", VStr "Return request not found")]
       end)
    (fun message =>
       console_error "❌ Error processing return request:" ;;
       json 500 [("success", VBool false);
                 ("message", VStr "Failed to process return request");
                 ("error", VStr message)]).

(** The [for] loop of the approve branch of
    [PUT /api/orders/cancellation-request/:requestId]: the original order,
    if one of the collections still holds it, is copied to [CancelledOrders]
    and removed. *)
Fixpoint move_to_cancelled (names : list string) (cancellationRequest : doc)
    (requestId : string) : M unit :=
  match names with
  | [] => ret tt
  | name :: rest =>
      let* oid_ := new_ObjectId (dget cancellationRequest "originalOrderId") in
      let* originalOrder := findOne_id name oid_ in
      match originalOrder with
      | VObj originalOrder =>
          (* Move to CancelledOrders *)
          let* cancelledAt := new_Date in
          let cancelledOrder :=
            dspread originalOrder
              [("cancellationReason", dget cancellationRequest "reason");
               ("cancelledAt", cancelledAt);
               ("cancellationProcessedBy", VStr "staff");
               ("cancellationRequestId", VStr requestId)] in
          let cancelledOrder := ddel cancelledOrder "_id" in
          insertOne "CancelledOrders" cancelledOrder ;;
          (* Remove from original collection *)
          let* oid2 := new_ObjectId (dget cancellationRequest "originalOrderId") in
          deleteOne_id name oid2 ;;
          ret tt
      | _ => move_to_cancelled rest cancellationRequest requestId
      end
  end.

(** [PUT /api/orders/cancellation-request/:requestId] *)
Definition process_cancellation_request (requestId : string) (req_body : doc) : M response :=
  try_catch
    (let action := dget req_body "action" in
     let staffNotes := dget req_body "staffNotes" in
     if negb (includes ["approve"; "reject"] action) then
       json 400 [("success", VBool false);
                 ("message", VStr "Invalid action. Must be 'approve' or 'reject'")]
     else
       (* Find the cancellation request *)
       let* oid_ := new_ObjectId (VStr requestId) in
       let* cancellationRequest := findOne_id "CancellationRequests" oid_ in
       match cancellationRequest with
       | VObj cancellationRequest =>
           (* Update the cancellation request status *)
           let* processedAt := new_Date in
           let updateData :=
             [("status", VStr (if_approve action "approved" "rejected"));
              ("processedAt", processedAt);
              ("processedBy", VStr "staff");
              ("staffNotes", (staffNotes || VStr EmptyString)%js)] in
           let* oid2 := new_ObjectId (VStr requestId) in
           updateOne_set "CancellationRequests" oid2 updateData ;;
           (* If approved, move the original order to CancelledOrders collection *)
           (if is_str action "approve" then
              move_to_cancelled ["PendingOrders"; "AcceptedOrders"] cancellationRequest requestId
            else ret tt) ;;
           json 200 [("success", VBool true);
                     ("message", VStr ("Cancellation request " +:+ ToString action
                                       +:+ "d successfully"));
                     ("status", dget updateData "status")]
       | _ =>
           json 404 [("success", VBool false);
                     ("message", VStr "Cancellation request not found")]
       end)
    (fun message =>
       console_error "❌ Error processing cancellation request:" ;;
       json 500 [("success", VBool false);
                 ("message", VStr "Failed to process cancellation request");
                 ("error", VStr message)]).

End OrderLifecycle.

(** ** Running a handler *)

Definition initial (db : Database) : State :=
  {| st_db := db; st_calls := []; st_log := [] |}.

Definition run {A} (m : M A) (e : Env) (db : Database) : outcome A * State :=
  m e (initial db).

(** No concurrent request, no failing call. *)
Definition quiet (gen : nat -> oid) (now : nat -> Z) : Env :=
  {| env_oid := gen; env_now := now;
     env_interfere := fun _ db => db; env_fault := fun _ _ _ => false |}.

(** ** A reference runtime, for evaluating the handlers on examples

    Decimal integers convert to and from strings; identifiers are the
    24 character hexadecimal strings, in lower case. *)
Definition ref_ToNumber (v : value) : option Z :=
  match v with
  | VNum n => Some n
  | VNull => Some 0
  | VBool b => Some (if b then 1 else 0)
  | VDate t => Some t
  | _ => None
  end.

Definition ref_ToString (v : value) : string :=
  match v with
  | VUndef => "undefined"
  | VNull => "null"
  | VBool b => if b then "true" else "false"
  | VNum n => pretty n
  | VStr s => s
  | VOid o => o
  | VDate _ => "[Date]"
  | VInvalidDate => "Invalid Date"
  | VArr _ => "[Array]"
  | VObj _ => "[object Object]"
  end.

Definition ref_ObjectId_new (v : value) : option oid :=
  match v with
  | VOid o => Some o
  | VStr s => if is_hex24 s then Some (toLowerCase s) else None
  | _ => None
  end.

#[local] Instance ref_runtime : Runtime.
Proof.
  refine {| ToNumber := ref_ToNumber;
            ToString := ref_ToString;
            ObjectId_new := ref_ObjectId_new;
            js_plus_other := fun a b => VStr (ref_ToString a +:+ ref_ToString b) |};
    intros; reflexivity.
Defined.

(** ** Environments with a concurrent request *)

(** One concurrent write [f] lands just before the [k]-th database call. *)
Definition racing (gen : nat -> oid) (now : nat -> Z) (k : nat)
    (f : Database -> Database) : Env :=
  {| env_oid := gen; env_now := now;
     env_interfere := fun i db => if Nat.eqb i k then f db else db;
     env_fault := fun _ _ _ => false |}.

(** A concurrent request removes order [o] from collection [src]. *)
Definition remove_order (src : string) (o : oid) (db : Database) : Database :=
  set_coll db src (delete o (coll db src)).

(** No concurrent request; only calls on the notification collections may
    reject. *)
Record notifier_only (e : Env) : Prop := {
  no_interference : forall k db, env_interfere e k db = db;
  only_notifier_faults : forall k op name,
    env_fault e k op name = true ->
    name = "UserNotifications" \/ name = "StaffNotifications"
}.

(** The notification collections reject every call. *)
Definition notifier_down (gen : nat -> oid) (now : nat -> Z) : Env :=
  {| env_oid := gen; env_now := now;
     env_interfere := fun _ db => db;
     env_fault := fun _ _ name =>
       String.eqb name "UserNotifications" || String.eqb name "StaffNotifications" |}.

(** ** Vocabulary of the statements *)

(** The state test of [POST /api/orders/cancel-request]. *)
Definition cancellable (order : doc) : bool :=
  match (dget order "status" || VStr "pending")%js with
  | VStr s => includes ["pending"; "active"; "approved"] (VStr (toLowerCase s))
  | _ => false
  end.

(** [additionalComments] is a string, or absent. *)
Definition comments_ok (v : value) : bool :=
  match v with
  | VStr _ => true
  | _ => negb (truthy v)
  end.

(** The number of collections [POST /api/orders/cancel-request] looks
    into until it finds the order in [src]. *)
Definition lookups (src : string) : nat :=
  if String.eqb src "PendingOrders" then 1%nat else 2%nat.

(** The first of the collections [names] that holds a document with
    identifier [o], with that document. *)
Fixpoint first_holding (db : Database) (names : list string) (o : oid)
    : option (string * doc) :=
  match names with
  | [] => None
  | name :: rest =>
      match coll db name !! o with
      | Some d => Some (name, d)
      | None => first_holding db rest o
      end
  end.

(** The collections a return decision searches for the original order. *)
Definition order_collections : list string :=
  ["DeliveredOrders"; "AcceptedOrders"; "PendingOrders"; "Orders"].

Definition lookup_call (name : string) : call :=
  {| call_op := OpFindOne; call_coll := name; call_ok := true |}.

Definition insert_call (name : string) (ok : bool) : call :=
  {| call_op := OpInsertOne; call_coll := name; call_ok := ok |}.

Definition user_log : string := "❌ Error creating user notification:".
Definition staff_log : string := "❌ Error creating staff notification:".

Definition is_oid (v : value) : Prop := exists o, v = VOid o.

(** Every stored cancellation request carries the order identifier as a
    string, as the requests written by [POST /api/orders/cancel-request]
    do. *)
Definition requests_by_endpoint (db : Database) : Prop :=
  forall id d, coll db "CancellationRequests" !! id = Some d ->
               exists s, dget d "originalOrderId" = VStr s.

(** The stock level of product [p], when it is a number. *)
Definition stock (db : Database) (p : oid) : option Z :=
  match coll db "Products" !! p with
  | Some d => match dget d "stockQuantity" with VNum n => Some n | _ => None end
  | None => None
  end.

(** The total quantity a list of items asks for product [p]. *)
Fixpoint requested (items : list (oid * Z)) (p : oid) : Z :=
  match items with
  | [] => 0
  | (o, q) :: rest => (if String.eqb o p then q else 0) + requested rest p
  end.

Section Vocabulary.
Context `{Runtime}.

(** The product and the quantity a well-formed item of a stock batch
    designates. *)
Definition item_of (v : value) : option (oid * Z) :=
  match v with
  | VUndef | VNull => None
  | _ =>
      match prop v "quantity" with
      | VNum q =>
          if truthy (prop v "id")
          then (fun o => (o, q)) <$> ObjectId_new (prop v "id")
          else None
      | _ => None
      end
  end.

(** [originalOrder.orderNumber || `ORD-${orderId.slice(-6)}`] for a string
    [orderId]. *)
Definition order_number (order : doc) (sid : string) : value :=
  if truthy (dget order "orderNumber") then dget order "orderNumber"
  else VStr ("ORD-" +:+ ToString (VStr (slice_last6 sid))).

(** The original order of a return request, where the decision finds it. *)
Definition original_of (db : Database) (request : doc) : option (string * doc) :=
  match ObjectId_new (dget request "originalOrderId") with
  | Some o => first_holding db order_collections o
  | None => None
  end.

(** The user a return decision notifies, if any. *)
Definition notified_user (db : Database) (request : doc) : value :=
  let originalOrder :=
    match original_of db request with Some (_, d) => VObj d | None => VNull end in
  (dget request "userId" || prop originalOrder "userId"
   || prop originalOrder "customerId" || VNull)%js.

End Vocabulary.

(** ** Example data *)

Definition gen0 (k : nat) : oid := "00000000000000000000000" +:+ pretty (Z.of_nat k).
Definition now0 (k : nat) : Z := 1700000000000 + Z.of_nat k.

Definition order1 : oid := "65a1b2c3d4e5f60718293a4b".

Definition pending_order : doc :=
  [("_id", VOid order1); ("userId", VStr "42"); ("email", VStr "ann@example.com");
   ("fullName", VStr "Ann"); ("total", VNum 300); ("status", VStr "active");
   ("itemsordered", VArr [VObj [("name", VStr "Hammer"); ("quantity", VNum 1)]])].

Definition db_pending : Database :=
  {[ "PendingOrders" := {[ order1 := pending_order ]} ]}.

Definition move_body : doc :=
  [("orderId", VStr order1); ("operation", VStr "accept");
   ("fromCollection", VStr "pending"); ("toCollection", VStr "accepted")].

Definition cancel_body : doc :=
  [("orderId", VStr order1); ("reason", VStr "Ordered by mistake")].

Definition approve_body : doc := [("action", VStr "approve")].
Definition reject_body : doc := [("action", VStr "reject")].
Definition check_body : doc := [("orderIds", VArr [VStr order1])].

(** The database after the cancel-request for [order1]. *)
Definition db_cancel_requested : Database :=
  st_db (snd (run (cancel_request cancel_body) (quiet gen0 now0) db_pending)).

Definition cancellation_request1 : doc :=
  default [] (coll db_cancel_requested "CancellationRequests" !! gen0 1).

Definition live_partitions : list string :=
  ["PendingOrders"; "AcceptedOrders"; "DeliveredOrders"; "DeniedOrders";
   "ReturnedOrders"; "CancelledOrders"; "WalkInOrders"].

(** A delivered order of a customer known by e-mail address only. *)
Definition guest_order : doc :=
  [("_id", VOid order1); ("email", VStr "guest@example.com");
   ("fullName", VStr "Guest"); ("total", VNum 120); ("status", VStr "delivered");
   ("orderNumber", VStr "ORD-1001");
   ("itemsordered", VArr [VObj [("name", VStr "Nails"); ("quantity", VNum 2)]])].

Definition db_delivered : Database :=
  {[ "DeliveredOrders" := {[ order1 := guest_order ]} ]}.

Definition image1 : string := "data:image/png;base64,iVBORw0KGgo=".

Definition return_body : doc :=
  [("orderId", VStr order1); ("returnType", VStr "return");
   ("selectedItems", VArr [VObj [("name", VStr "Nails"); ("quantity", VNum 2)]]);
   ("reason", VStr "Damaged"); ("returnImage", VStr image1)].

(** The database after the return request for [order1] was submitted. *)
Definition db_return_requested : Database :=
  st_db (snd (run (return_request return_body) (quiet gen0 now0) db_delivered)).

Definition return_request1 : doc :=
  default [] (coll db_return_requested "ReturnRequests" !! gen0 1).

(** A delivered order of a registered customer, with a return request. *)
Definition db_delivered_user : Database :=
  {[ "DeliveredOrders" := {[ order1 := pending_order ]} ]}.

Definition db_return_requested_user : Database :=
  st_db (snd (run (return_request return_body) (quiet gen0 now0) db_delivered_user)).

Definition return_request2 : doc :=
  default [] (coll db_return_requested_user "ReturnRequests" !! gen0 1).

Definition pA : oid := "aaaaaaaaaaaaaaaaaaaaaaaa".
Definition pB : oid := "bbbbbbbbbbbbbbbbbbbbbbbb".

Definition product (id : oid) (name : string) (level : Z) : doc :=
  [("_id", VOid id); ("name", VStr name); ("stockQuantity", VNum level);
   ("isActive", VBool true)].

(** A hammer with 5 in stock, nails with 2. *)
Definition db_products : Database :=
  {[ "Products" := {[ pA := product pA "Hammer" 5; pB := product pB "Nails" 2 ]} ]}.

Definition upd (id : oid) (q : Z) : value := VObj [("id", VStr id); ("quantity", VNum q)].

Definition batch (l : list value) : doc := [("updates", VArr l)].

(** The database after 3 hammers were taken. *)
Definition db_products_after : Database :=
  st_db (snd (run (bulk_stock (batch [upd pA 3])) (quiet gen0 now0) db_products)).

(** ** The claims that do not hold, as stated *)

(** C4 as stated: when some item of a batch asks for more than its product
    has, the batch is answered 400 and no product's stock has changed. *)
Definition claim_bulk_stock_all_or_nothing : Prop :=
  forall (R : Runtime) (gen : nat -> oid) (now : nat -> Z) (db : Database)
         (updates : list value) (u : value) (o : oid) (q n : Z) r s',
    In u updates ->
    item_of u = Some (o, q) ->
    stock db o = Some n ->
    n < q ->
    run (bulk_stock (batch updates)) (quiet gen now) db = (Done r, s') ->
    status r = 400 /\ forall p, stock (st_db s') p = stock db p.

(** C5 as stated: after a reservation and a restoration of the same items,
    every product's stock is at its level before the reservation. *)
Definition claim_reserve_restore_round_trip : Prop :=
  forall (R : Runtime) (gen : nat -> oid) (now : nat -> Z) (db : Database)
         (items : list value) (reservationId : value) r1 s1 r2 s2,
    run (reserve_stock [("items", VArr items); ("reservationId", reservationId)])
        (quiet gen now) db = (Done r1, s1) ->
    status r1 = 200 ->
    run (restore_stock [("items", VArr items)]) (quiet gen now) (st_db s1) = (Done r2, s2) ->
    status r2 = 200 ->
    forall p, stock (st_db s2) p = stock db p.

(** C9 as stated: every return decision creates a user notification, and
    then a staff notification. *)
Definition claim_return_decision_notifies_user : Prop :=
  forall (R : Runtime) (gen : nat -> oid) (now : nat -> Z) (db : Database)
         (requestId : string) (req_body : doc) (rid : oid) (request : doc) r s',
    includes ["approve"; "reject"] (dget req_body "action") = true ->
    ObjectId_new (VStr requestId) = Some rid ->
    coll db "ReturnRequests" !! rid = Some request ->
    run (process_return_request requestId req_body) (quiet gen now) db = (Done r, s') ->
    exists (before : list call) ok_user ok_staff,
      st_calls s' = (before ++ [insert_call "UserNotifications" ok_user;
                                insert_call "StaffNotifications" ok_staff])%list.

(** ** The rest of the server

    The handlers below are the neighbours of the ones above in the same
    file: the verification codes of the registration, the other endpoints
    of the stock ledger, the look-ups and status updates of orders, the
    addresses of a user, the staff notifications, and the route table that
    dispatches to all of them. *)

(** *** More of the runtime

    Operators on operands the integer fragment above does not cover, the
    random number generator, and the order a [$sort] stage produces. *)
Class Host := {
  (** [a >= b] on operands that are not both numbers. *)
  js_ge_other : value -> value -> bool;
  (** [a - b] on operands that are not both numbers. *)
  js_minus_other : value -> value -> value;
  (** [Math.random()], one draw per point of the request. *)
  Math_random : nat -> QArith_base.Q;
  Math_random_range : forall k,
    QArith_base.Qle (QArith_base.inject_Z 0) (Math_random k)
    /\ QArith_base.Qlt (Math_random k) (QArith_base.inject_Z 1);
  (** [{ $sort: { field: -1 } }] applied to the documents a stage yields. *)
  sort_desc : string -> list doc -> list doc;
  sort_desc_perm : forall field l, Permutation (sort_desc field l) l
}.

(** [a - b] *)
Definition js_minus `{Host} (a b : value) : value :=
  match a, b with
  | VNum x, VNum y => VNum (x - y)
  | _, _ => js_minus_other a b
  end.

(** [a >= b] *)
Definition js_ge `{Host} (a b : value) : bool :=
  match a, b with
  | VNum x, VNum y => y <=? x
  | _, _ => js_ge_other a b
  end.

(** [a >= q] where [q] is known to be a number: the left operand is
    converted with ToNumber, and a comparison with [NaN] is false. *)
Definition js_ge_num `{Runtime} (a : value) (q : Z) : bool :=
  match ToNumber a with
  | Some x => q <=? x
  | None => false
  end.

(** [new Date() > v] at time [t]: both sides are compared as numbers, a
    date by its time value. *)
Definition date_gt `{Runtime} (t : Z) (v : value) : bool :=
  match v with
  | VDate e => e <? t
  | VInvalidDate => false
  | _ => match ToNumber v with
         | Some x => x <? t
         | None => false
         end
  end.

(** [Math.floor(1000 + Math.random() * 9000)] *)
Definition four_digits `{Host} : M Z :=
  fun e s =>
    (Done (Qround.Qfloor
             (QArith_base.Qplus (QArith_base.inject_Z 1000)
                (QArith_base.Qmult (Math_random (ticks s)) (QArith_base.inject_Z 9000)))),
     s).

(** [v.toLowerCase()]; [what] is the text of the receiver. *)
Definition method_toLowerCase (what : string) (v : value) : M string :=
  match v with
  | VStr s => ret (toLowerCase s)
  | VUndef | VNull =>
      throw "TypeError: Cannot read properties of undefined (reading 'toLowerCase')"
  | _ => throw ("TypeError: " +:+ what +:+ ".toLowerCase is not a function")
  end.

(** *** More collection operations *)

(** [{ field: x }] for an operand [x] that is neither [null] nor an
    operator document: the field equals [x], or is an array with an element
    equal to [x]. *)
Definition mongo_eq (v x : value) : bool := mongo_in v [x].

(** The documents of a collection, in the order the collection enumerates
    them. *)
Definition documents (db : Database) (name : string) : list doc :=
  map snd (map_to_list (coll db name)).

(** [collection.findOne(filter)]: the first document the filter selects,
    or [null]. *)
Definition findOne_where (name : string) (filter : doc -> bool) : M value :=
  db_call OpFindOne name (fun _ db =>
    (Done (match List.filter filter (documents db name) with
           | d :: _ => VObj d
           | [] => VNull
           end), db)).

(** [collection.deleteMany(filter)]: the [deletedCount].  It is recorded as
    a delete call. *)
Definition deleteMany (name : string) (filter : doc -> bool) : M Z :=
  db_call OpDeleteOne name (fun _ db =>
    (Done (Z.of_nat (length (List.filter filter (documents db name)))),
     set_coll db name
       (base.filter (fun kv : oid * doc => filter (snd kv) = false) (coll db name)))).

(** [collection.updateMany(filter, { $set: fields })].  It is recorded as
    an update call. *)
Definition updateMany_set (name : string) (filter : doc -> bool) (fields : doc)
    : M UpdateResult :=
  db_call OpUpdateOne name (fun _ db =>
    let touched := List.filter filter (documents db name) in
    let changed :=
      List.filter (fun d => negb (value_eqb (VObj d)
                                            (VObj (dspread d (doc_to_bson fields)))))
                  touched in
    (Done {| matchedCount := Z.of_nat (length touched);
             modifiedCount := Z.of_nat (length changed) |},
     set_coll db name
       ((fun d => if filter d then dspread d (doc_to_bson fields) else d)
          <$> coll db name))).

(** An update that selects no document. *)
Definition updateOne_nothing (name : string) : M UpdateResult :=
  db_call OpUpdateOne name (fun _ db => (Done (update_result false [] []), db)).

(** [collection.updateOne({ _id: v }, { $set: fields })] for a value [v]
    read from a document: identifiers are the only keys of a collection. *)
Definition updateOne_set_by (name : string) (v : value) (fields : doc)
    : M UpdateResult :=
  match v with
  | VOid o => updateOne_set name o fields
  | _ => updateOne_nothing name
  end.

(** [collection.updateOne({ _id: v }, { $inc: { [field]: q } })] *)
Definition updateOne_inc_by (name : string) (v : value) (field : string) (q : Z)
    : M UpdateResult :=
  match v with
  | VOid o => updateOne_inc name o field q
  | _ => updateOne_nothing name
  end.

(** [collection.deleteOne({ _id: v })] *)
Definition deleteOne_by (name : string) (v : value) : M Z :=
  match v with
  | VOid o => deleteOne_id name o
  | _ => db_call OpDeleteOne name (fun _ db => (Done 0, db))
  end.

(** *** Verification codes *)

Section VerificationCodes.
Context `{Runtime} `{Host}.

(** [POST /api/auth/create-verification-code] *)
Definition create_verification_code (req_body : doc) : M response :=
  try_catch
    (let email := dget req_body "email" in
     let userName := dget req_body "userName" in
     if negb (truthy email) then
       json 400 [("success", VBool false); ("message", VStr "Email is required")]
     else
       (* Generate 4-digit verification code *)
       let* verificationCode := four_digits in
       (* Check if there's an existing code for this email *)
       let* lowered := method_toLowerCase "email" email in
       deleteMany "AuthCodes" (fun d => mongo_eq (dget d "email") (VStr lowered)) ;;
       (* Create new verification code entry *)
       let* lowered := method_toLowerCase "email" email in
       let* createdAt := new_Date in
       let* now := Date_now in
       let codeEntry :=
         [("email", VStr lowered);
          ("verificationCode", VNum verificationCode);
          ("userName", (userName || VStr EmptyString)%js);
          ("createdAt", createdAt);
          ("expiresAt", VDate (now + 15 * 60 * 1000));
          ("used", VBool false);
          ("attempts", VNum 0);
          ("maxAttempts", VNum 5)] in
       let* result := insertOne "AuthCodes" codeEntry in
       if truthy (VOid (insertedId result)) then
         json 200 [("success", VBool true);
                   ("message", VStr "Verification code created successfully");
                   ("codeId", VOid (insertedId result));
                   ("verificationCode", VNum verificationCode)]
       else throw "Failed to save verification code")
    (fun _ =>
       console_error "Error creating verification code:" ;;
       json 500 [("success", VBool false);
                 ("message", VStr "Failed to create verification code")]).

(** [POST /api/auth/verify-code] *)
Definition verify_code (req_body : doc) : M response :=
  try_catch
    (let email := dget req_body "email" in
     let code := dget req_body "code" in
     if negb (truthy email) || negb (truthy code) then
       json 400 [("success", VBool false);
                 ("message", VStr "Email and verification code are required")]
     else
       (* Find the verification code entry *)
       let* lowered := method_toLowerCase "email" email in
       let* codeEntry :=
         findOne_where "AuthCodes" (fun d =>
           mongo_eq (dget d "email") (VStr lowered)
           && mongo_eq (dget d "used") (VBool false)) in
       if negb (truthy codeEntry) then
         json 400 [("success", VBool false);
                   ("message", VStr "No valid verification code found for this email")]
       else
         (* Check if code has expired *)
         let* now := Date_now in
         if date_gt now (prop codeEntry "expiresAt") then
           let* expiredAt := new_Date in
           updateOne_set_by "AuthCodes" (prop codeEntry "_id")
             [("used", VBool true); ("expiredAt", expiredAt)] ;;
           json 400 [("success", VBool false);
                     ("message",
                       VStr "Verification code has expired. Please request a new one.")]
         else
         (* Check if max attempts reached *)
         if js_ge (prop codeEntry "attempts") (prop codeEntry "maxAttempts") then
           updateOne_set_by "AuthCodes" (prop codeEntry "_id")
             [("used", VBool true); ("maxAttemptsReached", VBool true)] ;;
           json 400 [("success", VBool false);
                     ("message",
                       VStr "Maximum verification attempts exceeded. Please request a new code.")]
         else
         (* Verify the code *)
         if negb (String.eqb (ToString (prop codeEntry "verificationCode")) (ToString code))
         then
           (* Increment attempts *)
           updateOne_inc_by "AuthCodes" (prop codeEntry "_id") "attempts" 1 ;;
           let remainingAttempts :=
             js_minus (prop codeEntry "maxAttempts")
                      (js_plus (prop codeEntry "attempts") (VNum 1)) in
           json 400 [("success", VBool false);
                     ("message",
                       VStr ("Invalid verification code. " +:+ ToString remainingAttempts
                             +:+ " attempts remaining."))]
         else
           (* Code is valid - mark as used *)
           let* verifiedAt := new_Date in
           updateOne_set_by "AuthCodes" (prop codeEntry "_id")
             [("used", VBool true); ("verifiedAt", verifiedAt); ("successful", VBool true)] ;;
           json 200 [("success", VBool true);
                     ("message", VStr "Verification code verified successfully");
                     ("userName", prop codeEntry "userName")])
    (fun _ =>
       console_error "Error verifying code:" ;;
       json 500 [("success", VBool false); ("message", VStr "Failed to verify code")]).

End VerificationCodes.

(** *** Stock ledger: the checks *)

Section StockChecks.
Context `{Runtime}.

(** The [for ... of] loop of [POST /api/products/validate-stock]. *)
Fixpoint validate_stock_loop (items : list value) (validationResults : list value)
    (allValid : bool) : M response :=
  match items with
  | [] =>
      json 200 [("success", VBool true);
                ("allValid", VBool allValid);
                ("items", VArr validationResults)]
  | item :: rest =>
      let* id := member item "id" in
      let* quantity := member item "quantity" in
      match quantity with
      | VNum q =>
          if negb (truthy id) then
            json 400 [("error", VStr "Each item must have id and quantity")]
          else
            let* oid_ := new_ObjectId id in
            let* product := findOne_id "Products" oid_ in
            if negb (truthy product) then
              validate_stock_loop rest
                (validationResults ++
                 [VObj [("id", id);
                        ("name", VStr "Unknown Product");
                        ("requestedQuantity", quantity);
                        ("availableStock", VNum 0);
                        ("valid", VBool false);
                        ("error", VStr "Product not found")]])
                false
            else
              let isValid := js_ge_num (prop product "stockQuantity") q in
              validate_stock_loop rest
                (validationResults ++
                 [VObj [("id", id);
                        ("name", prop product "name");
                        ("requestedQuantity", quantity);
                        ("availableStock", prop product "stockQuantity");
                        ("valid", VBool isValid);
                        ("error", if isValid then VNull else VStr "Insufficient stock")]])
                (if isValid then allValid else false)
      | _ => json 400 [("error", VStr "Each item must have id and quantity")]
      end
  end.

(** [POST /api/products/validate-stock] *)
Definition validate_stock (req_body : doc) : M response :=
  try_catch
    (let items := dget req_body "items" in
     match items with
     | VArr l => validate_stock_loop l [] true
     | _ => json 400 [("error", VStr "Items array is required")]
     end)
    (fun _ =>
       console_error "❌ Error validating stock:" ;;
       json 500 [("error", VStr "Failed to validate stock")]).

(** [PUT /api/products/:id/stock] *)
Definition update_stock (id : string) (req_body : doc) : M response :=
  try_catch
    (let quantity := dget req_body "quantity" in
     match quantity with
     | VNum q =>
         if q <? 0 then json 400 [("error", VStr "Invalid quantity")]
         else
           let* oid_ := new_ObjectId (VStr id) in
           let* result := updateOne_set "Products" oid_ [("stockQuantity", quantity)] in
           if matchedCount result =? 0 then
             json 404 [("error", VStr "Product not found")]
           else
             json 200 [("success", VBool true);
                       ("message", VStr "Stock updated successfully")]
     | _ => json 400 [("error", VStr "Invalid quantity")]
     end)
    (fun _ =>
       console_error "Error updating stock:" ;;
       json 500 [("error", VStr "Failed to update stock")]).

(** The test [POST /api/products/validate-stock] applies to an item: the
    product exists and its stock covers the quantity. *)
Definition in_stock (db : Database) (it : oid * Z) : bool :=
  match coll db "Products" !! fst it with
  | Some d => js_ge_num (dget d "stockQuantity") (snd it)
  | None => false
  end.

End StockChecks.

(** Every product that had a stock level of zero or more in [db0] has one
    in [db]. *)
Definition stock_kept_non_negative (db0 db : Database) : Prop :=
  forall p n, stock db0 p = Some n -> 0 <= n ->
              exists n', stock db p = Some n' /\ 0 <= n'.

(** A read of the products. *)
Definition product_read (c : call) : Prop :=
  call_op c = OpFindOne /\ call_coll c = "Products".

(** *** Triples

    From a state in [P], a result of [m] with the state it leaves is in
    [Q], and an exception leaves a state in [X]. *)
Definition triple {A} (e : Env) (P : State -> Prop) (m : M A)
    (Q : A -> State -> Prop) (X : State -> Prop) : Prop :=
  forall s r s', P s -> m e s = (r, s') ->
    match r with
    | Done a => Q a s'
    | Thrown _ => X s'
    end.

(** A property of the database and of the calls made, whatever was
    logged. *)
Definition on (I : Database -> list call -> Prop) (s : State) : Prop :=
  I (st_db s) (st_calls s).

(** *** Looking an order up *)

Section OrderLookups.
Context `{Runtime}.

(** [v.toString()] *)
Definition method_toString (v : value) : M string :=
  match v with
  | VUndef | VNull =>
      throw "TypeError: Cannot read properties of undefined (reading 'toString')"
  | _ => ret (ToString v)
  end.

(** The collections of [GET /api/orders/details/:orderId]: the name and the
    display status reported, and the collection searched. *)
Definition detail_collections : list (string * string * string) :=
  [("pending", "pending", "PendingOrders");
   ("accepted", "approved", "AcceptedOrders");
   ("delivered", "delivered", "DeliveredOrders");
   ("walkin", "completed", "WalkInOrders");
   ("returned", "returned", "ReturnedOrders")].

(** The [for] loop of [GET /api/orders/details/:orderId]: a lookup that
    throws is ignored. *)
Fixpoint details_search (collections : list (string * string * string))
    (orderId : string) : M value :=
  match collections with
  | [] => ret VNull
  | (name, displayStatus, collection) :: rest =>
      let* found :=
        try_catch (let* oid_ := new_ObjectId (VStr orderId) in findOne_id collection oid_)
                  (fun _ => ret VNull) in
      match found with
      | VObj found =>
          ret (VObj (dspread found
                       [("collection", VStr name);
                        ("displayStatus",
                          (dget found "displayStatus" || VStr displayStatus)%js)]))
      | _ => details_search rest orderId
      end
  end.

(** [GET /api/orders/details/:orderId] *)
Definition order_details (orderId : string) : M response :=
  try_catch
    (let* detailedOrder := details_search detail_collections orderId in
     match detailedOrder with
     | VObj detailedOrder => json 200 detailedOrder
     | _ => json 404 [("error", VStr "Order not found")]
     end)
    (fun _ =>
       console_error "❌ Error fetching order details:" ;;
       json 500 [("error", VStr "Failed to fetch order details")]).

(** [GET /api/orders/:orderId/return-documentation] *)
Definition return_documentation (orderId : string) : M response :=
  try_catch
    (if negb (truthy (VStr orderId)) then
       json 400 [("error", VStr "Order ID is required")]
     else
       (* Find the returned order *)
       let* oid_ := new_ObjectId (VStr orderId) in
       let* returnedOrder := findOne_id "ReturnedOrders" oid_ in
       match returnedOrder with
       | VObj returnedOrder =>
           (* Extract return documentation *)
           let* orderNumber :=
             if truthy (dget returnedOrder "orderNumber")
             then ret (dget returnedOrder "orderNumber")
             else (let* hex := method_toString (dget returnedOrder "_id") in
                   ret (VStr ("ORD-" +:+ slice_last6 hex))) in
           json 200
             [("orderId", dget returnedOrder "_id");
              ("orderNumber", orderNumber);
              ("customerName",
                (dget returnedOrder "fullName" || dget returnedOrder "buyerinfo"
                 || VStr "N/A")%js);
              ("returnReason",
                (dget returnedOrder "returnReason" || VStr "No reason provided")%js);
              ("returnImage", (dget returnedOrder "returnImage" || VNull)%js);
              ("returnedAt",
                (dget returnedOrder "returnedAt"
                 || dget returnedOrder "returnProcessingDate")%js);
              ("returnProcessedBy",
                (dget returnedOrder "returnProcessedBy" || VStr "staff")%js);
              ("returnImageUploadedAt",
                (dget returnedOrder "returnImageUploadedAt" || VNull)%js)]
       | _ => json 404 [("error", VStr "Returned order not found")]
       end)
    (fun message =>
       console_error "❌ Error fetching return documentation:" ;;
       json 500 [("error", VStr "Failed to fetch return documentation");
                 ("details", VStr message)]).

(** [PUT /api/orders/:orderId/status], as registered first. *)
Definition update_order_status (orderId : string) (req_body : doc) : M response :=
  try_catch
    (let status := dget req_body "status" in
     if negb (truthy status) then json 400 [("error", VStr "Status is required")]
     else
       let* oid_ := new_ObjectId (VStr orderId) in
       let* result := updateOne_set "PendingOrders" oid_ [("status", status)] in
       if matchedCount result =? 0 then json 404 [("error", VStr "Order not found")]
       else
         json 200 [("success", VBool true);
                   ("message", VStr ("Order status updated to " +:+ ToString status))])
    (fun _ =>
       console_error "Error updating order status:" ;;
       json 500 [("error", VStr "Failed to update order status")]).

(** [PUT /api/orders/:orderId/verify-payment] *)
Definition verify_payment (orderId : string) (req_body : doc) : M response :=
  try_catch
    (let verified := dget req_body "verified" in
     let verifiedBy := dget req_body "verifiedBy" in
     let verificationNotes := dget req_body "verificationNotes" in
     let* paymentVerificationDate := new_Date in
     let* updatedAt := new_Date in
     let updateData :=
       [("paymentVerified", verified);
        ("paymentVerifiedBy", verifiedBy);
        ("paymentVerificationNotes", (verificationNotes || VStr EmptyString)%js);
        ("paymentVerificationDate", paymentVerificationDate);
        ("updatedAt", updatedAt)] in
     (* If payment is verified, update status to "confirmed" *)
     let updateData :=
       if truthy verified then dset updateData "status" (VStr "confirmed")
       else updateData in
     let* oid_ := new_ObjectId (VStr orderId) in
     let* result := updateOne_set "PendingOrders" oid_ updateData in
     if matchedCount result =? 0 then json 404 [("error", VStr "Order not found")]
     else
       json 200 [("success", VBool true);
                 ("message",
                   VStr ("Payment " +:+ (if truthy verified then "verified" else "rejected")
                         +:+ " successfully"))])
    (fun _ =>
       console_error "Error updating payment verification:" ;;
       json 500 [("error", VStr "Failed to update payment verification")]).

End OrderLookups.

(** The fields a move sets on the copy, besides the order's own. *)
Definition move_stamps : list string :=
  ["_id"; "status"; "displayStatus"; "approvedAt"; "deliveredAt"; "deniedAt";
   "denialReason"; "returnedAt"; "returnReason"; "returnImage";
   "returnImageUploadedAt"; "returnProcessedBy"; "returnProcessingDate";
   "updatedAt"; "lastModifiedBy"].

(** The copy a move stores: the order without its identifier, stamped for
    the target. *)
Definition moved_order `{Runtime} (req_body : doc) (order : doc) (t : Z) : doc :=
  dset (dset (stamp_for_target (dget req_body "toCollection")
                (dget req_body "denialReason") (dget req_body "returnReason")
                (dget req_body "returnImage") (VDate t) (ddel order "_id"))
             "updatedAt" (VDate t))
       "lastModifiedBy" (VStr "staff").

(** The status a move gives the copy, by the key of the target. *)
Definition target_status : list (string * string) :=
  [("pending", "pending"); ("accepted", "approved"); ("delivered", "delivered");
   ("denied", "denied"); ("returned", "returned")].

(** The collections [GET /api/orders/details/:orderId] searches. *)
Definition detail_names : list string :=
  ["PendingOrders"; "AcceptedOrders"; "DeliveredOrders"; "WalkInOrders";
   "ReturnedOrders"].

(** *** The default address *)

Section Addresses.
Context `{Runtime}.

(** The address [/api/user-addresses/:id] designates: by its [id] field
    first, then by [_id] when [id] has the form of an identifier. *)
Definition find_address (id : string) : M value :=
  (* Try to find address by id field first (custom id like "addr_...") *)
  let* address :=
    findOne_where "UserAddresses" (fun d => mongo_eq (dget d "id") (VStr id)) in
  (* If not found by id, try by _id *)
  if negb (truthy address) && is_hex24 id then
    try_catch (let* oid_ := new_ObjectId (VStr id) in findOne_id "UserAddresses" oid_)
              (fun _ => ret address)
  else ret address.

(** A value a filter compares by equality: not a document whose first key
    begins with [$], which a filter reads as operators. *)
Definition by_equality (v : value) : bool :=
  match v with
  | VObj ((String c _, _) :: _) => negb (Ascii.eqb c "$")
  | _ => true
  end.

(** [{ ...userQuery, isDefault: true }], where [userQuery] holds the
    [userId] and the [email] of [address] that are truthy, for values
    compared by equality. *)
Definition other_defaults (address : value) (d : doc) : bool :=
  (if truthy (prop address "userId")
   then mongo_eq (dget d "userId") (prop address "userId") else true)
  && (if truthy (prop address "email")
      then mongo_eq (dget d "email") (prop address "email") else true)
  && mongo_eq (dget d "isDefault") (VBool true).

(** [PUT /api/user-addresses/:id/default] *)
Definition set_default_address (id : string) : M response :=
  try_catch
    (let* address := find_address id in
     if negb (truthy address) then
       json 404 [("success", VBool false); ("error", VStr "Address not found")]
     else
       (* Unset all other defaults for this user *)
       updateMany_set "UserAddresses" (other_defaults address)
                      [("isDefault", VBool false)] ;;
       (* Set this address as default (use _id for the update) *)
       updateOne_set_by "UserAddresses" (prop address "_id") [("isDefault", VBool true)] ;;
       json 200 [("success", VBool true); ("message", VStr "Default address updated")])
    (fun _ =>
       console_error "Error updating default address:" ;;
       json 500 [("success", VBool false);
                 ("error", VStr "Failed to update default address")]).

(** [DELETE /api/user-addresses/:id] *)
Definition delete_address (id : string) : M response :=
  try_catch
    (let* address := find_address id in
     if negb (truthy address) then
       json 404 [("success", VBool false); ("error", VStr "Address not found")]
     else
       (* Delete the address using _id (MongoDB's primary key) *)
       let* deletedCount := deleteOne_by "UserAddresses" (prop address "_id") in
       if deletedCount =? 0 then
         json 404 [("success", VBool false); ("error", VStr "Address not found")]
       else
         json 200 [("success", VBool true);
                   ("message", VStr "Address deleted successfully")])
    (fun _ =>
       console_error "Error deleting user address:" ;;
       json 500 [("success", VBool false); ("error", VStr "Failed to delete address")]).

End Addresses.

(** *** Staff notifications *)

Section StaffNotifications.
Context `{Runtime} `{Host}.

(** [collection.aggregate([{ $match: filter }, { $sort: { [field]: -1 } }])
      .toArray()] *)
Definition aggregate_match_sort (name : string) (filter : doc -> bool) (field : string)
    : M (list doc) :=
  db_call OpFind name (fun _ db =>
    (Done (sort_desc field (List.filter filter (documents db name))), db)).

(** [GET /api/staff/notifications] *)
Definition staff_notifications : M response :=
  try_catch
    ((* Get all unread notifications, sorted by creation date (newest first) *)
     let* notifications :=
       aggregate_match_sort "StaffNotifications"
         (fun d => mongo_eq (dget d "read") (VBool false)) "createdAt" in
     json 200 [("success", VBool true);
               ("count", VNum (Z.of_nat (length notifications)));
               ("notifications", VArr (map VObj notifications))])
    (fun message =>
       console_error "❌ Error fetching staff notifications:" ;;
       json 500 [("success", VBool false);
                 ("message", VStr "Failed to fetch staff notifications");
                 ("error", VStr message)]).

(** [PUT /api/staff/notifications/:notificationId/read] *)
Definition mark_notification_read (notificationId : string) : M response :=
  try_catch
    (let* oid_ := new_ObjectId (VStr notificationId) in
     let* readAt := new_Date in
     let* result :=
       updateOne_set "StaffNotifications" oid_ [("read", VBool true); ("readAt", readAt)] in
     if matchedCount result =? 0 then
       json 404 [("success", VBool false); ("message", VStr "Notification not found")]
     else
       json 200 [("success", VBool true); ("message", VStr "Notification marked as read")])
    (fun message =>
       console_error "❌ Error marking notification as read:" ;;
       json 500 [("success", VBool false);
                 ("message", VStr "Failed to mark notification as read");
                 ("error", VStr message)]).

End StaffNotifications.

(** The notifications a response of [GET /api/staff/notifications] lists. *)
Definition listed (r : response) : list value :=
  match dget (body r) "notifications" with
  | VArr l => l
  | _ => []
  end.

(** The entries [POST /api/auth/verify-code] considers for an address. *)
Definition open_code (lowered : string) (d : doc) : bool :=
  mongo_eq (dget d "email") (VStr lowered) && mongo_eq (dget d "used") (VBool false).

(** Every document of the collection carries its identifier, as the
    documents written by [insertOne] do. *)
Definition keyed (db : Database) (name : string) : Prop :=
  forall o d, coll db name !! o = Some d -> dget d "_id" = VOid o.

(** A reference host for the examples: every draw of the generator is
    1/4, and a [$sort] stage keeps the order of the collection. *)
#[local] Instance ref_host : Host.
Proof.
  refine {| js_ge_other := fun _ _ => false;
            js_minus_other := fun _ _ => VNull;
            Math_random := fun _ => QArith_base.Qmake 1 4;
            sort_desc := fun _ l => l |}.
  - intros _. split; [discriminate | reflexivity].
  - intros _ l. apply Permutation_refl.
Defined.

(** An entry of [AuthCodes] as [POST /api/auth/create-verification-code]
    writes it, after [a] failed attempts: for the address [lowered], not
    used, expiring at [e], with code [vc] and [m] attempts allowed. *)
Record code_entry (lowered : string) (o : oid) (e m a : Z) (vc : value) (d : doc)
    : Prop := {
  entry_email : dget d "email" = VStr lowered;
  entry_used : dget d "used" = VBool false;
  entry_id : dget d "_id" = VOid o;
  entry_expiresAt : dget d "expiresAt" = VDate e;
  entry_maxAttempts : dget d "maxAttempts" = VNum m;
  entry_attempts : dget d "attempts" = VNum a;
  entry_code : dget d "verificationCode" = vc
}.

(** [o] holds the only entry of the address that is still open. *)
Definition only_open_code (db : Database) (lowered : string) (o : oid) : Prop :=
  forall o' d', coll db "AuthCodes" !! o' = Some d' ->
                open_code lowered d' = true -> o' = o.

(** Requests served one after the other, each by a run of the handler of
    its own; the answers, and the database the last one leaves. *)
Fixpoint serve (handler : doc -> M response) (e : Env) (bodies : list doc)
    (db : Database) : list (outcome response) * Database :=
  match bodies with
  | [] => ([], db)
  | b :: rest =>
      let out := run (handler b) e db in
      let later := serve handler e rest (st_db (snd out)) in
      (fst out :: fst later, snd later)
  end.

(** The answer is the response [code]. *)
Definition answered (code : Z) (r : outcome response) : Prop :=
  exists resp, r = Done resp /\ status resp = code.

(** *** The route table

    The routes in the order the server registers them.  Every handler
    answers the request it is given and hands it to no later route, so a
    request that reaches the routes is served by the first one that
    matches its method and path. *)

Inductive verb := GET | POST | PUT | DELETE.

(** A route: its method, its path, and the line of the server file that
    registers it. *)
Record route := {
  route_verb : verb;
  route_path : string;
  registered_at : nat
}.

(** The [app.get], [app.post], [app.put] and [app.delete] calls of the
    server, top to bottom. *)
Definition routes : list route :=
  [ {| route_verb := GET; route_path := "/api/products"; registered_at := 83 |};
    {| route_verb := GET; route_path := "/api/products/:id"; registered_at := 290 |};
    {| route_verb := PUT; route_path := "/api/products/bulk-stock"; registered_at := 312 |};
    {| route_verb := PUT; route_path := "/api/products/:id"; registered_at := 378 |};
    {| route_verb := PUT; route_path := "/api/products/:id/stock"; registered_at := 403 |};
    {| route_verb := POST; route_path := "/api/products/validate-stock"; registered_at := 432 |};
    {| route_verb := POST; route_path := "/api/products/reserve-stock"; registered_at := 495 |};
    {| route_verb := POST; route_path := "/api/products/restore-stock"; registered_at := 537 |};
    {| route_verb := POST; route_path := "/api/products/stock-levels"; registered_at := 593 |};
    {| route_verb := GET; route_path := "/api/debug/test"; registered_at := 630 |};
    {| route_verb := POST; route_path := "/api/orders"; registered_at := 635 |};
    {| route_verb := GET; route_path := "/api/orders/pending"; registered_at := 759 |};
    {| route_verb := GET; route_path := "/api/orders/stats/staff-overview"; registered_at := 809 |};
    {| route_verb := GET; route_path := "/api/orders/stats/:userId"; registered_at := 853 |};
    {| route_verb := GET; route_path := "/api/orders/all-staff"; registered_at := 959 |};
    {| route_verb := GET; route_path := "/api/orders/details/:orderId"; registered_at := 1121 |};
    {| route_verb := GET; route_path := "/api/orders/return-requests"; registered_at := 1166 |};
    {| route_verb := GET; route_path := "/api/orders/:userId"; registered_at := 1193 |};
    {| route_verb := PUT; route_path := "/api/orders/:orderId/payment"; registered_at := 1456 |};
    {| route_verb := GET; route_path := "/api/orders"; registered_at := 1481 |};
    {| route_verb := PUT; route_path := "/api/orders/:orderId/status"; registered_at := 1502 |};
    {| route_verb := GET; route_path := "/api/orders/with-proof"; registered_at := 1531 |};
    {| route_verb := PUT; route_path := "/api/orders/:orderId/verify-payment"; registered_at := 1577 |};
    {| route_verb := POST; route_path := "/api/orders/migrate"; registered_at := 1618 |};
    {| route_verb := POST; route_path := "/api/staff/login"; registered_at := 1701 |};
    {| route_verb := POST; route_path := "/api/user-addresses"; registered_at := 1793 |};
    {| route_verb := GET; route_path := "/api/user-addresses"; registered_at := 1869 |};
    {| route_verb := DELETE; route_path := "/api/user-addresses/:id"; registered_at := 1907 |};
    {| route_verb := PUT; route_path := "/api/user-addresses/:id/default"; registered_at := 1948 |};
    {| route_verb := POST; route_path := "/api/orders/accepted"; registered_at := 1995 |};
    {| route_verb := GET; route_path := "/api/orders/accepted/:orderId"; registered_at := 2032 |};
    {| route_verb := DELETE; route_path := "/api/orders/pending/:orderId"; registered_at := 2055 |};
    {| route_verb := POST; route_path := "/api/orders/delivered"; registered_at := 2084 |};
    {| route_verb := GET; route_path := "/api/orders/delivered/:orderId"; registered_at := 2121 |};
    {| route_verb := DELETE; route_path := "/api/orders/accepted/:orderId"; registered_at := 2144 |};
    {| route_verb := POST; route_path := "/api/orders/walkin"; registered_at := 2173 |};
    {| route_verb := GET; route_path := "/api/orders/walkin"; registered_at := 2220 |};
    {| route_verb := GET; route_path := "/api/orders/walkin/stats"; registered_at := 2241 |};
    {| route_verb := GET; route_path := "/api/orders/stats/comprehensive"; registered_at := 2278 |};
    {| route_verb := GET; route_path := "/api/orders/all-collections"; registered_at := 2349 |};
    {| route_verb := PUT; route_path := "/api/orders/:orderId/status"; registered_at := 2407 |};
    {| route_verb := GET; route_path := "/api/orders/analytics"; registered_at := 2474 |};
    {| route_verb := POST; route_path := "/api/orders/move"; registered_at := 2527 |};
    {| route_verb := GET; route_path := "/api/orders/:orderId/return-documentation"; registered_at := 2653 |};
    {| route_verb := GET; route_path := "/api/orders/returned"; registered_at := 2697 |};
    {| route_verb := POST; route_path := "/api/orders/return-request"; registered_at := 2743 |};
    {| route_verb := POST; route_path := "/api/orders/cancel-request"; registered_at := 2862 |};
    {| route_verb := POST; route_path := "/api/orders/check-cancellation-requests"; registered_at := 3009 |};
    {| route_verb := GET; route_path := "/api/orders/cancellation-requests"; registered_at := 3060 |};
    {| route_verb := PUT; route_path := "/api/orders/return-request/:requestId"; registered_at := 3089 |};
    {| route_verb := PUT; route_path := "/api/orders/cancellation-request/:requestId"; registered_at := 3266 |};
    {| route_verb := POST; route_path := "/api/auth/send-verification"; registered_at := 3366 |};
    {| route_verb := POST; route_path := "/api/auth/create-verification-code"; registered_at := 3448 |};
    {| route_verb := POST; route_path := "/api/auth/send-verification-email"; registered_at := 3504 |};
    {| route_verb := POST; route_path := "/api/auth/verify-code"; registered_at := 3567 |};
    {| route_verb := POST; route_path := "/api/auth/check-email"; registered_at := 3662 |};
    {| route_verb := POST; route_path := "/api/auth/invalidate-codes"; registered_at := 3692 |};
    {| route_verb := POST; route_path := "/api/auth/complete-registration"; registered_at := 3739 |};
    {| route_verb := POST; route_path := "/api/auth/login"; registered_at := 3830 |};
    {| route_verb := GET; route_path := "/api/staff/notifications"; registered_at := 3960 |};
    {| route_verb := PUT; route_path := "/api/staff/notifications/:notificationId/read"; registered_at := 3991 |};
    {| route_verb := GET; route_path := "/api/staff/notifications/all"; registered_at := 4030 |} ].

Definition verb_eqb (a b : verb) : bool :=
  match a, b with
  | GET, GET | POST, POST | PUT, PUT | DELETE, DELETE => true
  | _, _ => false
  end.

(** [path.split('/')] *)
Fixpoint split_slash (path : string) : list string :=
  match path with
  | EmptyString => [EmptyString]
  | String c rest =>
      if Ascii.eqb c "/" then EmptyString :: split_slash rest
      else match split_slash rest with
           | seg :: segs => String c seg :: segs
           | [] => [String c EmptyString]
           end
  end.

(** A segment of a route path that names a parameter. *)
Definition is_param (pattern : string) : bool :=
  match pattern with
  | String c _ => Ascii.eqb c ":"
  | EmptyString => false
  end.

(** A parameter takes any segment that is not empty; any other segment of
    a route path is compared without regard to case. *)
Definition segment_matches (pattern seg : string) : bool :=
  if is_param pattern then negb (String.eqb seg EmptyString)
  else String.eqb (toLowerCase pattern) (toLowerCase seg).

(** The segments of a route path against those of a request path, which
    may end in one more slash. *)
Fixpoint segments_match (pattern path : list string) : bool :=
  match pattern, path with
  | [], [] => true
  | [], [last] => String.eqb last EmptyString
  | p :: pattern, s :: path => segment_matches p s && segments_match pattern path
  | _, _ => false
  end.

Definition route_matches (v : verb) (path : string) (r : route) : bool :=
  verb_eqb (route_verb r) v
  && segments_match (split_slash (route_path r)) (split_slash path).

(** The route that serves a request. *)
Definition dispatch (v : verb) (path : string) : option route :=
  List.find (route_matches v path) routes.

(** The routes registered at these lines: [GET /api/orders/with-proof],
    [/walkin], [/stats/comprehensive], [/all-collections], [/analytics],
    [/returned], [/cancellation-requests], and the second
    [PUT /api/orders/:orderId/status]. *)
Definition shadowed : list nat :=
  [1531; 2220; 2278; 2349; 2407; 2474; 2697; 3060]%nat.

(** A request path a route path matches: a parameter is given the value
    [x]. *)
Definition sample_path (r : route) : string :=
  String.concat "/"
    (map (fun seg => if is_param seg then "x" else seg) (split_slash (route_path r))).

(** [pattern'] matches every segment [pattern] does. *)
Definition segment_covers (pattern' pattern : string) : bool :=
  if is_param pattern' then
    is_param pattern || negb (String.eqb (toLowerCase pattern) EmptyString)
  else negb (is_param pattern)
       && String.eqb (toLowerCase pattern') (toLowerCase pattern).

Fixpoint segments_cover (pattern' pattern : list string) : bool :=
  match pattern', pattern with
  | [], [] => true
  | p' :: pattern', p :: pattern => segment_covers p' p && segments_cover pattern' pattern
  | _, _ => false
  end.

(** A route among [earlier] takes every request [r] would. *)
Definition covered (earlier : list route) (r : route) : bool :=
  existsb (fun r' => verb_eqb (route_verb r') (route_verb r)
                     && segments_cover (split_slash (route_path r'))
                                       (split_slash (route_path r)))
          earlier.

(** Each route of [rest] registered at [line] is covered by a route
    registered before it. *)
Fixpoint covered_at (line : nat) (earlier rest : list route) : bool :=
  match rest with
  | [] => true
  | r :: rest =>
      (if Nat.eqb (registered_at r) line then covered earlier r else true)
      && covered_at line (earlier ++ [r]) rest
  end.

(** A route is served for its sample path, unless it is one of the
    shadowed ones, and those are covered. *)
Definition route_checked (r : route) : bool :=
  if existsb (Nat.eqb (registered_at r)) shadowed
  then covered_at (registered_at r) [] routes
  else match dispatch (route_verb r) (sample_path r) with
       | Some r' => Nat.eqb (registered_at r') (registered_at r)
                    && String.eqb (route_path r') (route_path r)
                    && verb_eqb (route_verb r') (route_verb r)
       | None => false
       end.

(** *** More example data *)

Definition code_body : doc :=
  [("email", VStr "Ann@Example.com"); ("userName", VStr "Ann")].

(** The database after a verification code was created for Ann. *)
Definition db_code : Database :=
  st_db (snd (run (create_verification_code code_body) (quiet gen0 now0) db_pending)).

Definition code_entry1 : doc := default [] (coll db_code "AuthCodes" !! gen0 1).

(** A verification request for Ann's address, in lower case. *)
Definition guess (code : value) : doc :=
  [("email", VStr "ann@example.com"); ("code", code)].

(** The identifiers generated for a later request. *)
Definition gen1 (k : nat) : oid := gen0 (10 + k).

(** A clock sixteen minutes ahead of [now0]. *)
Definition late0 (k : nat) : Z := now0 k + 16 * 60 * 1000.

Definition items_body (l : list value) : doc := [("items", VArr l)].

Definition return_move_body : doc :=
  [("orderId", VStr order1); ("operation", VStr "return");
   ("fromCollection", VStr "delivered"); ("toCollection", VStr "returned");
   ("returnReason", VStr "Damaged"); ("returnImage", VStr image1)].

Definition payment_body : doc :=
  [("verified", VBool true); ("verifiedBy", VStr "staff")].

Definition address1 : oid := "cccccccccccccccccccccccc".
Definition address2 : oid := "dddddddddddddddddddddddd".

Definition address (o : oid) (id : string) (isDefault : bool) : doc :=
  [("_id", VOid o); ("id", VStr id); ("userId", VStr "42");
   ("email", VStr "ann@example.com"); ("isDefault", VBool isDefault)].

(** Two addresses of one user, the first one the default. *)
Definition db_addresses : Database :=
  {[ "UserAddresses" := {[ address1 := address address1 "addr_1" true;
                           address2 := address address2 "addr_2" false ]} ]}.

(** The staff notification of the cancel-request for [order1]. *)
Definition staff_notification1 : doc :=
  default [] (coll db_cancel_requested "StaffNotifications" !! gen0 3).

Definition status_body : doc := [("status", VStr "processing")].

(** ** Basic facts about documents, collections and steps *)

Arguments coll : simpl never.
Arguments set_coll : simpl never.

Lemma coll_set_coll_eq (db : Database) name c : coll (set_coll db name c) name = c.
Proof. unfold coll, set_coll. by rewrite lookup_insert_eq. Qed.

Lemma coll_set_coll_ne (db : Database) name name' c :
  name <> name' -> coll (set_coll db name c) name' = coll db name'.
Proof. intros Hne. unfold coll, set_coll. by rewrite lookup_insert_ne. Qed.

Lemma coll_set_coll (db : Database) name name' c :
  coll (set_coll db name c) name' = if decide (name = name') then c else coll db name'.
Proof.
  case_decide; subst; [apply coll_set_coll_eq | by apply coll_set_coll_ne].
Qed.

Lemma dget_dset_eq (d : doc) k v : dget (dset d k v) k = v.
Proof.
  induction d as [|[k' v'] d IH]; simpl.
  - by rewrite String.eqb_refl.
  - destruct (String.eqb k' k) eqn:E; simpl; [by rewrite String.eqb_refl | by rewrite E].
Qed.

Lemma dget_dset_ne (d : doc) k k' v : k <> k' -> dget (dset d k v) k' = dget d k'.
Proof.
  intros Hne. induction d as [|[k0 v0] d IH]; simpl.
  - destruct (String.eqb_spec k k'); [done | done].
  - destruct (String.eqb_spec k0 k); subst; simpl.
    + destruct (String.eqb_spec k k'); [done | done].
    + destruct (String.eqb_spec k0 k'); [done | apply IH].
Qed.




(** ** Stepping through a computation *)

Lemma bind_ret {A B} (a : A) (k : A -> M B) e s : bind (ret a) k e s = k a e s.
Proof. reflexivity. Qed.

Lemma bind_done {A B} (m : M A) (k : A -> M B) e s a s' :
  m e s = (Done a, s') -> bind m k e s = k a e s'.
Proof. intros Hm. unfold bind. by rewrite Hm. Qed.

Lemma bind_thrown {A B} (m : M A) (k : A -> M B) e s msg s' :
  m e s = (Thrown msg, s') -> bind m k e s = (Thrown msg, s').
Proof. intros Hm. unfold bind. by rewrite Hm. Qed.

Lemma try_catch_done {A} (m : M A) h e s a s' :
  m e s = (Done a, s') -> try_catch m h e s = (Done a, s').
Proof. intros Hm. unfold try_catch. by rewrite Hm. Qed.

Lemma try_catch_thrown {A} (m : M A) h e s msg s' :
  m e s = (Thrown msg, s') -> try_catch m h e s = h msg e s'.
Proof. intros Hm. unfold try_catch. by rewrite Hm. Qed.

Lemma ticks_initial db : ticks (initial db) = 0%nat.
Proof. reflexivity. Qed.

Lemma ticks_after s o name ok db : ticks (after s o name ok db) = S (ticks s).
Proof. unfold ticks, after. simpl. rewrite length_app. simpl. lia. Qed.

Lemma st_db_after s o name ok db : st_db (after s o name ok db) = db.
Proof. reflexivity. Qed.

Lemma db_call_fault {A} o name (op : oid -> Database -> outcome A * Database) e s :
  env_fault e (ticks s) o name = true ->
  db_call o name op e s =
    (Thrown "MongoNetworkError",
     after s o name false (env_interfere e (ticks s) (st_db s))).
Proof. intros Hf. unfold db_call. by rewrite Hf. Qed.

Lemma db_call_run {A} o name (op : oid -> Database -> outcome A * Database) e s :
  env_fault e (ticks s) o name = false ->
  db_call o name op e s =
    (let r := op (env_oid e (ticks s)) (env_interfere e (ticks s) (st_db s)) in
     (fst r, after s o name (is_done (fst r)) (snd r))).
Proof. intros Hf. unfold db_call. by rewrite Hf. Qed.

Section Steps.
Variables (e : Env) (s : State).

Lemma findOne_id_some name o d :
  env_fault e (ticks s) OpFindOne name = false ->
  coll (env_interfere e (ticks s) (st_db s)) name !! o = Some d ->
  findOne_id name o e s = (Done (VObj d), after s OpFindOne name true (env_interfere e (ticks s) (st_db s))).
Proof.
  intros Hf Hl. unfold findOne_id. rewrite db_call_run by done. simpl.
  by rewrite Hl.
Qed.

Lemma findOne_id_none name o :
  env_fault e (ticks s) OpFindOne name = false ->
  coll (env_interfere e (ticks s) (st_db s)) name !! o = None ->
  findOne_id name o e s = (Done VNull, after s OpFindOne name true (env_interfere e (ticks s) (st_db s))).
Proof.
  intros Hf Hl. unfold findOne_id. rewrite db_call_run by done. simpl.
  by rewrite Hl.
Qed.

Lemma insertOne_fresh name d :
  env_fault e (ticks s) OpInsertOne name = false ->
  dget d "_id" = VUndef ->
  coll (env_interfere e (ticks s) (st_db s)) name !! env_oid e (ticks s) = None ->
  insertOne name d e s =
    (Done {| acknowledged := true; insertedId := env_oid e (ticks s) |},
     after s OpInsertOne name true
       (set_coll (env_interfere e (ticks s) (st_db s)) name
          (<[env_oid e (ticks s) := stored (env_oid e (ticks s)) d]> (coll (env_interfere e (ticks s) (st_db s)) name)))).
Proof.
  intros Hf Hid Hl. unfold insertOne. rewrite db_call_run by done. simpl.
  rewrite Hid. by rewrite Hl.
Qed.

Lemma deleteOne_id_some name o d :
  env_fault e (ticks s) OpDeleteOne name = false ->
  coll (env_interfere e (ticks s) (st_db s)) name !! o = Some d ->
  deleteOne_id name o e s =
    (Done 1, after s OpDeleteOne name true (set_coll (env_interfere e (ticks s) (st_db s)) name (delete o (coll (env_interfere e (ticks s) (st_db s)) name)))).
Proof.
  intros Hf Hl. unfold deleteOne_id. rewrite db_call_run by done. simpl.
  by rewrite Hl.
Qed.

Lemma deleteOne_id_none name o :
  env_fault e (ticks s) OpDeleteOne name = false ->
  coll (env_interfere e (ticks s) (st_db s)) name !! o = None ->
  deleteOne_id name o e s = (Done 0, after s OpDeleteOne name true (env_interfere e (ticks s) (st_db s))).
Proof.
  intros Hf Hl. unfold deleteOne_id. rewrite db_call_run by done. simpl.
  by rewrite Hl.
Qed.

Lemma updateOne_inc_num name o field q d n :
  env_fault e (ticks s) OpUpdateOne name = false ->
  coll (env_interfere e (ticks s) (st_db s)) name !! o = Some d ->
  dget d field = VNum n ->
  updateOne_inc name o field q e s =
    (Done (update_result true d (dset d field (VNum (n + q)))),
     after s OpUpdateOne name true
       (set_coll (env_interfere e (ticks s) (st_db s)) name (<[o := dset d field (VNum (n + q))]> (coll (env_interfere e (ticks s) (st_db s)) name)))).
Proof.
  intros Hf Hl Hfd. unfold updateOne_inc. rewrite db_call_run by done. simpl.
  rewrite Hl, Hfd. done.
Qed.

Lemma updateOne_set_some name o fields d :
  env_fault e (ticks s) OpUpdateOne name = false ->
  coll (env_interfere e (ticks s) (st_db s)) name !! o = Some d ->
  updateOne_set name o fields e s =
    (Done (update_result true d (dspread d (doc_to_bson fields))),
     after s OpUpdateOne name true
       (set_coll (env_interfere e (ticks s) (st_db s)) name (<[o := dspread d (doc_to_bson fields)]> (coll (env_interfere e (ticks s) (st_db s)) name)))).
Proof.
  intros Hf Hl. unfold updateOne_set. rewrite db_call_run by done. simpl.
  by rewrite Hl.
Qed.

End Steps.

Arguments bind : simpl never.
Arguments try_catch : simpl never.
Arguments findOne_id : simpl never.
Arguments insertOne : simpl never.
Arguments deleteOne_id : simpl never.
Arguments updateOne_inc : simpl never.
Arguments updateOne_set : simpl never.
Arguments find : simpl never.
Arguments stored : simpl never.
Arguments after : simpl never.
Arguments ticks : simpl never.

Ltac norm :=
  repeat (progress (rewrite ?st_db_after, ?ticks_after, ?ticks_initial;
                    cbn [env_interfere env_fault env_oid env_now quiet racing
                         st_db initial Nat.eqb])).

Tactic Notation "step" uconstr(l) :=
  erewrite bind_done; [ | eapply l; norm; try done ]; cbn beta iota.

Lemma new_Date_run e s : new_Date e s = (Done (VDate (env_now e (ticks s))), s).
Proof. reflexivity. Qed.

Lemma Date_now_run e s : Date_now e s = (Done (env_now e (ticks s)), s).
Proof. reflexivity. Qed.

Lemma console_error_run msg e s :
  console_error msg e s =
    (Done tt, {| st_db := st_db s; st_calls := st_calls s; st_log := st_log s ++ [msg] |}).
Proof. reflexivity. Qed.

Lemma dget_ddel_eq (d : doc) k : dget (ddel d k) k = VUndef.
Proof.
  induction d as [|[k' v] d IH]; simpl; [done|].
  destruct (String.eqb k' k) eqn:E; simpl; [done | by rewrite E].
Qed.

Lemma dget_ddel_ne (d : doc) k k' : k <> k' -> dget (ddel d k) k' = dget d k'.
Proof.
  intros Hne. induction d as [|[k0 v] d IH]; simpl; [done|].
  destruct (String.eqb_spec k0 k); subst; simpl.
  - destruct (String.eqb_spec k k'); [done | done].
  - destruct (String.eqb_spec k0 k'); [done | apply IH].
Qed.

(** A property that is present is stored with its [undefined] parts
    replaced by [null]. *)
Lemma dget_doc_to_bson (d : doc) k v :
  dget d k = v -> v <> VUndef -> dget (doc_to_bson d) k = to_bson v.
Proof.
  intros Hv Hne. induction d as [|[k0 v0] d IH]; simpl in *; [congruence|].
  destruct (String.eqb k0 k); [by subst | by apply IH].
Qed.

Lemma dget_stored (id : oid) (d : doc) k v :
  k <> "_id" -> dget d k = v -> v <> VUndef -> dget (stored id d) k = to_bson v.
Proof.
  intros Hk Hv Hne. unfold stored. cbn [dget].
  destruct (String.eqb_spec "_id" k); [congruence|].
  apply dget_doc_to_bson; [|done]. by rewrite dget_ddel_ne.
Qed.

Lemma deleteOne_id_run e s name o :
  env_fault e (ticks s) OpDeleteOne name = false ->
  let db := env_interfere e (ticks s) (st_db s) in
  deleteOne_id name o e s =
    (Done (match coll db name !! o with Some _ => 1 | None => 0 end),
     after s OpDeleteOne name true
       (match coll db name !! o with
        | Some _ => set_coll db name (delete o (coll db name))
        | None => db
        end)).
Proof.
  intros Hf db. unfold deleteOne_id. rewrite db_call_run by done. simpl.
  fold db. by destruct (coll db name !! o).
Qed.

Lemma coll_after_delete (db : Database) name o name' :
  coll (match coll db name !! o with
        | Some _ => set_coll db name (delete o (coll db name))
        | None => db
        end) name'
  = if decide (name = name') then delete o (coll db name) else coll db name'.
Proof.
  destruct (coll db name !! o) eqn:E.
  - apply coll_set_coll.
  - case_decide; [subst; symmetry; by apply delete_id | done].
Qed.

Lemma bind_ex {A B} (m : M A) (k : A -> M B) e s a s1 (P : B -> State -> Prop) :
  m e s = (Done a, s1) ->
  (exists r s', k a e s1 = (Done r, s') /\ P r s') ->
  exists r s', bind m k e s = (Done r, s') /\ P r s'.
Proof. intros Hm (r & s' & Hk & HP). exists r, s'. by rewrite (bind_done _ _ _ _ _ _ Hm). Qed.

Lemma try_catch_ex {A} (m : M A) h e s (P : A -> State -> Prop) :
  (exists r s', m e s = (Done r, s') /\ P r s') ->
  exists r s', try_catch m h e s = (Done r, s') /\ P r s'.
Proof. intros (r & s' & Hm & HP). exists r, s'. by rewrite (try_catch_done _ _ _ _ _ _ Hm). Qed.

Lemma find_run name filter e s :
  env_fault e (ticks s) OpFind name = false ->
  let db := env_interfere e (ticks s) (st_db s) in
  find name filter e s =
    (Done (List.filter filter (map snd (map_to_list (coll db name)))),
     after s OpFind name true db).
Proof. intros Hf db. unfold find. by rewrite db_call_run. Qed.

Lemma swallow_delete_run e s name o :
  env_fault e (ticks s) OpDeleteOne name = false ->
  let db := env_interfere e (ticks s) (st_db s) in
  swallow (deleteOne_id name o) e s =
    (Done tt,
     after s OpDeleteOne name true
       (match coll db name !! o with
        | Some _ => set_coll db name (delete o (coll db name))
        | None => db
        end)).
Proof.
  intros Hf db. unfold swallow. apply try_catch_done.
  erewrite bind_done by (by apply deleteOne_id_run). reflexivity.
Qed.

Lemma filter_none {A} (f : A -> bool) (l : list A) :
  Forall (fun x => f x = false) l -> List.filter f l = [].
Proof. induction 1 as [|x l Hx _ IH]; simpl; [done|]. by rewrite Hx. Qed.

Lemma first_holding_in db names o name d :
  first_holding db names o = Some (name, d) -> In name names /\ coll db name !! o = Some d.
Proof.
  induction names as [|n names IH]; simpl; [done|].
  destruct (coll db n !! o) eqn:E.
  - intros [= <- <-]. by split; [left|].
  - intros Hf. destruct (IH Hf). by split; [right|].
Qed.

Lemma remove_order_gone src o db : coll (remove_order src o db) src !! o = None.
Proof. unfold remove_order. rewrite coll_set_coll_eq. apply lookup_delete_eq. Qed.

Lemma remove_order_other src o db name :
  name <> src -> coll (remove_order src o db) name = coll db name.
Proof. intros Hne. unfold remove_order. by rewrite coll_set_coll_ne. Qed.

Lemma quiet_notifier_only gen now : notifier_only (quiet gen now).
Proof. by split. Qed.

Lemma notifier_down_notifier_only gen now : notifier_only (notifier_down gen now).
Proof.
  split; [done|]. intros k op name. simpl.
  destruct (String.eqb_spec name "UserNotifications"); [by left|].
  destruct (String.eqb_spec name "StaffNotifications"); [by right|done].
Qed.

(** ** The move engine *)

Section MoveEngine.
Context `{Runtime}.

Lemma new_ObjectId_some v o e s :
  ObjectId_new v = Some o -> new_ObjectId v e s = (Done o, s).
Proof. intros Hv. unfold new_ObjectId. by rewrite Hv. Qed.

Lemma new_ObjectId_none v e s :
  ObjectId_new v = None ->
  new_ObjectId v e s = (Thrown "BSONError: input must be a 24 character hex string", s).
Proof. intros Hv. unfold new_ObjectId. by rewrite Hv. Qed.

Lemma collectionMapping_pending :
  collectionMapping (VStr "pending") = Mapped "PendingOrders".
Proof. unfold collectionMapping. by rewrite ToString_str. Qed.

Lemma collectionMapping_accepted :
  collectionMapping (VStr "accepted") = Mapped "AcceptedOrders".
Proof. unfold collectionMapping. by rewrite ToString_str. Qed.

Lemma set_if_truthy_id (d : doc) k v :
  k <> "_id" -> dget (set_if_truthy d k v) "_id" = dget d "_id".
Proof. intros Hk. unfold set_if_truthy. destruct (truthy v); [by apply dget_dset_ne | done]. Qed.

(** The move never gives the copy an identifier of its own: the driver
    generates one. *)
Lemma stamp_for_target_no_id toC denial reason image now (d : doc) :
  dget (stamp_for_target toC denial reason image now d) "_id" = dget d "_id".
Proof.
  unfold stamp_for_target.
  repeat match goal with
         | |- context [if ?b then _ else _] => destruct b
         end;
    rewrite ?set_if_truthy_id by done; rewrite ?dget_dset_ne by done; try done.
  all: rewrite ?set_if_truthy_id by done; rewrite ?dget_dset_ne by done; try done.
Qed.

End MoveEngine.

Arguments collectionMapping : simpl never.
Arguments stamp_for_target : simpl never.
Arguments new_ObjectId : simpl never.

(** ** Moving an order between partitions *)

Section MoveTheorems.
Context `{Runtime}.

(** C2. An order of the Pending partition moved to Accepted: the move
    answers success with a new identifier, which differs from the old one
    (the identifier is generated, and not in use in either partition); the
    old identifier no longer resolves in Pending, and the record stored in
    Accepted has status "approved" and an [approvedAt] timestamp. *)
Theorem move_pending_to_accepted (gen : nat -> oid) (now : nat -> Z) (db : Database)
    (req_body : doc) (o : oid) (order : doc) :
  dget req_body "fromCollection" = VStr "pending" ->
  dget req_body "toCollection" = VStr "accepted" ->
  truthy (dget req_body "operation") = true ->
  truthy (dget req_body "orderId") = true ->
  ObjectId_new (dget req_body "orderId") = Some o ->
  coll db "PendingOrders" !! o = Some order ->
  coll db "PendingOrders" !! gen 1%nat = None ->
  coll db "AcceptedOrders" !! gen 1%nat = None ->
  exists r s' newOrderId approvedAt moved,
    run (move_order req_body) (quiet gen now) db = (Done r, s')
    /\ status r = 200
    /\ dget (body r) "success" = VBool true
    /\ dget (body r) "newOrderId" = VOid newOrderId
    /\ newOrderId <> o
    /\ coll (st_db s') "PendingOrders" !! o = None
    /\ fst (findOne_id "PendingOrders" o (quiet gen now) s') = Done VNull
    /\ coll (st_db s') "AcceptedOrders" !! newOrderId = Some moved
    /\ dget moved "status" = VStr "approved"
    /\ dget moved "approvedAt" = VDate approvedAt.
Proof.
  intros Hfrom Hto Hop Hid Hoid Hord Hfresh1 Hfresh2.
  assert (Hne : gen 1%nat <> o).
  { intros Heq. rewrite Heq in Hfresh1. congruence. }
  unfold run, move_order.
  rewrite Hfrom, Hto, Hop, Hid.
  rewrite collectionMapping_pending, collectionMapping_accepted. simpl.
  erewrite try_catch_done.
  2:{ rewrite !bind_ret.
      step new_ObjectId_some.
      step findOne_id_some.
      step new_Date_run.
      step insertOne_fresh.
      2:{ rewrite !dget_dset_ne by done. rewrite stamp_for_target_no_id.
          apply dget_ddel_eq. }
      step new_ObjectId_some.
      step deleteOne_id_some.
      2:{ by rewrite coll_set_coll_ne. }
      simpl. reflexivity. }
  norm.
  eexists _, _, (gen 1%nat), (now 1%nat), _.
  split; [reflexivity|].
  repeat split; try done.
  all: norm.
  - rewrite coll_set_coll_eq. apply lookup_delete_eq.
  - by rewrite coll_set_coll_eq, lookup_delete_eq.
  - rewrite coll_set_coll_ne by done. rewrite coll_set_coll_eq. apply lookup_insert_eq.
  - apply (dget_stored _ _ _ (VStr "approved")); [done| |done].
    rewrite !dget_dset_ne by done. unfold stamp_for_target. simpl.
    rewrite !dget_dset_ne by done. apply dget_dset_eq.
  - apply (dget_stored _ _ _ (VDate (now 1%nat))); [done| |done].
    rewrite !dget_dset_ne by done. unfold stamp_for_target. simpl.
    apply dget_dset_eq.
Qed.


(** C3. When the copy was inserted into the target partition and the
    delete from the source partition removes nothing (a concurrent request
    took the order away in between), the engine deletes the copy from the
    target and answers with an error: the fourth database call is the
    compensating delete, the inserted identifier no longer resolves in the
    target, and the response is a 500, not a success. *)
Theorem move_rollback (gen : nat -> oid) (now : nat -> Z) (f : Database -> Database)
    (db : Database) (req_body : doc) (o : oid) (order : doc) (src tgt : string) :
  truthy (dget req_body "orderId") = true ->
  truthy (dget req_body "operation") = true ->
  truthy (dget req_body "fromCollection") = true ->
  truthy (dget req_body "toCollection") = true ->
  collectionMapping (dget req_body "fromCollection") = Mapped src ->
  collectionMapping (dget req_body "toCollection") = Mapped tgt ->
  ObjectId_new (dget req_body "orderId") = Some o ->
  coll db src !! o = Some order ->
  coll db tgt !! gen 1%nat = None ->
  (forall d, coll (f d) src !! o = None) ->
  exists r s',
    run (move_order req_body) (racing gen now 2 f) db = (Done r, s')
    /\ status r = 500
    /\ body r = [("error", VStr "Failed to move order between collections");
                 ("details", VStr "Failed to remove order from source collection")]
    /\ st_calls s' =
         [ {| call_op := OpFindOne; call_coll := src; call_ok := true |};
           {| call_op := OpInsertOne; call_coll := tgt; call_ok := true |};
           {| call_op := OpDeleteOne; call_coll := src; call_ok := true |};
           {| call_op := OpDeleteOne; call_coll := tgt; call_ok := true |} ]
    /\ coll (st_db s') tgt !! gen 1%nat = None
    /\ ((forall d, coll (f d) tgt = coll d tgt) -> coll (st_db s') tgt = coll db tgt).
Proof.
  intros Hid Hop Hfromt Htot Hfrom Hto Hoid Hord Hfresh Hf.
  unfold run, move_order.
  rewrite Hfrom, Hto, Hop, Hid, Hfromt, Htot. simpl.
  erewrite try_catch_thrown.
  2:{ rewrite !bind_ret.
      step new_ObjectId_some.
      step findOne_id_some.
      step new_Date_run.
      step insertOne_fresh.
      2:{ rewrite !dget_dset_ne by done. rewrite stamp_for_target_no_id.
          apply dget_ddel_eq. }
      step new_ObjectId_some.
      step deleteOne_id_none.
      simpl.
      erewrite bind_done by (apply deleteOne_id_run; done).
      reflexivity. }
  erewrite bind_done by apply console_error_run.
  eexists _, _. split; [reflexivity|].
  norm. simpl.
  split; [done|]. split; [done|]. split; [done|].
  rewrite coll_after_delete. rewrite decide_True by done.
  split.
  - apply lookup_delete_eq.
  - intros Htgt. rewrite Htgt, coll_set_coll_eq.
    rewrite delete_insert_eq. by apply delete_id.
Qed.
End MoveTheorems.

Arguments cancellationRequest_of : simpl never.
Arguments archivedRecord_of : simpl never.
Arguments includes : simpl never.
Arguments toLowerCase : simpl never.

(** ** The cancellation workflow *)

Section Cancellation.
Context `{Runtime}.

Lemma check_substring_ok v e s : comments_ok v = true -> check_substring v e s = (Done tt, s).
Proof. destruct v; simpl; try done; intros Hv; try (by apply negb_true_iff in Hv; rewrite Hv).
 all: try (apply negb_true_iff in Hv; simpl in Hv; by rewrite ?Hv).
Qed.

Lemma js_toLowerCase_str s0 e s : js_toLowerCase (VStr s0) e s = (Done (toLowerCase s0), s).
Proof. reflexivity. Qed.


Lemma order_number_run (order : doc) sid e s :
  (if truthy (dget order "orderNumber")
   then ret (dget order "orderNumber")
   else (let* tail := js_slice_last6 (VStr sid) in
         ret (VStr ("ORD-" +:+ ToString tail)))) e s
  = (Done (order_number order sid), s).
Proof. unfold order_number. by destruct (truthy (dget order "orderNumber")). Qed.

Lemma cancel_request_commits (gen : nat -> oid) (now : nat -> Z) (db : Database)
    (req_body : doc) (sid : string) (o : oid) (order : doc) (src : string) :
  dget req_body "orderId" = VStr sid ->
  truthy (VStr sid) = true ->
  truthy (dget req_body "reason") = true ->
  comments_ok (dget req_body "additionalComments") = true ->
  ObjectId_new (VStr sid) = Some o ->
  src = "PendingOrders" \/ (src = "AcceptedOrders" /\ coll db "PendingOrders" !! o = None) ->
  coll db src !! o = Some order ->
  cancellable order = true ->
  coll db "CancellationRequests" !! gen (lookups src) = None ->
  coll db "StaffNotifications" !! gen (2 + lookups src)%nat = None ->
  exists r s',
    let rid := gen (lookups src) in
    let request :=
      stored rid
        (cancellationRequest_of (VStr sid) (dget req_body "reason")
           (dget req_body "additionalComments") order (order_number order sid)
           (dget order "status" || VStr "pending")%js
           (VDate (now (lookups src))) src) in
    run (cancel_request req_body) (quiet gen now) db = (Done r, s')
    /\ status r = 200
    /\ dget (body r) "status" = VStr "pending_review"
    /\ dget (body r) "requestId" = VOid rid
    /\ coll (st_db s') "CancellationRequests" = <[rid := request]> (coll db "CancellationRequests")
    /\ coll (st_db s') src = delete o (coll db src)
    /\ (forall name, name <> "CancellationRequests" -> name <> src ->
          name <> "StaffNotifications" -> coll (st_db s') name = coll db name).
Proof.
  intros Hid Htid Hreason Hcomm Hoid Hsrc Hord Hcan Hfresh Hfresh2.
  unfold cancellable in Hcan.
  destruct (dget order "status" || VStr "pending")%js as [| | | |st| | | | |] eqn:Hst; try done.
  unfold run, cancel_request.
  rewrite Hid, Htid, Hreason. 
  destruct Hsrc as [-> | [-> Hnot]].
  - cbn [lookups String.eqb Ascii.eqb Bool.eqb] in *.
    erewrite try_catch_done.
    2:{ step check_substring_ok. simpl.
        erewrite bind_done.
        2:{ step new_ObjectId_some. step findOne_id_some. reflexivity. }
        cbn beta iota. rewrite Hst.
        step js_toLowerCase_str. rewrite Hcan. cbn [negb]. cbn iota.
        step order_number_run.
        step new_Date_run.
        step insertOne_fresh.
        step new_ObjectId_some.
        step deleteOne_id_some.
        2:{ by rewrite coll_set_coll_ne. }
        simpl.
        step Date_now_run. step new_Date_run.
        step insertOne_fresh.
        2:{ by rewrite !coll_set_coll_ne. }
        reflexivity. }
    norm. eexists _, _. split; [reflexivity|]. simpl.
    repeat split.
    + rewrite !coll_set_coll_ne by done. by rewrite coll_set_coll_eq.
    + rewrite coll_set_coll_ne by done. rewrite coll_set_coll_eq.
      by rewrite coll_set_coll_ne.
    + intros name H1 H2 H3. by rewrite !coll_set_coll_ne.
  - cbn [lookups String.eqb Ascii.eqb Bool.eqb] in *.
    erewrite try_catch_done.
    2:{ step check_substring_ok. simpl.
        erewrite bind_done.
        2:{ step new_ObjectId_some. step findOne_id_none.
            step new_ObjectId_some. step findOne_id_some. reflexivity. }
        cbn beta iota. rewrite Hst.
        step js_toLowerCase_str. rewrite Hcan. cbn [negb]. cbn iota.
        step order_number_run.
        step new_Date_run.
        step insertOne_fresh.
        step new_ObjectId_some.
        step deleteOne_id_some.
        2:{ by rewrite coll_set_coll_ne. }
        simpl.
        step Date_now_run. step new_Date_run.
        step insertOne_fresh.
        2:{ by rewrite !coll_set_coll_ne. }
        reflexivity. }
    norm. eexists _, _. split; [reflexivity|]. simpl.
    repeat split.
    + rewrite !coll_set_coll_ne by done. by rewrite coll_set_coll_eq.
    + rewrite coll_set_coll_ne by done. rewrite coll_set_coll_eq.
      by rewrite coll_set_coll_ne.
    + intros name H1 H2 H3. by rewrite !coll_set_coll_ne.
Qed.

Lemma cancel_request_rolls_back (gen : nat -> oid) (now : nat -> Z) (db : Database)
    (req_body : doc) (sid : string) (o : oid) (order : doc) (src : string) :
  dget req_body "orderId" = VStr sid ->
  truthy (VStr sid) = true ->
  truthy (dget req_body "reason") = true ->
  comments_ok (dget req_body "additionalComments") = true ->
  ObjectId_new (VStr sid) = Some o ->
  src = "PendingOrders" \/ (src = "AcceptedOrders" /\ coll db "PendingOrders" !! o = None) ->
  coll db src !! o = Some order ->
  cancellable order = true ->
  coll db "CancellationRequests" !! gen (lookups src) = None ->
  exists r s',
    run (cancel_request req_body)
        (racing gen now (S (lookups src)) (remove_order src o)) db = (Done r, s')
    /\ status r = 500
    /\ dget (body r) "success" = VBool false
    /\ (forall name, coll (st_db s') name = coll (remove_order src o db) name)
    /\ Forall (fun c => call_coll c <> "StaffNotifications") (st_calls s').
Proof.
  intros Hid Htid Hreason Hcomm Hoid Hsrc Hord Hcan Hfresh.
  unfold cancellable in Hcan.
  destruct (dget order "status" || VStr "pending")%js as [| | | |st| | | | |] eqn:Hst; try done.
  unfold run, cancel_request.
  rewrite Hid, Htid, Hreason. 
  destruct Hsrc as [-> | [-> Hnot]].
  - cbn [lookups String.eqb Ascii.eqb Bool.eqb] in *.
    erewrite try_catch_done.
    2:{ step check_substring_ok. simpl.
        erewrite bind_done.
        2:{ step new_ObjectId_some. step findOne_id_some. reflexivity. }
        cbn beta iota. rewrite Hst.
        step js_toLowerCase_str. rewrite Hcan. cbn [negb]. cbn iota.
        step order_number_run.
        step new_Date_run.
        step insertOne_fresh.
        step new_ObjectId_some.
        step deleteOne_id_none.
        2:{ apply remove_order_gone. }
        simpl.
        step console_error_run.
        erewrite bind_done by (apply deleteOne_id_run; done).
        reflexivity. }
    norm. eexists _, _. split; [reflexivity|]. simpl.
    repeat split.
    + intros name. rewrite coll_after_delete.
      case_decide as Hn.
      * subst name. rewrite !remove_order_other by done. rewrite coll_set_coll_eq.
        rewrite delete_insert_eq. by apply delete_id.
      * unfold remove_order. rewrite !coll_set_coll.
        repeat case_decide; subst; try done.
    + repeat constructor; done.
  - cbn [lookups String.eqb Ascii.eqb Bool.eqb] in *.
    erewrite try_catch_done.
    2:{ step check_substring_ok. simpl.
        erewrite bind_done.
        2:{ step new_ObjectId_some. step findOne_id_none.
            step new_ObjectId_some. step findOne_id_some. reflexivity. }
        cbn beta iota. rewrite Hst.
        step js_toLowerCase_str. rewrite Hcan. cbn [negb]. cbn iota.
        step order_number_run.
        step new_Date_run.
        step insertOne_fresh.
        step new_ObjectId_some.
        step deleteOne_id_none.
        2:{ apply remove_order_gone. }
        simpl.
        step console_error_run.
        erewrite bind_done by (apply deleteOne_id_run; done).
        reflexivity. }
    norm. eexists _, _. split; [reflexivity|]. simpl.
    repeat split.
    + intros name. rewrite coll_after_delete.
      case_decide as Hn.
      * subst name. rewrite !remove_order_other by done. rewrite coll_set_coll_eq.
        rewrite delete_insert_eq. by apply delete_id.
      * unfold remove_order. rewrite !coll_set_coll.
        repeat case_decide; subst; try done.
    + repeat constructor; done.
Qed.

Lemma request_fields (rid : oid) (sid : string) reason comments (order : doc)
    orderNumber status submittedAt src :
  let request :=
    stored rid (cancellationRequest_of (VStr sid) reason comments order orderNumber
                  status submittedAt src) in
  dget request "_id" = VOid rid
  /\ dget request "status" = VStr "pending_review"
  /\ dget request "originalOrderId" = VStr sid
  /\ dget request "sourceCollection" = VStr src
  /\ dget request "itemsordered" = to_bson (dget order "itemsordered" || VArr [])%js
  /\ dget request "payment" = to_bson (dget order "payment" || VNull)%js
  /\ dget request "originalOrderTotal" = to_bson (dget order "total" || VNum 0)%js
  /\ dget request "userId" = to_bson (dget order "userId" || VNull)%js
  /\ (is_present (dget order "userId") = true ->
        dget request "userIdString" = VStr (ToString (dget order "userId"))
        /\ dget request "userIdNumber" =
             match ToNumber (dget order "userId") with
             | Some n => VNum n
             | None => VNull
             end).
Proof.
  cbv zeta. unfold stored, cancellationRequest_of.
  repeat split; try reflexivity.
  - simpl. rewrite H0. done.
  - simpl. rewrite H0. by destruct (ToNumber (dget order "userId")).
Qed.
Lemma dget_dspread4 (d : doc) k1 v1 k2 v2 k3 v3 k4 v4 :
  k1 <> k2 -> k1 <> k3 -> k1 <> k4 ->
  dget (dspread d [(k1, v1); (k2, v2); (k3, v3); (k4, v4)]) k1 = v1.
Proof.
  intros. unfold dspread. simpl.
  rewrite !dget_dset_ne by done. apply dget_dset_eq.
Qed.

(** C7. Rejecting a pending cancellation request marks it "rejected" and
    touches nothing else: the handler makes two database calls, both on
    [CancellationRequests], every other collection is left as it was, and
    an order that was absent from a partition stays absent. *)
Theorem cancellation_reject_keeps_order_gone (gen : nat -> oid) (now : nat -> Z)
    (db : Database) (requestId : string) (req_body : doc) (rid : oid) (request : doc) :
  ObjectId_new (VStr requestId) = Some rid ->
  coll db "CancellationRequests" !! rid = Some request ->
  dget request "status" = VStr "pending_review" ->
  dget req_body "action" = VStr "reject" ->
  exists r s' request',
    run (process_cancellation_request requestId req_body) (quiet gen now) db = (Done r, s')
    /\ status r = 200
    /\ dget (body r) "status" = VStr "rejected"
    /\ coll (st_db s') "CancellationRequests" !! rid = Some request'
    /\ dget request' "status" = VStr "rejected"
    /\ st_calls s' =
         [ {| call_op := OpFindOne; call_coll := "CancellationRequests"; call_ok := true |};
           {| call_op := OpUpdateOne; call_coll := "CancellationRequests"; call_ok := true |} ]
    /\ (forall name, name <> "CancellationRequests" -> coll (st_db s') name = coll db name)
    /\ (forall name o, name <> "CancellationRequests" ->
          coll db name !! o = None -> coll (st_db s') name !! o = None).
Proof.
  intros Hrid Hreq Hstatus Haction.
  unfold run, process_cancellation_request.
  rewrite Haction.
  change (includes ["approve"; "reject"] (VStr "reject")) with true.
  cbn [negb]. cbn iota.
  erewrite try_catch_done.
  2:{ step new_ObjectId_some. step findOne_id_some. step new_Date_run.
      step new_ObjectId_some. step updateOne_set_some.
      simpl. rewrite bind_ret. reflexivity. }
  norm. eexists _, _, _. split; [reflexivity|]. simpl.
  repeat split.
  - rewrite coll_set_coll_eq. apply lookup_insert_eq.
  - apply dget_dspread4; done.
  - intros name Hne. by rewrite coll_set_coll_ne.
  - intros name o Hne Hnone. by rewrite coll_set_coll_ne.
Qed.

(** When neither [PendingOrders] nor [AcceptedOrders] holds the original
    order any more, approval only updates the request. *)
Lemma approve_without_live_order (gen : nat -> oid) (now : nat -> Z)
    (db : Database) (requestId : string) (req_body : doc) (rid o : oid) (request : doc) :
  ObjectId_new (VStr requestId) = Some rid ->
  coll db "CancellationRequests" !! rid = Some request ->
  dget req_body "action" = VStr "approve" ->
  ObjectId_new (dget request "originalOrderId") = Some o ->
  coll db "PendingOrders" !! o = None ->
  coll db "AcceptedOrders" !! o = None ->
  exists r s' request',
    run (process_cancellation_request requestId req_body) (quiet gen now) db = (Done r, s')
    /\ status r = 200
    /\ dget (body r) "status" = VStr "approved"
    /\ coll (st_db s') "CancellationRequests" !! rid = Some request'
    /\ dget request' "status" = VStr "approved"
    /\ (forall name, name <> "CancellationRequests" -> coll (st_db s') name = coll db name).
Proof.
  intros Hrid Hreq Haction Ho Hp Ha.
  unfold run, process_cancellation_request.
  rewrite Haction.
  change (includes ["approve"; "reject"] (VStr "approve")) with true.
  cbn [negb]. cbn iota.
  erewrite try_catch_done.
  2:{ step new_ObjectId_some. step findOne_id_some. step new_Date_run.
      step new_ObjectId_some. step updateOne_set_some.
      simpl.
      erewrite bind_done.
      2:{ step new_ObjectId_some. step findOne_id_none.
          2:{ by rewrite coll_set_coll_ne. }
          step new_ObjectId_some. step findOne_id_none.
          2:{ by rewrite coll_set_coll_ne. }
          reflexivity. }
      reflexivity. }
  norm. eexists _, _, _. split; [reflexivity|]. simpl.
  repeat split.
  - rewrite coll_set_coll_eq. apply lookup_insert_eq.
  - apply dget_dspread4; done.
  - intros name Hne. by rewrite coll_set_coll_ne.
Qed.

Lemma to_objectIds_oid (l : list value) : Forall is_oid (to_objectIds l).
Proof.
  unfold to_objectIds. induction l as [|v l IH]; simpl; [constructor|].
  destruct (ObjectId_new v) as [o|]; simpl; [|done].
  constructor; [by exists o | done].
Qed.

(** A string never matches a list of ObjectIds. *)
Lemma mongo_in_str_oids s (candidates : list value) :
  Forall is_oid candidates -> mongo_in (VStr s) candidates = false.
Proof.
  intros Hc. unfold mongo_in. rewrite orb_false_r.
  induction Hc as [|v l [o ->] _ IH]; simpl; [done|].
  exact IH.
Qed.

Lemma check_reports_nothing (gen : nat -> oid) (now : nat -> Z) (db : Database)
    (req_body : doc) (orderIds : list value) :
  requests_by_endpoint db ->
  dget req_body "orderIds" = VArr orderIds ->
  exists s',
    run (check_cancellation_requests req_body) (quiet gen now) db =
      (Done {| status := 200;
               body := [("success", VBool true); ("cancellationMap", VObj [])] |}, s').
Proof.
  intros Hinv Hids. unfold run, check_cancellation_requests. rewrite Hids.
  erewrite try_catch_done.
  2:{ step find_run. norm.
      rewrite filter_none; [reflexivity|].
      apply Forall_forall. intros d Hd.
      apply list_elem_of_In, in_map_iff in Hd as ([id d'] & <- & Hd).
      apply list_elem_of_In, elem_of_map_to_list in Hd. simpl.
      destruct (Hinv _ _ Hd) as [s0 ->].
      by rewrite mongo_in_str_oids by apply to_objectIds_oid. }
  by eexists.
Qed.



(** C10. After a cancel-request for order [sid] has been stored, the
    pending-cancellation check never reports that order, whatever
    identifiers it is asked about: the request holds the identifier as a
    string, the query compares with ObjectIds, and the resulting map is
    empty. *)
Theorem pending_request_not_reported (gen gen' : nat -> oid) (now now' : nat -> Z)
    (db : Database) (req_body : doc) (sid : string) (o : oid) (order : doc)
    (src : string) (check_body : doc) (orderIds : list value) :
  dget req_body "orderId" = VStr sid ->
  truthy (VStr sid) = true ->
  truthy (dget req_body "reason") = true ->
  comments_ok (dget req_body "additionalComments") = true ->
  ObjectId_new (VStr sid) = Some o ->
  src = "PendingOrders" \/ (src = "AcceptedOrders" /\ coll db "PendingOrders" !! o = None) ->
  coll db src !! o = Some order ->
  cancellable order = true ->
  coll db "CancellationRequests" !! gen (lookups src) = None ->
  coll db "StaffNotifications" !! gen (2 + lookups src)%nat = None ->
  requests_by_endpoint db ->
  dget check_body "orderIds" = VArr orderIds ->
  In (VStr sid) orderIds ->
  exists r1 s1 request r2 s2,
    run (cancel_request req_body) (quiet gen now) db = (Done r1, s1)
    /\ status r1 = 200
    /\ coll (st_db s1) "CancellationRequests" !! gen (lookups src) = Some request
    /\ dget request "originalOrderId" = VStr sid
    /\ dget request "status" = VStr "pending_review"
    /\ run (check_cancellation_requests check_body) (quiet gen' now') (st_db s1)
       = (Done r2, s2)
    /\ status r2 = 200
    /\ dget (body r2) "cancellationMap" = VObj []
    /\ prop (dget (body r2) "cancellationMap") sid = VUndef.
Proof.
  intros Hid Htid Hreason Hcomm Hoid Hsrc Hord Hcan Hfresh Hfresh2 Hinv Hids Hin.
  destruct (cancel_request_commits gen now db req_body sid o order src)
    as (r1 & s1 & Hrun & Hst & _ & _ & Hcr & _); try done.
  destruct (request_fields (gen (lookups src)) sid (dget req_body "reason")
              (dget req_body "additionalComments") order (order_number order sid)
              (dget order "status" || VStr "pending")%js
              (VDate (now (lookups src))) src)
    as (_ & F1 & F2 & _).
  assert (Hinv1 : requests_by_endpoint (st_db s1)).
  { intros id d. rewrite Hcr. rewrite lookup_insert.
    case_decide; [intros [= <-]; by eexists | apply Hinv]. }
  destruct (check_reports_nothing gen' now' (st_db s1) check_body orderIds Hinv1 Hids)
    as [s2 Hcheck].
  eexists r1, s1, _, _, s2. split; [exact Hrun|]. split; [done|].
  split; [rewrite Hcr; apply lookup_insert_eq|].
  split; [exact F2|]. split; [exact F1|].
  split; [exact Hcheck|]. done.
Qed.

End Cancellation.

(** ** The return workflow *)

Section Returns.
Context `{Runtime}.

Lemma no_fault_elsewhere e k op name :
  notifier_only e -> name <> "UserNotifications" -> name <> "StaffNotifications" ->
  env_fault e k op name = false.
Proof.
  intros He H1 H2. destruct (env_fault e k op name) eqn:E; [|done].
  by destruct (only_notifier_faults e He _ _ _ E).
Qed.

Ltac bind_thrown_tac := erewrite bind_thrown; [reflexivity | by apply new_ObjectId_none].

Lemma locate_original_run e (names : list string) (id : value) :
  notifier_only e ->
  Forall (fun name => name <> "UserNotifications" /\ name <> "StaffNotifications") names ->
  forall s, exists searched,
    locate_original names id e s =
      (Done (match ObjectId_new id with
             | Some o => first_holding (st_db s) names o
             | None => None
             end),
       {| st_db := st_db s;
          st_calls := st_calls s ++ map lookup_call searched;
          st_log := st_log s |})
    /\ incl searched names.
Proof.
  intros He Hnames. induction Hnames as [|name names [Hn1 Hn2] _ IH]; intros s.
  - exists []. split; [|apply incl_nil_l]. simpl. rewrite app_nil_r. destruct s.
    by destruct (ObjectId_new id).
  - cbn [locate_original].
    destruct (ObjectId_new id) as [o|] eqn:Hid.
    + cbn [first_holding].
      destruct (coll (st_db s) name !! o) as [d|] eqn:Hl.
      * exists [name]. split; [|apply incl_cons; [by left | apply incl_nil_l]].
        erewrite bind_done.
        2:{ apply try_catch_done. step new_ObjectId_some.
            apply findOne_id_some; [by apply no_fault_elsewhere|].
            by rewrite (no_interference e He). }
        rewrite (no_interference e He). reflexivity.
      * destruct (IH (after s OpFindOne name true (st_db s))) as (searched & IHs & Hincl).
        exists (name :: searched).
        split; [|apply incl_cons; [by left | by apply incl_tl]].
        erewrite bind_done.
        2:{ apply try_catch_done. step new_ObjectId_some.
            apply findOne_id_none; [by apply no_fault_elsewhere|].
            by rewrite (no_interference e He). }
        rewrite (no_interference e He). cbn iota. rewrite IHs.
        unfold after. simpl. by rewrite <- app_assoc.
    + destruct (IH s) as (searched & IHs & Hincl). exists searched.
      split; [|by apply incl_tl].
      erewrite bind_done.
      2:{ erewrite try_catch_thrown by (bind_thrown_tac). reflexivity. }
      cbn iota. exact IHs.
Qed.


(** A notification is created in a [try] block of its own: whatever the
    insert does, the block ends normally, and a failure is logged. *)
Lemma notify_run e s name (d : doc) msg :
  env_interfere e (ticks s) (st_db s) = st_db s ->
  exists ok db',
    try_catch (insertOne name d ;; ret tt) (fun _ => console_error msg) e s
    = (Done tt,
       {| st_db := db';
          st_calls := st_calls s ++ [insert_call name ok];
          st_log := st_log s ++ (if ok then [] else [msg]) |})
    /\ (ok = false -> db' = st_db s)
    /\ (env_fault e (ticks s) OpInsertOne name = true -> ok = false)
    /\ (forall name', name' <> name -> coll db' name' = coll (st_db s) name').
Proof.
  intros Hi.
  unfold try_catch, bind, insertOne, db_call. rewrite Hi.
  destruct (env_fault e (ticks s) OpInsertOne name) eqn:Hf.
  - exists false, (st_db s). split; [reflexivity|]. done.
  - cbn zeta.
    destruct (coll (st_db s) name !! _) eqn:Hl; cbn [fst snd is_done].
    + exists false, (st_db s). split; [reflexivity|]. done.
    + eexists true, _. split.
      * unfold ret, after. cbn [st_db st_calls st_log]. by rewrite app_nil_r.
      * split; [done|]. split; [done|]. intros name' Hne. by rewrite coll_set_coll_ne.
Qed.


Lemma notifications_run e s (c : bool) (dU dS b : doc) :
  (forall k db, env_interfere e k db = db) ->
  exists ok_u ok_s db',
    ((if c then
        try_catch (insertOne "UserNotifications" dU ;; ret tt)
                  (fun _ => console_error user_log)
      else ret tt) ;;
     try_catch (insertOne "StaffNotifications" dS ;; ret tt)
               (fun _ => console_error staff_log) ;;
     json 200 b) e s
    = (Done {| status := 200; body := b |},
       {| st_db := db';
          st_calls := st_calls s
                      ++ (if c then [insert_call "UserNotifications" ok_u] else [])
                      ++ [insert_call "StaffNotifications" ok_s];
          st_log := st_log s
                    ++ (if c && negb ok_u then [user_log] else [])
                    ++ (if ok_s then [] else [staff_log]) |})
    /\ ((forall k, env_fault e k OpInsertOne "UserNotifications" = true) -> ok_u = false)
    /\ ((forall k, env_fault e k OpInsertOne "StaffNotifications" = true) -> ok_s = false)
    /\ (forall name, name <> "UserNotifications" -> name <> "StaffNotifications" ->
          coll db' name = coll (st_db s) name).
Proof.
  intros Hi. destruct c.
  - destruct (notify_run e s "UserNotifications" dU user_log (Hi _ _))
      as (ok_u & db1 & Hu & _ & Hfu & Hdb1).
    set (s1 := {| st_db := db1;
                  st_calls := st_calls s ++ [insert_call "UserNotifications" ok_u];
                  st_log := st_log s ++ (if ok_u then [] else [user_log]) |}) in *.
    destruct (notify_run e s1 "StaffNotifications" dS staff_log (Hi _ _))
      as (ok_s & db2 & Hs & _ & Hfs & Hdb2).
    exists ok_u, ok_s, db2. split; [|split; [|split]].
    + erewrite bind_done by exact Hu. erewrite bind_done by exact Hs.
      unfold json, ret. subst s1. cbn [st_calls st_log st_db].
      rewrite <- !app_assoc. by destruct ok_u.
    + intros Hall. apply Hfu, Hall.
    + intros Hall. apply Hfs, Hall.
    + intros name H1 H2. rewrite Hdb2 by done. subst s1. cbn [st_db]. by apply Hdb1.
  - destruct (notify_run e s "StaffNotifications" dS staff_log (Hi _ _))
      as (ok_s & db2 & Hs & _ & Hfs & Hdb2).
    exists false, ok_s, db2. split; [|split; [|split]].
    + rewrite bind_ret. erewrite bind_done by exact Hs. reflexivity.
    + done.
    + intros Hall. apply Hfs, Hall.
    + intros name H1 H2. by apply Hdb2.
Qed.

Lemma delete_original_run e s (located : option (string * doc)) (action oidv : value) :
  (forall k db, env_interfere e k db = db) ->
  (forall n d, located = Some (n, d) ->
     (forall k op, env_fault e k op n = false) /\ is_Some (ObjectId_new oidv)) ->
  exists dels dbA,
    (match located with
     | Some (name, _) =>
         if is_str action "approve" then
           let* oid_ := new_ObjectId oidv in
           swallow (deleteOne_id name oid_)
         else ret tt
     | None => ret tt
     end) e s
    = (Done tt, {| st_db := dbA; st_calls := st_calls s ++ dels; st_log := st_log s |})
    /\ (forall name',
          coll dbA name' =
            match located, ObjectId_new oidv with
            | Some (n, _), Some o =>
                if is_str action "approve" && String.eqb n name'
                then delete o (coll (st_db s) name') else coll (st_db s) name'
            | _, _ => coll (st_db s) name'
            end)
    /\ Forall (fun c => exists n d, located = Some (n, d) /\ call_coll c = n) dels.
Proof.
  intros Hi Hloc. destruct located as [[n d]|].
  - destruct (Hloc n d eq_refl) as [Hnf [o Ho]]. rewrite Ho.
    destruct (is_str action "approve").
    + eexists [_], _. split; [|split].
      * erewrite bind_done by (by apply new_ObjectId_some).
        rewrite swallow_delete_run by apply Hnf. rewrite Hi. reflexivity.
      * intros name'. rewrite coll_after_delete. cbn [andb].
        destruct (String.eqb_spec n name'); case_decide; subst; done.
      * repeat constructor. by exists n, d.
    + exists [], (st_db s). split; [|split].
      * unfold ret. rewrite app_nil_r. by destruct s.
      * done.
      * constructor.
  - exists [], (st_db s). split; [|split].
    + unfold ret. rewrite app_nil_r. by destruct s.
    + done.
    + constructor.
Qed.

Lemma located_match_other {A} (located : option (string * doc)) (o' : option oid)
    (b : bool) name (X : oid -> A) (Y : A) :
  (forall n d, located = Some (n, d) -> n <> name) ->
  match located, o' with
  | Some (n, _), Some o => if b && String.eqb n name then X o else Y
  | _, _ => Y
  end = Y.
Proof.
  intros Hn. destruct located as [[n d]|]; [|done]. destruct o'; [|done].
  destruct (String.eqb_spec n name) as [->|]; [by destruct (Hn _ _ eq_refl)|].
  by rewrite andb_false_r.
Qed.

Lemma process_return_request_run e (db : Database) (requestId : string)
    (req_body : doc) (rid : oid) (request : doc) :
  notifier_only e ->
  includes ["approve"; "reject"] (dget req_body "action") = true ->
  ObjectId_new (VStr requestId) = Some rid ->
  coll db "ReturnRequests" !! rid = Some request ->
  (forall k, coll db "ReturnedOrders" !! env_oid e k = None) ->
  let action := dget req_body "action" in
  let decision := if_approve action "accepted" "rejected" in
  let located := original_of db request in
  let originalOrder := match located with Some (_, d) => VObj d | None => VNull end in
  let userId := (dget request "userId" || prop originalOrder "userId"
                 || prop originalOrder "customerId" || VNull)%js in
  exists r s',
    run (process_return_request requestId req_body) e db = (Done r, s')
    /\ exists aid processedAt (before : list call) ok_user ok_staff,
    status r = 200
    /\ dget (body r) "success" = VBool true
    /\ dget (body r) "status" = VStr decision
    /\ coll (st_db s') "ReturnedOrders" =
         <[aid := stored aid
                    (archivedRecord_of rid action (dget req_body "staffNotes")
                       (dget req_body "returnImage") request originalOrder
                       (match located with Some (n, _) => VStr n | None => VNull end)
                       (VDate processedAt))]> (coll db "ReturnedOrders")
    /\ coll (st_db s') "ReturnRequests" = delete rid (coll db "ReturnRequests")
    /\ (forall name, In name order_collections ->
          coll (st_db s') name =
            match located, ObjectId_new (dget request "originalOrderId") with
            | Some (n, _), Some o =>
                if is_str action "approve" && String.eqb n name
                then delete o (coll db name) else coll db name
            | _, _ => coll db name
            end)
    /\ st_calls s' =
         (before
          ++ (if truthy userId then [insert_call "UserNotifications" ok_user] else [])
          ++ [insert_call "StaffNotifications" ok_staff])%list
    /\ Forall (fun c => call_coll c <> "UserNotifications"
                        /\ call_coll c <> "StaffNotifications") before
    /\ st_log s' =
         ((if truthy userId && negb ok_user then [user_log] else [])
          ++ (if ok_staff then [] else [staff_log]))%list
    /\ ((forall k, env_fault e k OpInsertOne "UserNotifications" = true) -> ok_user = false)
    /\ ((forall k, env_fault e k OpInsertOne "StaffNotifications" = true) -> ok_staff = false).
Proof.
  intros He Hact Hrid Hreq Hfresh action decision located originalOrder userId.
  pose proof (no_interference e He) as Hi.
  assert (Hnf : forall k op name, name <> "UserNotifications" ->
                  name <> "StaffNotifications" -> env_fault e k op name = false).
  { intros. by apply no_fault_elsewhere. }
  unfold run, process_return_request. rewrite Hact. cbn [negb]. cbn iota.
  apply try_catch_ex.
  eapply bind_ex; [by apply new_ObjectId_some|]. cbn beta.
  eapply bind_ex.
  { apply findOne_id_some; [by apply Hnf | rewrite Hi; exact Hreq]. }
  rewrite Hi. cbn beta iota. norm.
  destruct (locate_original_run e order_collections (dget request "originalOrderId") He
              ltac:(repeat constructor; done)
              (after (initial db) OpFindOne "ReturnRequests" true db))
    as (searched & Hloc & Hsearched).
  eapply bind_ex; [exact Hloc|]. clear Hloc. cbn beta. norm.
  fold (original_of db request). fold located.
  eapply bind_ex; [apply new_Date_run|]. cbn beta.
  eapply bind_ex.
  { apply insertOne_fresh; [by apply Hnf | reflexivity | rewrite Hi; apply Hfresh]. }
  rewrite Hi. cbn beta. cbn [acknowledged insertedId negb]. cbn iota. norm.
  eapply bind_ex.
  { eapply deleteOne_id_some; [by apply Hnf |].
    rewrite Hi. norm. rewrite coll_set_coll_ne by done. exact Hreq. }
  rewrite Hi. cbn beta. norm. cbn [Z.eqb]. cbn iota.
  assert (Hoc : forall n, In n order_collections ->
            n <> "UserNotifications" /\ n <> "StaffNotifications"
            /\ n <> "ReturnedOrders" /\ n <> "ReturnRequests").
  { intros n Hin. simpl in Hin.
    repeat split; intros ->; intuition discriminate. }
  assert (Hin : forall n d, located = Some (n, d) -> In n order_collections).
  { intros n d Hl. unfold located, original_of in Hl.
    destruct (ObjectId_new (dget request "originalOrderId")) as [o|]; [|done].
    by apply first_holding_in in Hl as [Hin _]. }
  assert (Hlocated : forall n d, located = Some (n, d) ->
            (forall k op, env_fault e k op n = false)
            /\ is_Some (ObjectId_new (dget request "originalOrderId"))).
  { intros n d Hl. split.
    - intros k op. destruct (Hoc n (Hin _ _ Hl)) as (? & ? & _). by apply Hnf.
    - unfold located, original_of in Hl.
      destruct (ObjectId_new (dget request "originalOrderId")) as [o|]; [by eexists|done]. }
  match goal with
  | |- exists r s', bind _ _ e ?s = _ /\ _ =>
      destruct (delete_original_run e s located (dget req_body "action")
                  (dget request "originalOrderId") Hi Hlocated)
        as (dels & dbA & HD & HdbA & Hdels)
  end.
  eapply bind_ex; [exact HD|]. clear HD. cbn beta. cbv zeta.
  match goal with
  | |- exists r s',
        bind (if ?c then try_catch (bind (insertOne _ ?dU) _) _ else _)
             (fun _ => bind (try_catch (bind (insertOne _ ?dS) _) _) (fun _ => json 200 ?b))
             e ?s = _ /\ _ =>
      destruct (notifications_run e s c dU dS b Hi)
        as (ok_u & ok_s & db' & HN & Hfu & Hfs & Hdb')
  end.
  eexists _, _. split; [exact HN|]. clear HN.
  eexists (env_oid e _), (env_now e _), _, ok_u, ok_s.
  cbn [status body st_db st_calls st_log].
  split; [reflexivity|]. split; [reflexivity|]. split; [reflexivity|].
  split.
  { rewrite Hdb' by done. rewrite HdbA. rewrite located_match_other.
    - norm. rewrite coll_set_coll_ne by done. rewrite coll_set_coll_eq. reflexivity.
    - intros n d Hl ->. by destruct (Hoc _ (Hin _ _ Hl)) as (_ & _ & ? & _). }
  split.
  { rewrite Hdb' by done. rewrite HdbA. rewrite located_match_other.
    - norm. rewrite coll_set_coll_eq. by rewrite coll_set_coll_ne.
    - intros n d Hl ->. by destruct (Hoc _ (Hin _ _ Hl)) as (_ & _ & _ & ?). }
  split.
  { intros name Hname. destruct (Hoc _ Hname) as (? & ? & ? & ?).
    rewrite Hdb' by done. rewrite HdbA. norm.
    rewrite !coll_set_coll_ne by done. reflexivity. }
  split; [reflexivity|].
  split.
  { norm. unfold after, initial. cbn [st_calls].
    repeat (apply Forall_app; split); try (repeat constructor; done).
    - apply Forall_forall. intros c Hc.
      apply list_elem_of_In, in_map_iff in Hc as (n & <- & Hn).
      apply Hsearched in Hn. destruct (Hoc _ Hn) as (? & ? & _). done.
    - eapply Forall_impl; [exact Hdels|]. intros c (n & d & Hl & ->).
      destruct (Hoc _ (Hin _ _ Hl)) as (? & ? & _). done. }
  split; [reflexivity|].
  split; [exact Hfu | exact Hfs].
Qed.

Lemma archived_fields (aid rid : oid) action staffNotes returnImage (request : doc)
    originalOrder originalName processedAt :
  let archived :=
    stored aid (archivedRecord_of rid action staffNotes returnImage request
                  originalOrder originalName processedAt) in
  dget archived "status" = VStr (if_approve action "accepted" "rejected")
  /\ dget archived "staffDecision" = VStr (if_approve action "accepted" "rejected")
  /\ dget archived "customerImage" = to_bson (dget request "returnImage" || VNull)%js.
Proof. cbv zeta. unfold stored, archivedRecord_of. repeat split. Qed.


(** C8. A staff decision on a return request, without interference or
    failing calls: a record is archived in [ReturnedOrders] whose
    [staffDecision] is "accepted" on approve and "rejected" on reject and
    whose [customerImage] is the image stored with the request; the request
    is deleted from [ReturnRequests]; the original order, in the collection
    where the search finds it, is deleted on approve and left unchanged on
    reject, and no other order collection changes. *)
Theorem return_decision_archives_and_removes (gen : nat -> oid) (now : nat -> Z)
    (db : Database) (requestId : string) (req_body : doc) (rid : oid) (request : doc) :
  includes ["approve"; "reject"] (dget req_body "action") = true ->
  ObjectId_new (VStr requestId) = Some rid ->
  coll db "ReturnRequests" !! rid = Some request ->
  (forall k, coll db "ReturnedOrders" !! gen k = None) ->
  let action := dget req_body "action" in
  exists r s' aid archived,
    run (process_return_request requestId req_body) (quiet gen now) db = (Done r, s')
    /\ status r = 200
    /\ coll (st_db s') "ReturnedOrders" !! aid = Some archived
    /\ (action = VStr "approve" -> dget archived "staffDecision" = VStr "accepted")
    /\ (action = VStr "reject" -> dget archived "staffDecision" = VStr "rejected")
    /\ dget archived "customerImage" = to_bson (dget request "returnImage" || VNull)%js
    /\ (forall img, dget request "returnImage" = VStr img -> img <> EmptyString ->
          dget archived "customerImage" = VStr img)
    /\ coll (st_db s') "ReturnRequests" !! rid = None
    /\ (forall n d o,
          original_of db request = Some (n, d) ->
          ObjectId_new (dget request "originalOrderId") = Some o ->
          (action = VStr "approve" -> coll (st_db s') n !! o = None)
          /\ (action = VStr "reject" -> coll (st_db s') n !! o = Some d))
    /\ (forall name, In name order_collections ->
          action = VStr "reject" \/ (forall d, original_of db request <> Some (name, d)) ->
          coll (st_db s') name = coll db name).
Proof.
  intros Hact Hrid Hreq Hfresh action.
  destruct (process_return_request_run (quiet gen now) db requestId req_body rid request
              (quiet_notifier_only gen now) Hact Hrid Hreq Hfresh)
    as (r & s' & Hrun & aid & processedAt & before & ok_u & ok_s & Hst & _ & _
        & Hro & Hrr & Horders & _).
  match type of Hro with
  | _ = <[_ := stored _ (archivedRecord_of ?a1 ?a2 ?a3 ?a4 ?a5 ?a6 ?a7 ?a8)]> _ =>
      destruct (archived_fields aid a1 a2 a3 a4 a5 a6 a7 a8) as (_ & Fdec & Fimg)
  end.
  eexists r, s', aid, _. split; [exact Hrun|]. split; [exact Hst|].
  split; [rewrite Hro; apply lookup_insert_eq|].
  split; [intros Ha; rewrite Fdec; fold action; by rewrite Ha|].
  split; [intros Ha; rewrite Fdec; fold action; by rewrite Ha|].
  split; [exact Fimg|].
  split.
  { intros img Himg Hne. rewrite Fimg, Himg. unfold js_or. simpl.
    destruct (String.eqb_spec img EmptyString); done. }
  split; [rewrite Hrr; apply lookup_delete_eq|].
  split.
  { intros n d o Hloc Ho.
    pose proof Hloc as Hloc'. unfold original_of in Hloc'. rewrite Ho in Hloc'.
    apply first_holding_in in Hloc' as [Hin Hl].
    specialize (Horders n Hin). rewrite Hloc, Ho in Horders.
    rewrite String.eqb_refl in Horders. fold action in Horders.
    split; intros Ha; rewrite Ha in Horders; simpl in Horders; rewrite Horders.
    - apply lookup_delete_eq.
    - exact Hl. }
  intros name Hin Hcase. rewrite (Horders name Hin). fold action.
  destruct (original_of db request) as [[n d]|] eqn:Hloc; [|done].
  destruct (ObjectId_new (dget request "originalOrderId")); [|done].
  destruct Hcase as [-> | Hno]; [done|].
  destruct (String.eqb_spec n name) as [->|]; [by destruct (Hno d)|].
  by rewrite andb_false_r.
Qed.

(** C9, as the code has it.  A return decision first creates the user
    notification, if a user can be resolved for the request (from the
    request, or from the located order's [userId] or [customerId]), and
    then the staff notification; each in a [try] block of its own.
    Whatever the notification inserts do, the call answers success with
    the decided status, the archived record and the removal of the request
    stay in place, and each failed insert leaves one line in the error
    log. *)
Theorem return_decision_survives_notification_failure (e : Env) (db : Database)
    (requestId : string) (req_body : doc) (rid : oid) (request : doc) :
  notifier_only e ->
  includes ["approve"; "reject"] (dget req_body "action") = true ->
  ObjectId_new (VStr requestId) = Some rid ->
  coll db "ReturnRequests" !! rid = Some request ->
  (forall k, coll db "ReturnedOrders" !! env_oid e k = None) ->
  let decision := if_approve (dget req_body "action") "accepted" "rejected" in
  exists r s' aid archived (before : list call) ok_user ok_staff,
    run (process_return_request requestId req_body) e db = (Done r, s')
    /\ status r = 200
    /\ dget (body r) "success" = VBool true
    /\ dget (body r) "status" = VStr decision
    /\ coll (st_db s') "ReturnedOrders" !! aid = Some archived
    /\ dget archived "status" = VStr decision
    /\ coll (st_db s') "ReturnRequests" !! rid = None
    /\ st_calls s' =
         (before
          ++ (if truthy (notified_user db request)
              then [insert_call "UserNotifications" ok_user] else [])
          ++ [insert_call "StaffNotifications" ok_staff])%list
    /\ Forall (fun c => call_coll c <> "UserNotifications"
                        /\ call_coll c <> "StaffNotifications") before
    /\ st_log s' =
         ((if truthy (notified_user db request) && negb ok_user then [user_log] else [])
          ++ (if ok_staff then [] else [staff_log]))%list
    /\ ((forall k, env_fault e k OpInsertOne "UserNotifications" = true) -> ok_user = false)
    /\ ((forall k, env_fault e k OpInsertOne "StaffNotifications" = true) -> ok_staff = false).
Proof.
  intros He Hact Hrid Hreq Hfresh decision.
  destruct (process_return_request_run e db requestId req_body rid request
              He Hact Hrid Hreq Hfresh)
    as (r & s' & Hrun & aid & processedAt & before & ok_u & ok_s & Hst & Hsucc & Hdec
        & Hro & Hrr & _ & Hcalls & Hbefore & Hlog & Hfu & Hfs).
  match type of Hro with
  | _ = <[_ := stored _ (archivedRecord_of ?a1 ?a2 ?a3 ?a4 ?a5 ?a6 ?a7 ?a8)]> _ =>
      destruct (archived_fields aid a1 a2 a3 a4 a5 a6 a7 a8) as (Fst & _ & _)
  end.
  eexists r, s', aid, _, before, ok_u, ok_s.
  split; [exact Hrun|]. split; [exact Hst|]. split; [exact Hsucc|]. split; [exact Hdec|].
  split; [rewrite Hro; apply lookup_insert_eq|].
  split; [exact Fst|].
  split; [rewrite Hrr; apply lookup_delete_eq|].
  split; [exact Hcalls|]. split; [exact Hbefore|]. split; [exact Hlog|].
  split; [exact Hfu | exact Hfs].
Qed.

End Returns.

(** ** The stock ledger *)

Section Stock.
Context `{Runtime}.

Lemma member_run v k e s :
  v <> VUndef -> v <> VNull -> member v k e s = (Done (prop v k), s).
Proof. by destruct v. Qed.

Lemma item_of_inv v o q :
  item_of v = Some (o, q) ->
  v <> VUndef /\ v <> VNull /\ prop v "quantity" = VNum q
  /\ truthy (prop v "id") = true /\ ObjectId_new (prop v "id") = Some o.
Proof.
  unfold item_of. intros Hv.
  assert (v <> VUndef /\ v <> VNull) as [? ?] by (by destruct v).
  assert (Hv' : match prop v "quantity" with
                | VNum q => if truthy (prop v "id")
                            then (fun o => (o, q)) <$> ObjectId_new (prop v "id")
                            else None
                | _ => None end = Some (o, q)) by (by destruct v).
  clear Hv. destruct (prop v "quantity"); try done.
  destruct (truthy (prop v "id")); [|done].
  destruct (ObjectId_new (prop v "id")); [|done].
  simpl in Hv'. by injection Hv' as -> ->.
Qed.

Lemma item_of_intro v o q :
  v <> VUndef -> v <> VNull -> prop v "quantity" = VNum q ->
  truthy (prop v "id") = true -> ObjectId_new (prop v "id") = Some o ->
  item_of v = Some (o, q).
Proof.
  intros Hu Hn Hq Hid Ho. unfold item_of.
  destruct v; try done; by rewrite Hq, Hid, Ho.
Qed.

Lemma stock_after_inc (db : Database) o (d : doc) n q p :
  coll db "Products" !! o = Some d ->
  dget d "stockQuantity" = VNum n ->
  stock (set_coll db "Products"
           (<[o := dset d "stockQuantity" (VNum (n + q))]> (coll db "Products"))) p
  = if decide (o = p) then Some (n + q) else stock db p.
Proof.
  intros Hl Hd. unfold stock. rewrite coll_set_coll_eq. rewrite lookup_insert.
  case_decide; [|done]. by rewrite dget_dset_eq.
Qed.

Lemma restore_stock_loop_run e (reason : value) :
  (forall k db, env_interfere e k db = db) ->
  (forall k op name, env_fault e k op name = false) ->
  forall (items : list value) (its : list (oid * Z)) (results : list value) (s : State),
    mapM item_of items = Some its ->
    Forall (fun it => coll (st_db s) "Products" !! it.1 = None
                      \/ exists n, stock (st_db s) it.1 = Some n) its ->
    exists r s',
      restore_stock_loop items reason results e s = (Done r, s')
      /\ status r = 200
      /\ (forall p n, stock (st_db s) p = Some n ->
                      stock (st_db s') p = Some (n + requested its p))
      /\ (forall name, name <> "Products" -> coll (st_db s') name = coll (st_db s) name).
Proof.
  intros Hi Hf. induction items as [|item items IH]; intros its results s Hits Hprod.
  - injection Hits as <-. eexists _, s. split; [reflexivity|]. split; [done|].
    split; [|done]. intros p n Hp. by rewrite Z.add_0_r.
  - cbn [mapM] in Hits.
    destruct (item_of item) as [[o q]|] eqn:Hitem; [|done].
    destruct (mapM item_of items) as [its'|] eqn:Hits'; [|done].
    injection Hits as <-.
    apply item_of_inv in Hitem as (Hu & Hn & Hq & Hid & Ho).
    apply Forall_cons in Hprod as [Ho_prod Hrest]. simpl in Ho_prod.
    cbn [restore_stock_loop].
    eapply bind_ex; [by apply member_run|].
    eapply bind_ex; [by apply member_run|]. cbn beta. rewrite Hq, Hid. cbn [negb]. cbn iota.
    eapply bind_ex; [by apply new_ObjectId_some|]. cbn beta.
    destruct (coll (st_db s) "Products" !! o) as [d|] eqn:Hl.
    + destruct Ho_prod as [|[n Hn']]; [done|].
      unfold stock in Hn'. rewrite Hl in Hn'.
      destruct (dget d "stockQuantity") eqn:Hd; try done. injection Hn' as ->.
      eapply bind_ex.
      { eapply findOne_id_some; [apply Hf|]. rewrite Hi. exact Hl. }
      cbn beta iota. cbn [truthy negb]. cbn iota.
      eapply bind_ex; [by apply new_ObjectId_some|]. cbn beta.
      eapply bind_ex.
      { eapply updateOne_inc_num; [apply Hf| |exact Hd]. rewrite !Hi. norm. rewrite ?Hi. exact Hl. }
      cbn beta. rewrite !Hi. norm.
      edestruct IH as (r & s' & Hrun & Hst & Hstock & Hother); [reflexivity| |].
      2:{ eexists r, s'. split; [exact Hrun|]. split; [done|].
          rewrite st_db_after in Hstock, Hother. split.
          - intros p m Hp. cbn [requested].
            specialize (Hstock p). rewrite (stock_after_inc _ _ _ _ _ _ Hl Hd) in Hstock.
            case_decide as Hop.
            + subst p. unfold stock in Hp. rewrite Hl, Hd in Hp. injection Hp as ->.
              rewrite String.eqb_refl. rewrite (Hstock _ eq_refl). f_equal; lia.
            + rewrite (proj2 (String.eqb_neq o p)) by done.
              rewrite (Hstock _ Hp). f_equal; lia.
          - intros name Hne. rewrite Hother by done. by rewrite coll_set_coll_ne. }
      rewrite st_db_after.
      eapply Forall_impl; [exact Hrest|]. intros [o' q'] Ho'. simpl in *.
      destruct (decide (o = o')) as [<-|Hne].
      * right. rewrite (stock_after_inc _ _ _ _ _ _ Hl Hd). rewrite decide_True by done.
        by eexists.
      * destruct Ho' as [Hnone | [m Hm]].
        -- left. rewrite coll_set_coll_eq. by rewrite lookup_insert_ne.
        -- right. rewrite (stock_after_inc _ _ _ _ _ _ Hl Hd). rewrite decide_False by done.
           by eexists.
    + eapply bind_ex.
      { eapply findOne_id_none; [apply Hf|]. rewrite Hi. exact Hl. }
      cbn beta iota. cbn [truthy negb]. cbn iota. rewrite Hi.
      eapply bind_ex; [apply console_error_run|]. cbn beta.
      edestruct IH as (r & s' & Hrun & Hst & Hstock & Hother); [reflexivity| |].
      2:{ eexists r, s'. split; [exact Hrun|]. split; [done|].
          cbn [st_db] in Hstock, Hother. rewrite st_db_after in Hstock, Hother.
          split; [|exact Hother].
          intros p m Hp. cbn [requested].
          destruct (String.eqb_spec o p) as [->|].
          - unfold stock in Hp. by rewrite Hl in Hp.
          - rewrite (Hstock _ _ Hp). f_equal; lia. }
      cbn [st_db]. rewrite st_db_after. exact Hrest.
Qed.

Lemma bind_inv {A B} (m : M A) (k : A -> M B) e s r s' :
  bind m k e s = (Done r, s') ->
  exists a s1, m e s = (Done a, s1) /\ k a e s1 = (Done r, s').
Proof.
  unfold bind. destruct (m e s) as [[a|msg] s1]; [|done]. intros Hk. by exists a, s1.
Qed.

Lemma member_inv v k e s a s1 :
  member v k e s = (Done a, s1) -> v <> VUndef /\ v <> VNull /\ a = prop v k /\ s1 = s.
Proof. destruct v; simpl; try done; by intros [= <- <-]. Qed.

Lemma new_ObjectId_inv v e s o s1 :
  new_ObjectId v e s = (Done o, s1) -> ObjectId_new v = Some o /\ s1 = s.
Proof. unfold new_ObjectId. destruct (ObjectId_new v); [|done]. by intros [= <- <-]. Qed.

Lemma db_call_inv {A} o name (op : oid -> Database -> outcome A * Database) e s a s1 :
  db_call o name op e s = (Done a, s1) ->
  exists db',
    op (env_oid e (ticks s)) (env_interfere e (ticks s) (st_db s)) = (Done a, db')
    /\ s1 = after s o name true db'.
Proof.
  unfold db_call. destruct (env_fault e (ticks s) o name); [done|]. cbn zeta.
  destruct (op _ _) as [[a'|msg] db']; cbn [fst snd is_done]; [|done].
  intros [= <- <-]. by exists db'.
Qed.

Lemma console_error_json_inv msg code b e s r s' :
  (console_error msg ;; json code b) e s = (Done r, s') -> status r = code.
Proof. by intros [= <- _]. Qed.

(** The effect of one accepted item on the stock levels. *)
Lemma updateOne_inc_stock name e s o q a s1 :
  (forall k db, env_interfere e k db = db) ->
  updateOne_inc "Products" o "stockQuantity" q e s = (Done a, s1) ->
  (forall p n, stock (st_db s) p = Some n ->
               stock (st_db s1) p = Some (if decide (o = p) then n + q else n))
  /\ (name <> "Products" -> coll (st_db s1) name = coll (st_db s) name).
Proof.
  intros Hi Hrun. unfold updateOne_inc in Hrun.
  apply db_call_inv in Hrun as (db' & Hop & ->). rewrite Hi in Hop. rewrite st_db_after.
  destruct (coll (st_db s) "Products" !! o) as [d|] eqn:Hl.
  - destruct (dget d "stockQuantity") eqn:Hd; try done.
    + injection Hop as _ <-. split.
      * intros p m Hp. unfold stock. rewrite coll_set_coll_eq, lookup_insert.
        case_decide.
        -- subst p. unfold stock in Hp. by rewrite Hl, Hd in Hp.
        -- exact Hp.
      * intros Hne. by rewrite coll_set_coll_ne.
    + injection Hop as _ <-. split.
      * intros p m Hp. rewrite (stock_after_inc _ _ _ _ _ _ Hl Hd).
        case_decide; [|done]. subst p. unfold stock in Hp. rewrite Hl, Hd in Hp.
        by injection Hp as ->.
      * intros Hne. by rewrite coll_set_coll_ne.
  - injection Hop as _ <-. split; [|done].
    intros p m Hp. case_decide; [|done]. subst p. unfold stock in Hp. by rewrite Hl in Hp.
Qed.

Lemma findOne_id_inv name o e s a s1 :
  (forall k db, env_interfere e k db = db) ->
  findOne_id name o e s = (Done a, s1) ->
  a = match coll (st_db s) name !! o with Some d => VObj d | None => VNull end
  /\ st_db s1 = st_db s.
Proof.
  intros Hi Hrun. unfold findOne_id in Hrun.
  apply db_call_inv in Hrun as (db' & Hop & ->). rewrite Hi in Hop.
  by injection Hop as <- <-.
Qed.

Lemma bulk_stock_loop_effect e :
  (forall k db, env_interfere e k db = db) ->
  forall (updates : list value) (results : list value) s r s',
    bulk_stock_loop updates results e s = (Done r, s') ->
    status r = 200 ->
    exists items,
      mapM item_of updates = Some items
      /\ (forall p n, stock (st_db s) p = Some n ->
                      stock (st_db s') p = Some (n - requested items p))
      /\ (forall name, name <> "Products" -> coll (st_db s') name = coll (st_db s) name).
Proof.
  intros Hi. induction updates as [|update updates IH]; intros results s r s' Hrun Hst.
  - injection Hrun as <- <-. exists []. split; [done|]. split; [|done].
    intros p n Hp. by rewrite Z.sub_0_r.
  - cbn [bulk_stock_loop] in Hrun.
    apply bind_inv in Hrun as (id & s1 & Hid & Hrun).
    apply member_inv in Hid as (Hu & Hn & -> & ->).
    apply bind_inv in Hrun as (quantity & s1 & Hq & Hrun).
    apply member_inv in Hq as (_ & _ & -> & ->).
    destruct (prop update "quantity") eqn:Hq;
      try (apply console_error_json_inv in Hrun; lia).
    destruct (truthy (prop update "id")) eqn:Htr; cbn [negb] in Hrun;
      [|apply console_error_json_inv in Hrun; lia].
    apply bind_inv in Hrun as (o & s1 & Ho & Hrun).
    apply new_ObjectId_inv in Ho as (Ho & ->).
    apply bind_inv in Hrun as (prod & s1 & Hfind & Hrun).
    apply (findOne_id_inv _ _ _ _ _ _ Hi) in Hfind as (-> & Hdb1).
    destruct (coll (st_db s) "Products" !! o) as [d|] eqn:Hl; cbn [truthy negb] in Hrun;
      [|apply console_error_json_inv in Hrun; lia].
    destruct (js_lt_num (prop (VObj d) "stockQuantity") n);
      [apply console_error_json_inv in Hrun; lia|].
    apply bind_inv in Hrun as (o2 & s2 & Ho2 & Hrun).
    apply new_ObjectId_inv in Ho2 as (Ho2 & ->).
    assert (o2 = o) as -> by congruence.
    apply bind_inv in Hrun as (res & s3 & Hupd & Hrun).
    destruct (updateOne_inc_stock "Products" _ _ _ _ _ _ Hi Hupd) as [Hstock _].
    destruct (IH _ _ _ _ Hrun Hst) as (items & Hitems & Hrest & Hother).
    exists ((o, n) :: items). split; [|split].
    + cbn [mapM]. rewrite (item_of_intro _ _ _ Hu Hn Hq Htr Ho). by rewrite Hitems.
    + intros p m Hp. rewrite <- Hdb1 in Hp. apply Hstock in Hp.
      rewrite (Hrest _ _ Hp). cbn [requested]. f_equal.
      case_decide as Hop.
      * subst p. rewrite String.eqb_refl. lia.
      * rewrite (proj2 (String.eqb_neq o p)) by done. lia.
    + intros name Hne. rewrite Hother by done.
      destruct (updateOne_inc_stock name _ _ _ _ _ _ Hi Hupd) as [_ Hc].
      rewrite Hc by done. by rewrite Hdb1.
Qed.


(** An accepted batch followed by further items: the further items are
    processed from the state the batch leaves. *)
Lemma bulk_stock_loop_prefix e (rest : list value) :
  forall (pre : list value) (results : list value) s r1 s1,
    bulk_stock_loop pre results e s = (Done r1, s1) ->
    status r1 = 200 ->
    exists results',
      bulk_stock_loop (pre ++ rest) results e s = bulk_stock_loop rest results' e s1.
Proof.
  induction pre as [|update pre IH]; intros results s r1 s1 Hrun Hst.
  - injection Hrun as _ <-. by exists results.
  - cbn [bulk_stock_loop app] in *.
    apply bind_inv in Hrun as (id & s0 & Hid & Hrun). rewrite (bind_done _ _ _ _ _ _ Hid).
    apply member_inv in Hid as (Hu & Hn & -> & ->).
    apply bind_inv in Hrun as (quantity & s0 & Hq & Hrun). rewrite (bind_done _ _ _ _ _ _ Hq).
    apply member_inv in Hq as (_ & _ & -> & ->).
    destruct (prop update "quantity") eqn:Hq;
      try (apply console_error_json_inv in Hrun; lia).
    destruct (truthy (prop update "id")) eqn:Htr; cbn [negb] in *;
      [|apply console_error_json_inv in Hrun; lia].
    apply bind_inv in Hrun as (o & s0 & Ho & Hrun). rewrite (bind_done _ _ _ _ _ _ Ho).
    apply bind_inv in Hrun as (prod & s2 & Hfind & Hrun).
    rewrite (bind_done _ _ _ _ _ _ Hfind).
    destruct (truthy prod); cbn [negb] in *;
      [|apply console_error_json_inv in Hrun; lia].
    destruct (js_lt_num (prop prod "stockQuantity") n);
      [apply console_error_json_inv in Hrun; lia|].
    apply bind_inv in Hrun as (o2 & s3 & Ho2 & Hrun). rewrite (bind_done _ _ _ _ _ _ Ho2).
    apply bind_inv in Hrun as (res & s4 & Hupd & Hrun).
    rewrite (bind_done _ _ _ _ _ _ Hupd).
    by apply (IH _ _ _ _ Hrun).
Qed.

(** On an item that asks for more than the product has, the loop answers
    400, naming the product, the stock and the quantity, and leaves the
    database as it is. *)
Lemma bulk_stock_loop_short e (u : value) (rest results : list value) s o q (d : doc) n :
  (forall k db, env_interfere e k db = db) ->
  (forall k op name, env_fault e k op name = false) ->
  item_of u = Some (o, q) ->
  coll (st_db s) "Products" !! o = Some d ->
  ToNumber (dget d "stockQuantity") = Some n ->
  n < q ->
  exists s',
    bulk_stock_loop (u :: rest) results e s =
      (Done {| status := 400;
               body := [("error",
                         VStr ("Insufficient stock for " +:+ ToString (dget d "name")
                               +:+ ". Available: " +:+ ToString (dget d "stockQuantity")
                               +:+ ", Requested: " +:+ ToString (VNum q)))] |}, s')
    /\ st_db s' = st_db s.
Proof.
  intros Hi Hf Hitem Hl Hnum Hlt.
  apply item_of_inv in Hitem as (Hu & Hn & Hq & Hid & Ho).
  cbn [bulk_stock_loop].
  rewrite (bind_done _ _ _ _ _ _ (member_run _ _ _ _ Hu Hn)).
  rewrite (bind_done _ _ _ _ _ _ (member_run _ _ _ _ Hu Hn)).
  rewrite Hq, Hid. cbn [negb].
  rewrite (bind_done _ _ _ _ _ _ (new_ObjectId_some _ _ _ _ Ho)).
  erewrite bind_done.
  2:{ eapply findOne_id_some; [apply Hf|]. rewrite Hi. exact Hl. }
  cbn [truthy negb prop]. unfold js_lt_num. rewrite Hnum.
  rewrite (proj2 (Z.ltb_lt n q) Hlt).
  erewrite bind_done by apply console_error_run.
  eexists. split; [reflexivity|]. cbn [st_db]. rewrite st_db_after. apply Hi.
Qed.

(** A batch in which no product is asked for more than it has is
    accepted. *)
Lemma bulk_stock_loop_accepts e :
  (forall k db, env_interfere e k db = db) ->
  (forall k op name, env_fault e k op name = false) ->
  forall (updates : list value) (items : list (oid * Z)) (results : list value) s,
    mapM item_of updates = Some items ->
    Forall (fun it => 0 <= it.2
                      /\ exists n, stock (st_db s) it.1 = Some n
                                   /\ requested items it.1 <= n) items ->
    exists r s', bulk_stock_loop updates results e s = (Done r, s') /\ status r = 200.
Proof.
  intros Hi Hf. induction updates as [|u updates IH]; intros items results s Hitems Hok.
  - by eexists _, _.
  - cbn [mapM] in Hitems.
    destruct (item_of u) as [[o q]|] eqn:Hitem; [|done].
    destruct (mapM item_of updates) as [items'|] eqn:Hitems'; [|done].
    injection Hitems as <-.
    apply item_of_inv in Hitem as (Hu & Hn & Hq & Hid & Ho).
    pose proof Hok as Hok0.
    apply Forall_cons in Hok as [(Hq0 & n & Hstock & Hreq) Hrest]. simpl in Hq0, Hstock, Hreq.
    assert (Hnonneg : forall p, 0 <= requested items' p).
    { intros p. clear -Hrest. induction Hrest as [|[o' q'] l [Hq' _] _ IHl]; simpl; [done|].
      destruct (String.eqb o' p); simpl in Hq'; lia. }
    rewrite String.eqb_refl in Hreq.
    unfold stock in Hstock.
    destruct (coll (st_db s) "Products" !! o) as [d|] eqn:Hl; [|done].
    destruct (dget d "stockQuantity") eqn:Hd; try done. injection Hstock as ->.
    cbn [bulk_stock_loop].
    eapply bind_ex; [by apply member_run|].
    eapply bind_ex; [by apply member_run|]. cbn beta. rewrite Hq, Hid. cbn [negb]. cbn iota.
    eapply bind_ex; [by apply new_ObjectId_some|]. cbn beta.
    eapply bind_ex.
    { eapply findOne_id_some; [apply Hf|]. rewrite Hi. exact Hl. }
    cbn beta iota. cbn [truthy negb prop]. cbn iota.
    unfold js_lt_num. rewrite Hd, ToNumber_num.
    specialize (Hnonneg o).
    rewrite (proj2 (Z.ltb_ge n q)) by lia.
    eapply bind_ex; [by apply new_ObjectId_some|]. cbn beta.
    eapply bind_ex.
    { eapply updateOne_inc_num; [apply Hf| |exact Hd]. rewrite !Hi. norm. rewrite ?Hi. exact Hl. }
    cbn beta. rewrite !Hi. norm.
    eapply IH; [reflexivity|]. rewrite st_db_after.
    eapply Forall_impl; [exact Hrest|]. intros [o' q'] (Hq' & m & Hm & Hle). simpl in *.
    split; [done|].
    rewrite (stock_after_inc _ _ _ _ _ _ Hl Hd).
    case_decide as Hoo.
    + subst o'. exists (n + - q). split; [done|]. lia.
    + exists m. split; [done|].
      rewrite (proj2 (String.eqb_neq o o')) in Hle by done. lia.
Qed.


Lemma bulk_stock_unfold (req_body : doc) (updates : list value) e s :
  dget req_body "updates" = VArr updates ->
  bulk_stock req_body e s =
    try_catch (bulk_stock_loop updates [])
      (fun message =>
         console_error "❌ Error updating bulk stock:" ;;
         console_error "❌ Error stack:" ;;
         json 500 [("error", VStr "Failed to update bulk stock");
                   ("details", VStr message)]) e s.
Proof. intros Hu. unfold bulk_stock. by rewrite Hu. Qed.

Lemma bulk_stock_inv_200 (req_body : doc) (updates : list value) e db r s' :
  dget req_body "updates" = VArr updates ->
  run (bulk_stock req_body) e db = (Done r, s') ->
  status r = 200 ->
  bulk_stock_loop updates [] e (initial db) = (Done r, s').
Proof.
  intros Hu Hrun Hst. unfold run in Hrun. rewrite (bulk_stock_unfold _ _ _ _ Hu) in Hrun.
  unfold try_catch in Hrun.
  destruct (bulk_stock_loop updates [] e (initial db)) as [[a|msg] s1]; [done|].
  injection Hrun as <- _. simpl in Hst. lia.
Qed.


Lemma reserve_stock_run (gen : nat -> oid) (now : nat -> Z) (db : Database)
    (req_body : doc) (items : list value) :
  dget req_body "items" = VArr items ->
  truthy (dget req_body "reservationId") = true ->
  coll db "StockReservations" !! gen 0%nat = None ->
  exists r s',
    run (reserve_stock req_body) (quiet gen now) db = (Done r, s')
    /\ status r = 200
    /\ (forall name, name <> "StockReservations" -> coll (st_db s') name = coll db name).
Proof.
  intros Hitems Hrid Hfresh. unfold run, reserve_stock. rewrite Hitems, Hrid.
  cbn [truthy isArray negb orb]. cbn iota.
  apply try_catch_ex.
  eapply bind_ex; [apply Date_now_run|]. cbn beta.
  eapply bind_ex; [apply new_Date_run|]. cbn beta.
  eapply bind_ex; [by apply insertOne_fresh|]. norm.
  eexists _, _. split; [reflexivity|]. split; [done|].
  intros name Hne. cbn [st_db]. norm. by rewrite coll_set_coll_ne.
Qed.


End Stock.

(** ** The scenarios of the specification, and the claims that fail *)

(** C1. Order [order1] is pending; the customer files a cancel-request,
    which removes the order from [PendingOrders] and stores the request;
    staff then approves the request.  The approval answers success and
    marks the request "approved", but it looks for the original order in
    [PendingOrders] and [AcceptedOrders], where the cancel-request has just
    removed it, so nothing is inserted: [CancelledOrders] stays empty and
    the order is in no partition. *)
Theorem approval_after_cancel_request_creates_no_cancelled_order :
  let out := run (process_cancellation_request (gen0 1) approve_body)
                 (quiet gen0 now0) db_cancel_requested in
  coll db_pending "PendingOrders" !! order1 = Some pending_order
  /\ fst (run (cancel_request cancel_body) (quiet gen0 now0) db_pending)
     = Done {| status := 200;
               body := [("success", VBool true);
                        ("message", VStr "Cancellation request submitted successfully");
                        ("requestId", VOid (gen0 1));
                        ("status", VStr "pending_review")] |}
  /\ dget cancellation_request1 "status" = VStr "pending_review"
  /\ fst out
     = Done {| status := 200;
               body := [("success", VBool true);
                        ("message", VStr "Cancellation request approved successfully");
                        ("status", VStr "approved")] |}
  /\ (fun d => dget d "status") <$> (coll (st_db (snd out)) "CancellationRequests" !! gen0 1)
     = Some (VStr "approved")
  /\ coll (st_db (snd out)) "CancelledOrders" = ∅
  /\ forallb (fun name => bool_decide (coll (st_db (snd out)) name !! order1 = None))
             live_partitions = true
  /\ map call_op (st_calls (snd out)) = [OpFindOne; OpUpdateOne; OpFindOne; OpFindOne].
Proof. vm_compute. repeat split. Qed.

Lemma batch_updates (l : list value) : dget (batch l) "updates" = VArr l.
Proof. reflexivity. Qed.



(** C9 fails as stated: the return request for the order of a customer
    known by e-mail address only is approved; no user notification is
    created, only the staff notification. *)
Lemma return_decision_without_user_notification : ~ claim_return_decision_notifies_user.
Proof.
  intros Hclaim.
  destruct (Hclaim ref_runtime gen0 now0 db_return_requested (gen0 1) approve_body (gen0 1)
              return_request1
              {| status := 200;
                 body := [("success", VBool true);
                          ("message", VStr "Return request approved successfully");
                          ("status", VStr "accepted");
                          ("archivedId", VOid (gen0 2))] |}
              (snd (run (process_return_request (gen0 1) approve_body) (quiet gen0 now0)
                        db_return_requested)))
    as (before & ok_user & ok_staff & Hcalls).
  - reflexivity.
  - reflexivity.
  - vm_compute. reflexivity.
  - vm_compute. reflexivity.
  - apply (f_equal (@rev call)) in Hcalls. rewrite rev_app_distr in Hcalls.
    vm_compute in Hcalls. discriminate.
Qed.

(** ** The theorems at the example data *)

(** Evaluation of a closed premise. *)
Ltac ev :=
  lazymatch goal with
  | |- _ = _ => vm_compute; reflexivity
  | |- forall _ : nat, _ = _ => intros ?; vm_compute; reflexivity
  end.

Lemma move_pending_to_accepted_witness :
  exists r s' newOrderId approvedAt moved,
    run (move_order move_body) (quiet gen0 now0) db_pending = (Done r, s')
    /\ status r = 200
    /\ dget (body r) "success" = VBool true
    /\ dget (body r) "newOrderId" = VOid newOrderId
    /\ newOrderId <> order1
    /\ coll (st_db s') "PendingOrders" !! order1 = None
    /\ fst (findOne_id "PendingOrders" order1 (quiet gen0 now0) s') = Done VNull
    /\ coll (st_db s') "AcceptedOrders" !! newOrderId = Some moved
    /\ dget moved "status" = VStr "approved"
    /\ dget moved "approvedAt" = VDate approvedAt.
Proof.
  apply (move_pending_to_accepted gen0 now0 db_pending move_body order1 pending_order);
    vm_compute; reflexivity.
Defined.

Lemma move_rollback_witness :
  exists r s',
    run (move_order move_body) (racing gen0 now0 2 (remove_order "PendingOrders" order1))
        db_pending = (Done r, s')
    /\ status r = 500
    /\ coll (st_db s') "AcceptedOrders" !! gen0 1 = None.
Proof.
  destruct (move_rollback gen0 now0 (remove_order "PendingOrders" order1) db_pending
              move_body order1 pending_order "PendingOrders" "AcceptedOrders")
    as (r & s' & Hrun & Hst & _ & _ & Hgone & _); try ev.
  - intros d. apply remove_order_gone.
  - exists r, s'. split; [exact Hrun|]. split; [exact Hst | exact Hgone].
Defined.




Lemma cancellation_reject_keeps_order_gone_witness :
  exists r s' request',
    run (process_cancellation_request (gen0 1) reject_body) (quiet gen0 now0)
        db_cancel_requested = (Done r, s')
    /\ status r = 200
    /\ coll (st_db s') "CancellationRequests" !! gen0 1 = Some request'
    /\ dget request' "status" = VStr "rejected"
    /\ coll (st_db s') "PendingOrders" !! order1 = None.
Proof.
  destruct (cancellation_reject_keeps_order_gone gen0 now0 db_cancel_requested (gen0 1)
              reject_body (gen0 1) cancellation_request1)
    as (r & s' & request' & Hrun & Hst & _ & Hreq & Hrej & _ & _ & Habsent);
    try ev.
  exists r, s', request'.
  split; [exact Hrun|]. split; [exact Hst|]. split; [exact Hreq|]. split; [exact Hrej|].
  apply Habsent; [discriminate | ev].
Defined.

Lemma pending_request_not_reported_witness :
  exists r1 s1 r2 s2,
    run (cancel_request cancel_body) (quiet gen0 now0) db_pending = (Done r1, s1)
    /\ status r1 = 200
    /\ run (check_cancellation_requests check_body) (quiet gen0 now0) (st_db s1)
       = (Done r2, s2)
    /\ prop (dget (body r2) "cancellationMap") order1 = VUndef.
Proof.
  destruct (pending_request_not_reported gen0 gen0 now0 now0 db_pending cancel_body
              order1 order1 pending_order "PendingOrders" check_body [VStr order1])
    as (r1 & s1 & request & r2 & s2 & Hrun1 & Hst1 & _ & _ & _ & Hrun2 & _ & _ & Hmap);
    try ev.
  - by left.
  - intros id d Hd. vm_compute in Hd. discriminate.
  - by left.
  - exists r1, s1, r2, s2.
    split; [exact Hrun1|]. split; [exact Hst1|]. split; [exact Hrun2 | exact Hmap].
Defined.

Lemma return_decision_archives_and_removes_witness :
  exists r s' aid archived,
    run (process_return_request (gen0 1) approve_body) (quiet gen0 now0)
        db_return_requested = (Done r, s')
    /\ status r = 200
    /\ coll (st_db s') "ReturnedOrders" !! aid = Some archived
    /\ dget archived "staffDecision" = VStr "accepted"
    /\ dget archived "customerImage" = VStr image1
    /\ coll (st_db s') "ReturnRequests" !! gen0 1 = None
    /\ coll (st_db s') "DeliveredOrders" !! order1 = None.
Proof.
  destruct (return_decision_archives_and_removes gen0 now0 db_return_requested (gen0 1)
              approve_body (gen0 1) return_request1)
    as (r & s' & aid & archived & Hrun & Hst & Harch & Hacc & _ & _ & Himg & Hreq & Hord & _);
    try ev.
  exists r, s', aid, archived.
  split; [exact Hrun|]. split; [exact Hst|]. split; [exact Harch|].
  split; [apply Hacc; reflexivity|].
  split; [apply (Himg image1); [ev | discriminate]|].
  split; [exact Hreq|].
  destruct (Hord "DeliveredOrders" guest_order order1 ltac:(ev) ltac:(ev)) as [Happrove _].
  apply Happrove. reflexivity.
Defined.

Lemma return_decision_survives_notification_failure_witness :
  exists r s',
    run (process_return_request (gen0 1) approve_body) (notifier_down gen0 now0)
        db_return_requested_user = (Done r, s')
    /\ status r = 200
    /\ dget (body r) "status" = VStr "accepted"
    /\ coll (st_db s') "ReturnRequests" !! gen0 1 = None
    /\ st_log s' = [user_log; staff_log].
Proof.
  destruct (return_decision_survives_notification_failure (notifier_down gen0 now0)
              db_return_requested_user (gen0 1) approve_body (gen0 1) return_request2)
    as (r & s' & aid & archived & before & ok_u & ok_s & Hrun & Hst & _ & Hdec & _ & _
        & Hreq & _ & _ & Hlog & Hfu & Hfs);
    try ev.
  { apply notifier_down_notifier_only. }
  exists r, s'.
  split; [exact Hrun|]. split; [exact Hst|]. split; [exact Hdec|]. split; [exact Hreq|].
  rewrite Hlog, Hfu, Hfs by reflexivity. vm_compute. reflexivity.
Defined.

(** ** The rest of the server: basic facts *)

Arguments documents : simpl never.
Arguments findOne_where : simpl never.
Arguments deleteMany : simpl never.
Arguments updateMany_set : simpl never.
Arguments updateOne_nothing : simpl never.
Arguments mongo_eq : simpl never.
Arguments open_code : simpl never.

(** In a list of keyed documents with distinct keys, a filter that selects
    the document of one key only selects that document alone. *)
Lemma filter_snd_unique {A} (f : A -> bool) (l : list (oid * A)) o (d : A) :
  NoDup (l.*1) ->
  (o, d) ∈ l ->
  f d = true ->
  (forall o' d', (o', d') ∈ l -> f d' = true -> o' = o) ->
  List.filter f (map snd l) = [d].
Proof.
  induction l as [|[o1 d1] l IH]; intros Hnd Hin Hf Huniq.
  - by apply elem_of_nil in Hin.
  - cbn [fmap list_fmap] in Hnd. apply NoDup_cons in Hnd as [Hnotin Hnd].
    cbn [map List.filter snd].
    destruct (decide (o1 = o)) as [->|Hne].
    + assert (d1 = d) as ->.
      { apply elem_of_cons in Hin as [[= <-]|Hin]; [done|].
        exfalso. apply Hnotin. apply list_elem_of_fmap. by exists (o, d). }
      rewrite Hf. f_equal. apply filter_none. apply Forall_forall.
      intros d' Hd'. apply list_elem_of_In, in_map_iff in Hd' as ([o' d''] & Heq & Hin').
      simpl in Heq. subst d''. apply list_elem_of_In in Hin'.
      destruct (f d') eqn:Hfd; [|done]. exfalso.
      assert (o' = o) as -> by (apply (Huniq o' d'); [by right | done]).
      apply Hnotin. apply list_elem_of_fmap. by exists (o, d').
    + destruct (f d1) eqn:Hf1.
      { exfalso. apply Hne. apply (Huniq o1 d1); [by left | done]. }
      apply IH; [done| |done|].
      * apply elem_of_cons in Hin as [[= ? ?]|Hin]; [congruence | done].
      * intros o' d' Hin'. apply Huniq. by right.
Qed.

Lemma filter_documents_unique (db : Database) name (f : doc -> bool) o (d : doc) :
  coll db name !! o = Some d ->
  f d = true ->
  (forall o' d', coll db name !! o' = Some d' -> f d' = true -> o' = o) ->
  List.filter f (documents db name) = [d].
Proof.
  intros Hl Hf Huniq. unfold documents.
  apply (filter_snd_unique f _ o d).
  - apply NoDup_fst_map_to_list.
  - by apply elem_of_map_to_list.
  - done.
  - intros o' d' Hin. apply elem_of_map_to_list in Hin. by apply Huniq.
Qed.

Lemma filter_documents_none (db : Database) name (f : doc -> bool) :
  (forall o d, coll db name !! o = Some d -> f d = false) ->
  List.filter f (documents db name) = [].
Proof.
  intros Hnone. unfold documents. apply filter_none. apply Forall_forall.
  intros d Hd. apply list_elem_of_In, in_map_iff in Hd as ([o d'] & Heq & Hin).
  simpl in Heq. subst d'.
  apply list_elem_of_In, elem_of_map_to_list in Hin. by apply (Hnone o).
Qed.

Section MoreSteps.
Variables (e : Env) (s : State).

Lemma findOne_where_run name filter :
  env_fault e (ticks s) OpFindOne name = false ->
  findOne_where name filter e s =
    (Done (match List.filter filter (documents (env_interfere e (ticks s) (st_db s)) name) with
           | d :: _ => VObj d
           | [] => VNull
           end),
     after s OpFindOne name true (env_interfere e (ticks s) (st_db s))).
Proof. intros Hf. unfold findOne_where. by rewrite db_call_run. Qed.

Lemma deleteMany_run name filter :
  env_fault e (ticks s) OpDeleteOne name = false ->
  deleteMany name filter e s =
    (Done (Z.of_nat (length (List.filter filter
                               (documents (env_interfere e (ticks s) (st_db s)) name)))),
     after s OpDeleteOne name true
       (set_coll (env_interfere e (ticks s) (st_db s)) name
          (base.filter (fun kv : oid * doc => filter (snd kv) = false)
                       (coll (env_interfere e (ticks s) (st_db s)) name)))).
Proof. intros Hf. unfold deleteMany. by rewrite db_call_run. Qed.

Lemma updateMany_set_run name filter fields :
  env_fault e (ticks s) OpUpdateOne name = false ->
  exists res,
    updateMany_set name filter fields e s =
      (Done res,
       after s OpUpdateOne name true
         (set_coll (env_interfere e (ticks s) (st_db s)) name
            ((fun d => if filter d then dspread d (doc_to_bson fields) else d)
               <$> coll (env_interfere e (ticks s) (st_db s)) name))).
Proof. intros Hf. unfold updateMany_set. rewrite db_call_run by done. by eexists. Qed.

End MoreSteps.

Arguments method_toLowerCase : simpl never.
Arguments four_digits : simpl never.

Lemma method_toLowerCase_str what s0 e s :
  method_toLowerCase what (VStr s0) e s = (Done (toLowerCase s0), s).
Proof. reflexivity. Qed.

Lemma truthy_str s : s <> EmptyString -> truthy (VStr s) = true.
Proof. intros Hs. simpl. by destruct s. Qed.

Lemma mongo_eq_refl_str s : mongo_eq (VStr s) (VStr s) = true.
Proof. unfold mongo_eq, mongo_in. simpl. by rewrite String.eqb_refl. Qed.

Lemma open_code_entry lowered o e m a vc d :
  code_entry lowered o e m a vc d -> open_code lowered d = true.
Proof.
  intros [He Hu _ _ _ _ _]. unfold open_code. rewrite He, Hu.
  by rewrite mongo_eq_refl_str.
Qed.

Lemma open_code_used lowered (d : doc) :
  dget d "used" = VBool true -> open_code lowered d = false.
Proof. intros Hu. unfold open_code. rewrite Hu. apply andb_false_r. Qed.

(** ** Verification codes *)

Section VerificationTheorems.
Context `{Runtime} `{Host}.

(** The generated code has four digits. *)
Lemma four_digits_run e s :
  exists c, four_digits e s = (Done c, s) /\ 1000 <= c <= 9999.
Proof.
  unfold four_digits. eexists. split; [reflexivity|].
  destruct (Math_random_range (ticks s)) as [Hlo Hhi].
  set (r := Math_random (ticks s)) in *.
  set (x := QArith_base.Qplus (QArith_base.inject_Z 1000)
              (QArith_base.Qmult r (QArith_base.inject_Z 9000))).
  assert (Hx1 : QArith_base.Qle (QArith_base.inject_Z 1000) x).
  { unfold x. destruct r as [n dn]. unfold QArith_base.Qle, QArith_base.Qplus,
      QArith_base.Qmult, QArith_base.inject_Z in *. simpl in *. nia. }
  assert (Hx2 : QArith_base.Qlt x (QArith_base.inject_Z 10000)).
  { unfold x. destruct r as [n dn]. unfold QArith_base.Qlt, QArith_base.Qplus,
      QArith_base.Qmult, QArith_base.inject_Z in *. simpl in *. nia. }
  split.
  - rewrite <- (Qround.Qfloor_Z 1000). by apply Qround.Qfloor_resp_le.
  - pose proof (Qround.Qfloor_le x) as Hfl.
    assert (Hlt : QArith_base.Qlt (QArith_base.inject_Z (Qround.Qfloor x))
                                  (QArith_base.inject_Z 10000)).
    { eapply QArith_base.Qle_lt_trans; [exact Hfl | exact Hx2]. }
    rewrite <- QArith_base.Zlt_Qlt in Hlt. lia.
Qed.


Lemma dget_dspread3 (d : doc) k1 v1 k2 v2 k3 v3 k :
  dget (dspread d [(k1, v1); (k2, v2); (k3, v3)]) k
  = if String.eqb k3 k then v3
    else if String.eqb k2 k then v2
    else if String.eqb k1 k then v1
    else dget d k.
Proof.
  unfold dspread. cbn [fold_left fst snd].
  destruct (String.eqb_spec k3 k) as [->|H3]; [by rewrite dget_dset_eq|].
  rewrite dget_dset_ne by done.
  destruct (String.eqb_spec k2 k) as [->|H2]; [by rewrite dget_dset_eq|].
  rewrite dget_dset_ne by done.
  destruct (String.eqb_spec k1 k) as [->|H1]; [by rewrite dget_dset_eq|].
  by rewrite dget_dset_ne.
Qed.

Lemma dget_dspread2 (d : doc) k1 v1 k2 v2 k :
  dget (dspread d [(k1, v1); (k2, v2)]) k
  = if String.eqb k2 k then v2
    else if String.eqb k1 k then v1
    else dget d k.
Proof.
  unfold dspread. cbn [fold_left fst snd].
  destruct (String.eqb_spec k2 k) as [->|H2]; [by rewrite dget_dset_eq|].
  rewrite dget_dset_ne by done.
  destruct (String.eqb_spec k1 k) as [->|H1]; [by rewrite dget_dset_eq|].
  by rewrite dget_dset_ne.
Qed.

(** The only open entry of an address stays the only one when it is
    rewritten in place. *)
Lemma only_open_code_insert (db : Database) lowered o (d' : doc) :
  only_open_code db lowered o ->
  only_open_code (set_coll db "AuthCodes" (<[o := d']> (coll db "AuthCodes"))) lowered o.
Proof.
  intros Huniq o' d'' Hl Hopen. rewrite coll_set_coll_eq in Hl.
  destruct (decide (o' = o)) as [->|Hne]; [done|].
  rewrite lookup_insert_ne in Hl by done. by apply (Huniq o' d'').
Qed.

(** No open entry is left once the only one is marked used. *)
Lemma no_open_code_after (db : Database) lowered o (d' : doc) :
  only_open_code db lowered o ->
  dget d' "used" = VBool true ->
  forall o' d'',
    coll (set_coll db "AuthCodes" (<[o := d']> (coll db "AuthCodes"))) "AuthCodes" !! o'
      = Some d'' ->
    open_code lowered d'' = false.
Proof.
  intros Huniq Hused o' d'' Hl. rewrite coll_set_coll_eq in Hl.
  destruct (decide (o' = o)) as [->|Hne].
  - rewrite lookup_insert_eq in Hl. injection Hl as <-. by apply open_code_used.
  - rewrite lookup_insert_ne in Hl by done.
    destruct (open_code lowered d'') eqn:Hopen; [|done].
    by specialize (Huniq o' d'' Hl Hopen).
Qed.

Section VerifyRuns.
Variables (gen : nat -> oid) (now : nat -> Z) (db : Database) (req_body : doc).
Variables (address : string) (o : oid) (d : doc) (e m a : Z) (vc : value).
Hypothesis Hemail : dget req_body "email" = VStr address.
Hypothesis Haddress : address <> EmptyString.
Hypothesis Hcode : truthy (dget req_body "code") = true.
Hypothesis Hl : coll db "AuthCodes" !! o = Some d.
Hypothesis Hentry : code_entry (toLowerCase address) o e m a vc d.
Hypothesis Huniq : only_open_code db (toLowerCase address) o.

Ltac verify_open :=
  unfold run, verify_code;
  rewrite Hemail, (truthy_str _ Haddress), Hcode; cbn [negb orb];
  apply try_catch_ex;
  (eapply bind_ex; [apply method_toLowerCase_str|]); cbn beta;
  (eapply bind_ex; [by apply findOne_where_run|]); norm;
  rewrite (filter_documents_unique db "AuthCodes" _ o d Hl);
    [|exact (open_code_entry _ _ _ _ _ _ _ Hentry) | exact Huniq];
  cbn [truthy negb prop];
  (eapply bind_ex; [apply Date_now_run|]); cbn beta; norm;
  rewrite (entry_expiresAt _ _ _ _ _ _ _ Hentry), (entry_id _ _ _ _ _ _ _ Hentry),
    (entry_attempts _ _ _ _ _ _ _ Hentry), (entry_maxAttempts _ _ _ _ _ _ _ Hentry),
    (entry_code _ _ _ _ _ _ _ Hentry);
  cbn [date_gt js_ge updateOne_set_by updateOne_inc_by].

(** The right code, in time and within the attempts allowed, is accepted,
    and the entry is marked used. *)
Lemma verify_code_accepts :
  now 1%nat <= e -> a < m ->
  ToString vc = ToString (dget req_body "code") ->
  exists r s',
    run (verify_code req_body) (quiet gen now) db = (Done r, s')
    /\ r = {| status := 200;
              body := [("success", VBool true);
                       ("message", VStr "Verification code verified successfully");
                       ("userName", dget d "userName")] |}
    /\ st_db s' =
       set_coll db "AuthCodes"
         (<[o := dspread d [("used", VBool true); ("verifiedAt", VDate (now 1%nat));
                            ("successful", VBool true)]]> (coll db "AuthCodes")).
Proof.
  intros Hnow Ham Hsame. verify_open.
  rewrite (proj2 (Z.ltb_ge e (now 1%nat))) by lia.
  rewrite (proj2 (Z.leb_gt m a)) by lia.
  rewrite Hsame, String.eqb_refl. cbn [negb].
  eapply bind_ex; [apply new_Date_run|]. cbn beta. norm.
  eapply bind_ex; [by eapply updateOne_set_some|]. norm.
  eexists _, _. split; [reflexivity|]. split; [reflexivity|]. by norm.
Qed.

(** A wrong code is answered 400 with the attempts that remain, and counts
    as one attempt. *)
Lemma verify_code_rejects_guess :
  now 1%nat <= e -> a < m ->
  ToString vc <> ToString (dget req_body "code") ->
  exists r s',
    run (verify_code req_body) (quiet gen now) db = (Done r, s')
    /\ r = {| status := 400;
              body := [("success", VBool false);
                       ("message",
                         VStr ("Invalid verification code. "
                               +:+ ToString (VNum (m - (a + 1)))
                               +:+ " attempts remaining."))] |}
    /\ st_db s' =
       set_coll db "AuthCodes"
         (<[o := dset d "attempts" (VNum (a + 1))]> (coll db "AuthCodes")).
Proof.
  intros Hnow Ham Hdiff. verify_open.
  rewrite (proj2 (Z.ltb_ge e (now 1%nat))) by lia.
  rewrite (proj2 (Z.leb_gt m a)) by lia.
  rewrite (proj2 (String.eqb_neq _ _) Hdiff). cbn [negb].
  eapply bind_ex.
  { eapply updateOne_inc_num; [done| |exact (entry_attempts _ _ _ _ _ _ _ Hentry)].
    norm. exact Hl. }
  norm.
  eexists _, _. split; [reflexivity|]. split; [reflexivity|]. by norm.
Qed.

(** Once the attempts are used up, any code is refused and the entry is
    closed. *)
Lemma verify_code_locks :
  now 1%nat <= e -> m <= a ->
  exists r s',
    run (verify_code req_body) (quiet gen now) db = (Done r, s')
    /\ r = {| status := 400;
              body := [("success", VBool false);
                       ("message",
                         VStr "Maximum verification attempts exceeded. Please request a new code.")] |}
    /\ st_db s' =
       set_coll db "AuthCodes"
         (<[o := dspread d [("used", VBool true); ("maxAttemptsReached", VBool true)]]>
            (coll db "AuthCodes")).
Proof.
  intros Hnow Hma. verify_open.
  rewrite (proj2 (Z.ltb_ge e (now 1%nat))) by lia.
  rewrite (proj2 (Z.leb_le m a)) by lia.
  eapply bind_ex; [by eapply updateOne_set_some|]. norm.
  eexists _, _. split; [reflexivity|]. split; [reflexivity|]. by norm.
Qed.

(** After the expiry any code is refused, and the entry is closed. *)
Lemma verify_code_expires :
  e < now 1%nat ->
  exists r s',
    run (verify_code req_body) (quiet gen now) db = (Done r, s')
    /\ r = {| status := 400;
              body := [("success", VBool false);
                       ("message",
                         VStr "Verification code has expired. Please request a new one.")] |}
    /\ st_db s' =
       set_coll db "AuthCodes"
         (<[o := dspread d [("used", VBool true); ("expiredAt", VDate (now 1%nat))]]>
            (coll db "AuthCodes")).
Proof.
  intros Hnow. verify_open.
  rewrite (proj2 (Z.ltb_lt e (now 1%nat))) by lia.
  eapply bind_ex; [apply new_Date_run|]. cbn beta. norm.
  eapply bind_ex; [by eapply updateOne_set_some|]. norm.
  eexists _, _. split; [reflexivity|]. split; [reflexivity|]. by norm.
Qed.

End VerifyRuns.

(** Without an open entry for the address the answer is 400, and nothing
    is written. *)
Lemma verify_code_none (gen : nat -> oid) (now : nat -> Z) (db : Database)
    (req_body : doc) (address : string) :
  dget req_body "email" = VStr address ->
  address <> EmptyString ->
  truthy (dget req_body "code") = true ->
  (forall o d, coll db "AuthCodes" !! o = Some d ->
               open_code (toLowerCase address) d = false) ->
  exists r s',
    run (verify_code req_body) (quiet gen now) db = (Done r, s')
    /\ r = {| status := 400;
              body := [("success", VBool false);
                       ("message",
                         VStr "No valid verification code found for this email")] |}
    /\ st_db s' = db.
Proof.
  intros Hemail Haddress Hcode Hnone. unfold run, verify_code.
  rewrite Hemail, (truthy_str _ Haddress), Hcode. cbn [negb orb].
  apply try_catch_ex.
  eapply bind_ex; [apply method_toLowerCase_str|]. cbn beta.
  eapply bind_ex; [by apply findOne_where_run|]. norm.
  rewrite filter_documents_none; [|exact Hnone].
  cbn [truthy negb]. by eexists _, _.
Qed.

(** The entry a creation writes, and what it leaves of the collection. *)
Lemma create_verification_code_run (gen : nat -> oid) (now : nat -> Z) (db : Database)
    (req_body : doc) (address : string) :
  dget req_body "email" = VStr address ->
  address <> EmptyString ->
  coll db "AuthCodes" !! gen 1%nat = None ->
  exists c s' entry,
    run (create_verification_code req_body) (quiet gen now) db
    = (Done {| status := 200;
               body := [("success", VBool true);
                        ("message", VStr "Verification code created successfully");
                        ("codeId", VOid (gen 1%nat));
                        ("verificationCode", VNum c)] |}, s')
    /\ 1000 <= c <= 9999
    /\ code_entry (toLowerCase address) (gen 1%nat) (now 1%nat + 15 * 60 * 1000) 5 0
                  (VNum c) entry
    /\ coll (st_db s') "AuthCodes"
       = <[gen 1%nat := entry]>
           (base.filter (fun kv : oid * doc =>
                           mongo_eq (dget (snd kv) "email") (VStr (toLowerCase address))
                           = false)
                        (coll db "AuthCodes"))
    /\ (forall name, name <> "AuthCodes" -> coll (st_db s') name = coll db name).
Proof.
  intros Hemail Haddress Hfresh. unfold run, create_verification_code.
  rewrite Hemail, (truthy_str _ Haddress). cbn [negb].
  destruct (four_digits_run (quiet gen now) (initial db)) as (c & Hc & Hrange).
  exists c.
  erewrite try_catch_done.
  2:{ step Hc. step method_toLowerCase_str. step deleteMany_run.
      step method_toLowerCase_str. step new_Date_run. step Date_now_run.
      step insertOne_fresh.
      2:{ rewrite coll_set_coll_eq. by apply map_lookup_filter_None_2; left. }
      cbn [truthy]. reflexivity. }
  eexists _, _. split; [reflexivity|]. split; [done|]. split; [|split].
  2:{ norm. rewrite coll_set_coll_eq. rewrite coll_set_coll_eq. reflexivity. }
  - unfold stored. split; reflexivity.
  - intros name Hne. norm. by rewrite !coll_set_coll_ne.
Qed.


Lemma toLowerCase_nonempty s : s <> EmptyString -> toLowerCase s <> EmptyString.
Proof. by destruct s. Qed.

Lemma code_entry_attempt lowered o e m a vc (d : doc) :
  code_entry lowered o e m a vc d ->
  code_entry lowered o e m (a + 1) vc (dset d "attempts" (VNum (a + 1))).
Proof.
  intros [? ? ? ? ? ? ?]. split; rewrite ?dget_dset_eq; rewrite ?dget_dset_ne by done; done.
Qed.

(** Wrong codes, one request each: every one is answered 400 and counted. *)
Lemma wrong_guesses_run (gen : nat -> oid) (now : nat -> Z) (address : string)
    (o : oid) (e m : Z) (vc : value) :
  address <> EmptyString ->
  now 1%nat <= e ->
  forall (guesses : list value) (a : Z) (db : Database) (d : doc),
    coll db "AuthCodes" !! o = Some d ->
    code_entry (toLowerCase address) o e m a vc d ->
    only_open_code db (toLowerCase address) o ->
    Forall (fun g => truthy g = true /\ ToString vc <> ToString g) guesses ->
    a + Z.of_nat (length guesses) <= m ->
    let out := serve verify_code (quiet gen now)
                     (map (fun g => [("email", VStr address); ("code", g)]) guesses) db in
    Forall (answered 400) (fst out)
    /\ exists d',
         coll (snd out) "AuthCodes" !! o = Some d'
         /\ code_entry (toLowerCase address) o e m (a + Z.of_nat (length guesses)) vc d'
         /\ only_open_code (snd out) (toLowerCase address) o.
Proof.
  intros Haddress Hnow.
  induction guesses as [|g guesses IH]; intros a db d Hl Hentry Huniq Hwrong Hlen.
  - cbn [serve map fst snd length]. split; [constructor|].
    exists d. cbn [length Z.of_nat]. rewrite Z.add_0_r. by split; [|split].
  - apply Forall_cons in Hwrong as [[Htruthy Hdiff] Hwrong].
    cbn [length] in Hlen. rewrite Nat2Z.inj_succ in Hlen.
    destruct (verify_code_rejects_guess gen now db [("email", VStr address); ("code", g)]
                address o d e m a vc eq_refl Haddress Htruthy Hl Hentry Huniq
                ltac:(lia) ltac:(lia) Hdiff) as (r & s' & Hrun & -> & Hdb).
    cbn [serve map]. rewrite Hrun. cbn [fst snd]. rewrite Hdb.
    edestruct (IH (a + 1)) as (Hall & d' & Hl' & Hentry' & Huniq').
    { rewrite coll_set_coll_eq. apply lookup_insert_eq. }
    { by apply code_entry_attempt. }
    { by apply only_open_code_insert. }
    { exact Hwrong. }
    { lia. }
    split.
    + constructor; [by eexists | exact Hall].
    + exists d'. cbn [length]. rewrite Nat2Z.inj_succ.
      replace (a + Z.succ (Z.of_nat (length guesses)))
        with (a + 1 + Z.of_nat (length guesses)) by lia.
      by split; [|split].
Qed.

Lemma only_open_code_created (db db' : Database) lowered g (entry : doc) :
  coll db' "AuthCodes"
  = <[g := entry]>
      (base.filter (fun kv : oid * doc =>
                      mongo_eq (dget (snd kv) "email") (VStr lowered) = false)
                   (coll db "AuthCodes")) ->
  only_open_code db' lowered g.
Proof.
  intros Hc o' d' Hl Hopen. rewrite Hc in Hl.
  destruct (decide (o' = g)) as [->|Hne]; [done|].
  rewrite lookup_insert_ne in Hl by done.
  apply map_lookup_filter_Some in Hl as [_ Hno]. simpl in Hno.
  unfold open_code in Hopen. by rewrite Hno in Hopen.
Qed.






End VerificationTheorems.

(** ** Triples *)

Lemma triple_ret {A} e (P : State -> Prop) (a : A) (Q : A -> State -> Prop) X :
  (forall s, P s -> Q a s) -> triple e P (ret a) Q X.
Proof. intros HQ s r s' HP [= <- <-]. by apply HQ. Qed.

Lemma triple_throw {A} e (P : State -> Prop) msg (Q : A -> State -> Prop) (X : State -> Prop) :
  (forall s, P s -> X s) -> triple e P (throw msg) Q X.
Proof. intros HX s r s' HP [= <- <-]. by apply HX. Qed.

Lemma triple_bind {A B} e (P : State -> Prop) (m : M A) (k : A -> M B)
    (R : A -> State -> Prop) (Q : B -> State -> Prop) X :
  triple e P m R X -> (forall a, triple e (R a) (k a) Q X) -> triple e P (bind m k) Q X.
Proof.
  intros Hm Hk s r s' HP Hrun. unfold bind in Hrun.
  destruct (m e s) as [[a|msg] s1] eqn:Hms.
  - specialize (Hm s _ _ HP Hms). simpl in Hm. by apply (Hk a s1).
  - specialize (Hm s _ _ HP Hms). simpl in Hm. by injection Hrun as <- <-.
Qed.

Lemma triple_try_catch {A} e (P : State -> Prop) (m : M A) (h : string -> M A)
    (Q : A -> State -> Prop) (X' X : State -> Prop) :
  triple e P m Q X' -> (forall msg, triple e X' (h msg) Q X) ->
  triple e P (try_catch m h) Q X.
Proof.
  intros Hm Hh s r s' HP Hrun. unfold try_catch in Hrun.
  destruct (m e s) as [[a|msg] s1] eqn:Hms.
  - specialize (Hm s _ _ HP Hms). simpl in Hm. by injection Hrun as <- <-.
  - specialize (Hm s _ _ HP Hms). simpl in Hm. by apply (Hh msg s1).
Qed.

Lemma triple_weaken {A} e (P P' : State -> Prop) (m : M A)
    (Q Q' : A -> State -> Prop) (X X' : State -> Prop) :
  triple e P' m Q' X' ->
  (forall s, P s -> P' s) -> (forall a s, Q' a s -> Q a s) -> (forall s, X' s -> X s) ->
  triple e P m Q X.
Proof.
  intros Hm HP HQ HX s r s' Hs Hrun. specialize (Hm s r s' (HP _ Hs) Hrun).
  destruct r; [by apply HQ | by apply HX].
Qed.

(** A step that leaves the state as it is and cannot throw. *)
Lemma triple_pure {A} e (P : State -> Prop) (m : M A) (a : A)
    (Q : A -> State -> Prop) X :
  (forall s, m e s = (Done a, s)) -> (forall s, P s -> Q a s) -> triple e P m Q X.
Proof. intros Hm HQ s r s' HP Hrun. rewrite Hm in Hrun. injection Hrun as <- <-. by apply HQ. Qed.

Lemma triple_json e (P : State -> Prop) code b (Q : response -> State -> Prop) X :
  (forall s, P s -> Q {| status := code; body := b |} s) -> triple e P (json code b) Q X.
Proof. apply triple_ret. Qed.

(** Logging leaves the database and the calls as they are. *)
Lemma triple_console_error e (I : Database -> list call -> Prop) msg X :
  triple e (on I) (console_error msg) (fun _ => on I) X.
Proof. intros s r s' HP [= <- <-]. exact HP. Qed.

Lemma triple_member e (P : State -> Prop) v k :
  triple e P (member v k) (fun a s => a = prop v k /\ P s) P.
Proof. intros s r s' HP Hrun. destruct v; simpl in Hrun; injection Hrun as <- <-; done. Qed.

Lemma triple_new_ObjectId `{Runtime} e (P : State -> Prop) v :
  triple e P (new_ObjectId v) (fun o s => ObjectId_new v = Some o /\ P s) P.
Proof.
  intros s r s' HP Hrun. unfold new_ObjectId in Hrun.
  destruct (ObjectId_new v); injection Hrun as <- <-; done.
Qed.

(** Every outcome of a database call. *)
Lemma db_call_cases {A} o name (op : oid -> Database -> outcome A * Database) e s r s' :
  db_call o name op e s = (r, s') ->
  let db := env_interfere e (ticks s) (st_db s) in
  (r = Thrown "MongoNetworkError" /\ s' = after s o name false db)
  \/ (r = fst (op (env_oid e (ticks s)) db)
      /\ s' = after s o name (is_done r) (snd (op (env_oid e (ticks s)) db))).
Proof.
  unfold db_call. destruct (env_fault e (ticks s) o name).
  - intros [= <- <-]. by left.
  - cbn zeta. intros [= <- <-]. by right.
Qed.

Lemma st_calls_after s o name ok db :
  st_calls (after s o name ok db)
  = (st_calls s ++ [{| call_op := o; call_coll := name; call_ok := ok |}])%list.
Proof. reflexivity. Qed.

(** A lookup by identifier, without concurrent writes: the document read is
    the one the state holds, the database is left as it is, and one read
    of the collection is recorded, answered or not. *)
Lemma triple_findOne_id e name o (P : State -> Prop) (Q : value -> State -> Prop) X :
  (forall k db, env_interfere e k db = db) ->
  (forall s ok, P s ->
     Q (match coll (st_db s) name !! o with Some d => VObj d | None => VNull end)
       (after s OpFindOne name ok (st_db s))) ->
  (forall s, P s -> X (after s OpFindOne name false (st_db s))) ->
  triple e P (findOne_id name o) Q X.
Proof.
  intros Hi HQ HX s r s' HP Hrun. unfold findOne_id in Hrun.
  apply db_call_cases in Hrun as [[-> ->]|[-> ->]]; rewrite Hi.
  - by apply HX.
  - cbn [fst snd]. by apply HQ.
Qed.


(** ** Stock ledger: the checks *)

Arguments validate_stock_loop : simpl never.
Arguments bulk_stock_loop : simpl never.

Section StockChecksTheorems.
Context `{Runtime}.

Lemma triple_member_keep e (P : State -> Prop) v k :
  triple e P (member v k) (fun _ => P) P.
Proof. eapply triple_weaken; [apply triple_member|done| |done]. by intros a s [_ ?]. Qed.

Lemma validate_stock_loop_reads e (db0 : Database) :
  (forall k db, env_interfere e k db = db) ->
  forall items results allValid,
    triple e (on (fun db calls => db = db0 /\ Forall product_read calls))
           (validate_stock_loop items results allValid)
           (fun _ => on (fun db calls => db = db0 /\ Forall product_read calls))
           (on (fun db calls => db = db0 /\ Forall product_read calls)).
Proof.
  intros Hi. induction items as [|item items IH]; intros results allValid.
  - by apply triple_json.
  - cbn [validate_stock_loop].
    eapply triple_bind; [apply triple_member_keep|]. intros id.
    eapply triple_bind; [apply triple_member_keep|]. intros quantity.
    destruct quantity; try (by apply triple_json).
    destruct (truthy id); cbn [negb]; [|by apply triple_json].
    eapply triple_bind.
    { eapply triple_weaken; [apply triple_new_ObjectId|done| |done].
      intros a s [_ Hs]. exact Hs. }
    intros o.
    eapply triple_bind.
    { apply (triple_findOne_id e "Products" o _
               (fun _ => on (fun db calls => db = db0 /\ Forall product_read calls)));
        [exact Hi | |].
      - intros s ok [Hdb Hcalls]. split; [done|].
        unfold on. rewrite st_calls_after. apply Forall_app. split; [done|].
        by repeat constructor.
      - intros s [Hdb Hcalls]. split; [done|].
        unfold on. rewrite st_calls_after. apply Forall_app. split; [done|].
        by repeat constructor. }
    intros product. destruct (truthy product); cbn [negb]; apply IH.
Qed.

(** X6.  Validating stock only reads.  Whatever the request, and whether
    the database answers or not, [POST /api/products/validate-stock]
    answers, leaves the database as it is, and makes no call but lookups
    of products. *)
Theorem validate_stock_reads_only (e : Env) (db : Database) (req_body : doc) :
  (forall k db', env_interfere e k db' = db') ->
  let out := run (validate_stock req_body) e db in
  is_done (fst out) = true
  /\ st_db (snd out) = db
  /\ Forall product_read (st_calls (snd out)).
Proof.
  intros Hi out.
  assert (Ht : triple e (on (fun db' calls => db' = db /\ Forall product_read calls))
                 (validate_stock req_body)
                 (fun _ => on (fun db' calls => db' = db /\ Forall product_read calls))
                 (fun _ => False)).
  { unfold validate_stock. eapply triple_try_catch.
    - destruct (dget req_body "items"); try (by apply triple_json).
      by apply validate_stock_loop_reads.
    - intros msg. eapply triple_bind; [apply triple_console_error|].
      intros u. by apply triple_json. }
  specialize (Ht (initial db) (fst out) (snd out)).
  destruct out as [[r|msg] s'] eqn:Hout; cbn [fst snd] in *.
  - destruct Ht as [Hdb Hcalls]; [by split; [|constructor] | done |]. by split.
  - destruct Ht; [by split; [|constructor] | done].
Qed.

(** The answer of the validation, item by item. *)
Lemma validate_stock_loop_run (gen : nat -> oid) (now : nat -> Z) :
  forall (items : list value) (its : list (oid * Z)) (results : list value)
         (allValid : bool) (s : State),
    mapM item_of items = Some its ->
    exists r s',
      validate_stock_loop items results allValid (quiet gen now) s = (Done r, s')
      /\ status r = 200
      /\ dget (body r) "allValid"
         = VBool (allValid && forallb (in_stock (st_db s)) its)
      /\ st_db s' = st_db s.
Proof.
  induction items as [|item items IH]; intros its results allValid s Hits.
  - injection Hits as <-. eexists _, s. split; [reflexivity|]. split; [done|].
    split; [|done]. cbn [forallb]. by rewrite andb_true_r.
  - cbn [mapM] in Hits.
    destruct (item_of item) as [[o q]|] eqn:Hitem; [|done].
    destruct (mapM item_of items) as [its'|] eqn:Hits'; [|done].
    injection Hits as <-.
    apply item_of_inv in Hitem as (Hu & Hn & Hq & Hid & Ho).
    cbn [validate_stock_loop].
    eapply bind_ex; [by apply member_run|].
    eapply bind_ex; [by apply member_run|]. cbn beta. rewrite Hq, Hid. cbn [negb]. cbn iota.
    eapply bind_ex; [by apply new_ObjectId_some|]. cbn beta.
    cbn [forallb]. unfold in_stock at 1. cbn [fst snd].
    destruct (coll (st_db s) "Products" !! o) as [d|] eqn:Hl.
    + eapply bind_ex; [by eapply findOne_id_some|].
      cbn beta iota. cbn [truthy negb prop]. cbn iota.
      edestruct IH as (r & s' & Hrun & Hst & Hall & Hdb); [reflexivity|].
      eexists r, s'. split; [exact Hrun|]. split; [done|].
      revert Hall Hdb. norm. intros Hall Hdb. split; [|done].
      rewrite Hall. f_equal.
      by destruct (js_ge_num (dget d "stockQuantity") q), allValid.
    + eapply bind_ex; [by eapply findOne_id_none|].
      cbn beta iota. cbn [truthy negb]. cbn iota.
      edestruct IH as (r & s' & Hrun & Hst & Hall & Hdb); [reflexivity|].
      eexists r, s'. split; [exact Hrun|]. split; [done|].
      revert Hall Hdb. norm. intros Hall Hdb. split; [|done].
      rewrite Hall. by rewrite andb_false_r.
Qed.

(** X7.  What the validation answers.  For a list of well-formed items the
    validation answers 200, and [allValid] tells whether every item names
    a product that exists and whose stock covers the quantity asked. *)
Theorem validate_stock_all_valid (gen : nat -> oid) (now : nat -> Z) (db : Database)
    (req_body : doc) (items : list value) (its : list (oid * Z)) :
  dget req_body "items" = VArr items ->
  mapM item_of items = Some its ->
  exists r s',
    run (validate_stock req_body) (quiet gen now) db = (Done r, s')
    /\ status r = 200
    /\ dget (body r) "allValid" = VBool (forallb (in_stock db) its)
    /\ st_db s' = db.
Proof.
  intros Hitems Hits. unfold run, validate_stock. rewrite Hitems.
  apply try_catch_ex.
  destruct (validate_stock_loop_run gen now items its [] true (initial db) Hits)
    as (r & s' & Hrun & Hst & Hall & Hdb).
  by exists r, s'.
Qed.

Lemma validate_stock_all_valid_aux (gen : nat -> oid) (now : nat -> Z) (db : Database)
    (items : list value) (its : list (oid * Z)) :
  mapM item_of items = Some its ->
  exists r s',
    run (validate_stock [("items", VArr items)]) (quiet gen now) db = (Done r, s')
    /\ status r = 200
    /\ dget (body r) "allValid" = VBool (forallb (in_stock db) its)
    /\ st_db s' = db.
Proof.
  intros Hits. unfold run, validate_stock. cbn [dget String.eqb Ascii.eqb Bool.eqb].
  apply try_catch_ex.
  destruct (validate_stock_loop_run gen now items its [] true (initial db) Hits)
    as (r & s' & Hrun & Hst & Hall & Hdb).
  by exists r, s'.
Qed.

Lemma requested_NoDup (its : list (oid * Z)) o q :
  NoDup (its.*1) -> (o, q) ∈ its -> requested its o = q.
Proof.
  induction its as [|[o' q'] its IH]; intros Hnd Hin.
  - by apply elem_of_nil in Hin.
  - cbn [fmap list_fmap] in Hnd. apply NoDup_cons in Hnd as [Hnotin Hnd].
    cbn [requested].
    assert (Hzero : forall p, p ∉ its.*1 -> requested its p = 0).
    { clear. induction its as [|[o1 q1] its IH]; intros p Hp; [done|].
      cbn [requested]. cbn [fmap list_fmap] in Hp. apply not_elem_of_cons in Hp as [Hne Hp].
      rewrite (proj2 (String.eqb_neq o1 p)) by done. by rewrite IH. }
    apply elem_of_cons in Hin as [[= -> ->]|Hin].
    + rewrite String.eqb_refl. rewrite Hzero by done. lia.
    + destruct (String.eqb_spec o' o) as [->|Hne].
      * exfalso. apply Hnotin. apply list_elem_of_fmap. by exists (o, q).
      * by rewrite IH.
Qed.



Lemma triple_new_ObjectId_x e (P : State -> Prop) v (X : State -> Prop) :
  (forall s, P s -> X s) ->
  triple e P (new_ObjectId v) (fun o s => ObjectId_new v = Some o /\ P s) X.
Proof.
  intros HX s r s' HP Hrun. unfold new_ObjectId in Hrun.
  destruct (ObjectId_new v); injection Hrun as <- <-; [done | by apply HX].
Qed.

Lemma triple_pre_pure {A} e (phi : Prop) (P : State -> Prop) (m : M A)
    (Q : A -> State -> Prop) X :
  (phi -> triple e P m Q X) -> triple e (fun s => phi /\ P s) m Q X.
Proof. intros Hm s r s' [Hphi HP]. by apply Hm. Qed.

(** Every outcome of an increment, without concurrent writes. *)
Lemma updateOne_inc_cases e s name o field q r s' :
  (forall k db, env_interfere e k db = db) ->
  updateOne_inc name o field q e s = (r, s') ->
  st_db s' = st_db s
  \/ exists (d : doc) n',
       coll (st_db s) name !! o = Some d
       /\ (dget d field = VUndef /\ n' = q
           \/ exists n, dget d field = VNum n /\ n' = n + q)
       /\ st_db s' = set_coll (st_db s) name
                       (<[o := dset d field (VNum n')]> (coll (st_db s) name)).
Proof.
  intros Hi Hrun. unfold updateOne_inc in Hrun.
  apply db_call_cases in Hrun as [[-> ->]|[-> ->]]; rewrite Hi; norm; [by left|].
  destruct (coll (st_db s) name !! o) as [d|] eqn:Hl; [|by left].
  destruct (dget d field) eqn:Hd; cbn [fst snd]; try (by left).
  - right. exists d, q. split; [done|]. split; [by left | done].
  - right. exists d, (n + q). split; [done|]. split; [right; by exists n | done].
Qed.

Lemma stock_insert_other (db : Database) o (d : doc) p :
  o <> p ->
  stock (set_coll db "Products" (<[o := d]> (coll db "Products"))) p = stock db p.
Proof.
  intros Hne. unfold stock. rewrite coll_set_coll_eq. by rewrite lookup_insert_ne.
Qed.

Lemma stock_insert_same (db : Database) o (d : doc) n :
  stock (set_coll db "Products"
           (<[o := dset d "stockQuantity" (VNum n)]> (coll db "Products"))) o = Some n.
Proof.
  unfold stock. rewrite coll_set_coll_eq, lookup_insert_eq. by rewrite dget_dset_eq.
Qed.

Lemma bulk_stock_loop_keeps e (db0 : Database) :
  (forall k db, env_interfere e k db = db) ->
  forall updates results,
    triple e (on (fun db _ => stock_kept_non_negative db0 db))
           (bulk_stock_loop updates results)
           (fun _ => on (fun db _ => stock_kept_non_negative db0 db))
           (on (fun db _ => stock_kept_non_negative db0 db)).
Proof.
  intros Hi. induction updates as [|update updates IH]; intros results.
  - by apply triple_json.
  - cbn [bulk_stock_loop].
    assert (Hbad : forall msg code b,
               triple e (on (fun db _ => stock_kept_non_negative db0 db))
                      (console_error msg ;; json code b)
                      (fun _ => on (fun db _ => stock_kept_non_negative db0 db))
                      (on (fun db _ => stock_kept_non_negative db0 db))).
    { intros msg code b. eapply triple_bind; [apply triple_console_error|].
      intros u. by apply triple_json. }
    eapply triple_bind; [apply triple_member_keep|]. intros id.
    eapply triple_bind; [apply triple_member_keep|]. intros quantity.
    destruct quantity as [| | |q| | | | | |]; try apply Hbad.
    destruct (truthy id); cbn [negb]; [|apply Hbad].
    eapply triple_bind; [apply triple_new_ObjectId|]. intros o.
    apply triple_pre_pure. intros Ho.
    eapply triple_bind.
    { apply (triple_findOne_id e "Products" o _
               (fun a s1 =>
                  a = match coll (st_db s1) "Products" !! o with
                      | Some d => VObj d
                      | None => VNull
                      end
                  /\ on (fun db _ => stock_kept_non_negative db0 db) s1));
        [exact Hi | |].
      - intros s ok HK. by split.
      - intros s HK. exact HK. }
    intros product.
    destruct (truthy product) eqn:Hprod; cbn [negb].
    2:{ eapply triple_weaken; [apply Hbad| |done|done]. by intros s [_ ?]. }
    destruct (js_lt_num (prop product "stockQuantity") q) eqn:Hlt.
    { eapply triple_weaken; [apply Hbad| |done|done]. by intros s [_ ?]. }
    eapply triple_bind; [apply triple_new_ObjectId_x; by intros s [_ ?]|]. intros o2.
    apply triple_pre_pure. intros Ho2. assert (o2 = o) as -> by congruence.
    eapply triple_bind; [|intros res; apply IH].
    intros s r s' [-> HK] Hrun.
    assert (HK' : stock_kept_non_negative db0 (st_db s')).
    { apply (updateOne_inc_cases _ _ _ _ _ _ _ _ Hi) in Hrun
        as [->|(d & n' & Hl & Hcase & ->)]; [exact HK|].
      rewrite Hl in Hlt. cbn [prop] in Hlt.
      intros p n Hp Hn. destruct (HK p n Hp Hn) as (m & Hm & Hm0).
      destruct (decide (o = p)) as [<-|Hne].
      - rewrite stock_insert_same. eexists. split; [reflexivity|].
        unfold stock in Hm. rewrite Hl in Hm.
        destruct Hcase as [[Hd ->]|(n0 & Hd & ->)]; rewrite Hd in Hm; [done|].
        injection Hm as ->.
        unfold js_lt_num in Hlt. rewrite Hd, ToNumber_num in Hlt. lia.
      - rewrite stock_insert_other by done. by exists m. }
    by destruct r.
Qed.

(** X9.  Stock that is not negative stays so.  Whatever the request, and
    whether the database answers or not, a bulk update served without
    concurrent writes leaves every product whose stock was a number of zero
    or more with a stock of zero or more. *)
Theorem bulk_stock_keeps_stock_non_negative (e : Env) (db : Database) (req_body : doc) :
  (forall k db', env_interfere e k db' = db') ->
  stock_kept_non_negative db (st_db (snd (run (bulk_stock req_body) e db))).
Proof.
  intros Hi.
  assert (Ht : triple e (on (fun db' _ => stock_kept_non_negative db db'))
                 (bulk_stock req_body)
                 (fun _ => on (fun db' _ => stock_kept_non_negative db db'))
                 (on (fun db' _ => stock_kept_non_negative db db'))).
  { unfold bulk_stock. eapply triple_try_catch.
    - destruct (truthy (dget req_body "updates")); cbn [negb].
      + destruct (dget req_body "updates");
          try (eapply triple_bind; [apply triple_console_error|];
               intros u; by apply triple_json).
        by apply bulk_stock_loop_keeps.
      + eapply triple_bind; [apply triple_console_error|].
        intros u. by apply triple_json.
    - intros msg. eapply triple_bind; [apply triple_console_error|]. intros u.
      eapply triple_bind; [apply triple_console_error|]. intros u'.
      by apply triple_json. }
  specialize (Ht (initial db) (fst (run (bulk_stock req_body) e db))
                 (snd (run (bulk_stock req_body) e db))).
  destruct (run (bulk_stock req_body) e db) as [[r|msg] s'] eqn:Hout; cbn [fst snd] in *.
  - apply Ht; [|done]. intros p n Hp Hn. by exists n.
  - apply Ht; [|done]. intros p n Hp Hn. by exists n.
Qed.

(** X10.  Setting a stock level.  [PUT /api/products/:id/stock] refuses a
    negative quantity without a call to the database.  A quantity of zero
    or more becomes the stock of the product, whatever it was, and the
    other products keep theirs; a validation then accepts the product for
    the quantities up to that level and no more. *)
Theorem update_stock_sets_level (gen : nat -> oid) (now : nat -> Z) (db : Database)
    (id : string) (req_body : doc) (q : Z) :
  dget req_body "quantity" = VNum q ->
  (q < 0 ->
   run (update_stock id req_body) (quiet gen now) db
   = (Done {| status := 400; body := [("error", VStr "Invalid quantity")] |}, initial db))
  /\ (0 <= q ->
      forall o d,
        ObjectId_new (VStr id) = Some o ->
        coll db "Products" !! o = Some d ->
        exists r s',
          run (update_stock id req_body) (quiet gen now) db = (Done r, s')
          /\ status r = 200
          /\ stock (st_db s') o = Some q
          /\ (forall p, p <> o -> stock (st_db s') p = stock db p)
          /\ (forall k, in_stock (st_db s') (o, k) = (k <=? q))).
Proof.
  intros Hq. split.
  - intros Hneg. unfold run, update_stock. rewrite Hq.
    by rewrite (proj2 (Z.ltb_lt q 0) Hneg).
  - intros Hpos o d Ho Hl. unfold run, update_stock. rewrite Hq.
    rewrite (proj2 (Z.ltb_ge q 0) Hpos).
    apply try_catch_ex.
    eapply bind_ex; [by apply new_ObjectId_some|]. cbn beta.
    eapply bind_ex; [by eapply updateOne_set_some|]. cbn beta. norm.
    cbn [update_result matchedCount Z.eqb].
    eexists _, _. split; [reflexivity|]. split; [done|]. norm.
    unfold dspread. cbn [doc_to_bson map fst snd to_bson fold_left].
    split; [apply stock_insert_same|]. split.
    + intros p Hne. by apply stock_insert_other.
    + intros k. unfold in_stock. cbn [fst snd].
      rewrite coll_set_coll_eq, lookup_insert_eq, dget_dset_eq.
      unfold js_ge_num. by rewrite ToNumber_num.
Qed.

End StockChecksTheorems.

(** ** Moving an order, in general *)

Arguments moved_order : simpl never.

Section MoveInGeneral.
Context `{Runtime}.

Lemma moved_order_no_id (req_body order : doc) t :
  dget (moved_order req_body order t) "_id" = VUndef.
Proof.
  unfold moved_order. rewrite !dget_dset_ne by done.
  rewrite stamp_for_target_no_id. apply dget_ddel_eq.
Qed.

(** A move of an order that the source holds, to a target where the
    generated identifier is free. *)
Lemma move_order_run (gen : nat -> oid) (now : nat -> Z) (db : Database)
    (req_body : doc) (o : oid) (order : doc) (src tgt : string) :
  truthy (dget req_body "orderId") = true ->
  truthy (dget req_body "operation") = true ->
  truthy (dget req_body "fromCollection") = true ->
  truthy (dget req_body "toCollection") = true ->
  collectionMapping (dget req_body "fromCollection") = Mapped src ->
  collectionMapping (dget req_body "toCollection") = Mapped tgt ->
  ObjectId_new (dget req_body "orderId") = Some o ->
  coll db src !! o = Some order ->
  coll db tgt !! gen 1%nat = None ->
  exists r s',
    run (move_order req_body) (quiet gen now) db = (Done r, s')
    /\ status r = 200
    /\ dget (body r) "newOrderId" = VOid (gen 1%nat)
    /\ coll (st_db s') src !! o = None
    /\ coll (st_db s') tgt !! gen 1%nat
       = Some (stored (gen 1%nat) (moved_order req_body order (now 1%nat)))
    /\ (forall name, name <> src -> name <> tgt -> coll (st_db s') name = coll db name)
    /\ (forall name o', o' <> o -> o' <> gen 1%nat ->
                        coll (st_db s') name !! o' = coll db name !! o')
    /\ (forall name o', (name = tgt -> o' <> gen 1%nat) ->
                        coll db name !! o' = None -> coll (st_db s') name !! o' = None).
Proof.
  intros Hid Hop Hfrom Hto Hsrc Htgt Hoid Hord Hfresh.
  assert (Hne : src = tgt -> gen 1%nat <> o).
  { intros -> Heq. rewrite Heq in Hfresh. congruence. }
  unfold run, move_order.
  rewrite Hid, Hop, Hfrom, Hto, Hsrc, Htgt. simpl.
  erewrite try_catch_done.
  2:{ rewrite !bind_ret.
      step new_ObjectId_some.
      step findOne_id_some.
      step new_Date_run.
      fold (moved_order req_body order (now 1%nat)).
      step insertOne_fresh.
      2:{ apply moved_order_no_id. }
      step new_ObjectId_some.
      step deleteOne_id_some.
      2:{ rewrite coll_set_coll. case_decide as Hst; [|done].
          subst. rewrite lookup_insert_ne; [done | by apply Hne]. }
      cbn [truthy negb Z.eqb]. reflexivity. }
  norm. eexists _, _. split; [reflexivity|]. split; [done|]. split; [done|].
  cbn [st_db]. norm. split; [|split; [|split; [|split]]].
  5:{ intros name o' Hnew Hnone. rewrite coll_set_coll. case_decide as Hs.
      - subst name. apply lookup_delete_None. right.
        rewrite coll_set_coll. case_decide as Hst; [|done].
        subst tgt. rewrite lookup_insert_ne; [done|]. intros Heq. by apply Hnew.
      - rewrite coll_set_coll. case_decide as Hst; [|done].
        subst name. rewrite lookup_insert_ne; [done|]. intros Heq. by apply Hnew. }
  - rewrite coll_set_coll_eq. apply lookup_delete_eq.
  - rewrite coll_set_coll. case_decide as Hst.
    + subst tgt. rewrite lookup_delete_ne by (intros Heq; by apply Hne). rewrite coll_set_coll_eq.
      apply lookup_insert_eq.
    + rewrite coll_set_coll_eq. apply lookup_insert_eq.
  - intros name Hn1 Hn2. by rewrite !coll_set_coll_ne.
  - intros name o' Ho1 Ho2. rewrite coll_set_coll. case_decide as Hs.
    + subst name. rewrite lookup_delete_ne by congruence.
      rewrite coll_set_coll.
      case_decide; [subst; by rewrite lookup_insert_ne by congruence | done].
    + rewrite coll_set_coll.
      case_decide; [subst; by rewrite lookup_insert_ne by congruence | done].
Qed.

Lemma stamp_for_target_keeps toC denial reason image t (d : doc) k :
  k ∉ move_stamps ->
  dget (stamp_for_target toC denial reason image t d) k = dget d k.
Proof.
  intros Hk. unfold move_stamps in Hk.
  repeat (apply not_elem_of_cons in Hk as [? Hk]).
  unfold stamp_for_target, set_if_truthy.
  repeat match goal with
         | |- context [if ?b then _ else _] => destruct b
         end;
    rewrite ?dget_dset_ne by done; done.
Qed.

Lemma moved_order_keeps (req_body order : doc) t k :
  k ∉ move_stamps -> dget (moved_order req_body order t) k = dget order k.
Proof.
  intros Hk. unfold moved_order.
  pose proof Hk as Hk'. unfold move_stamps in Hk'.
  repeat (apply not_elem_of_cons in Hk' as [? Hk']).
  rewrite !dget_dset_ne by done. rewrite stamp_for_target_keeps by done.
  by apply dget_ddel_ne.
Qed.

Lemma moved_order_status (req_body order : doc) t key word :
  (key, word) ∈ target_status ->
  dget req_body "toCollection" = VStr key ->
  dget (moved_order req_body order t) "status" = VStr word
  /\ dget (moved_order req_body order t) "displayStatus" = VStr word.
Proof.
  intros Hin Hto. unfold moved_order. rewrite Hto. rewrite !dget_dset_ne by done.
  unfold target_status in Hin.
  repeat (apply elem_of_cons in Hin as [[= -> ->]|Hin]); [..|by apply elem_of_nil in Hin].
  all: unfold stamp_for_target, set_if_truthy; cbn [is_str String.eqb Ascii.eqb Bool.eqb].
  all: repeat match goal with
              | |- context [if truthy ?v then _ else _] => destruct (truthy v)
              end.
  all: split; rewrite ?dget_dset_ne by done; by rewrite ?dget_dset_eq.
Qed.

(** X11.  A move carries the order over, whatever the source and the
    target.  For any two keys of the collection table, an order the source
    holds leaves it and is stored in the target under the generated
    identifier: with every field of its own as it was, the status of the
    target, and the marks of the move.  No other order is touched. *)
Theorem move_order_carries_order (gen : nat -> oid) (now : nat -> Z) (db : Database)
    (req_body : doc) (o : oid) (order : doc) (src tgt : string) :
  truthy (dget req_body "orderId") = true ->
  truthy (dget req_body "operation") = true ->
  truthy (dget req_body "fromCollection") = true ->
  truthy (dget req_body "toCollection") = true ->
  collectionMapping (dget req_body "fromCollection") = Mapped src ->
  collectionMapping (dget req_body "toCollection") = Mapped tgt ->
  ObjectId_new (dget req_body "orderId") = Some o ->
  coll db src !! o = Some order ->
  coll db tgt !! gen 1%nat = None ->
  exists r s' moved,
    run (move_order req_body) (quiet gen now) db = (Done r, s')
    /\ status r = 200
    /\ dget (body r) "newOrderId" = VOid (gen 1%nat)
    /\ coll (st_db s') src !! o = None
    /\ coll (st_db s') tgt !! gen 1%nat = Some moved
    /\ (forall k v, k ∉ move_stamps -> dget order k = v -> v <> VUndef ->
                    dget moved k = to_bson v)
    /\ (forall key word, (key, word) ∈ target_status ->
                         dget req_body "toCollection" = VStr key ->
                         dget moved "status" = VStr word
                         /\ dget moved "displayStatus" = VStr word)
    /\ dget moved "updatedAt" = VDate (now 1%nat)
    /\ dget moved "lastModifiedBy" = VStr "staff"
    /\ (forall name o', o' <> o -> o' <> gen 1%nat ->
                        coll (st_db s') name !! o' = coll db name !! o').
Proof.
  intros Hid Hop Hfrom Hto Hsrc Htgt Hoid Hord Hfresh.
  destruct (move_order_run gen now db req_body o order src tgt
              Hid Hop Hfrom Hto Hsrc Htgt Hoid Hord Hfresh)
    as (r & s' & Hrun & Hst & Hnew & Hgone & Hthere & _ & Hrest & _).
  exists r, s', (stored (gen 1%nat) (moved_order req_body order (now 1%nat))).
  split; [exact Hrun|]. repeat (split; [done|]). split; [|split; [|split; [|split]]].
  - intros k v Hk Hv Hdef. apply dget_stored; [|by rewrite moved_order_keeps|done].
    intros ->. apply Hk. unfold move_stamps. by left.
  - intros key word Hin Hkey.
    destruct (moved_order_status req_body order (now 1%nat) key word Hin Hkey) as [H1 H2].
    split; by apply (dget_stored _ _ _ (VStr word)).
  - apply (dget_stored _ _ _ (VDate (now 1%nat))); [done| |done].
    unfold moved_order. rewrite dget_dset_ne by done. apply dget_dset_eq.
  - apply (dget_stored _ _ _ (VStr "staff")); [done| |done].
    unfold moved_order. apply dget_dset_eq.
  - exact Hrest.
Qed.

End MoveInGeneral.

Section MoveFailure.
Context `{Runtime}.

Lemma insertOne_duplicate e s name (d d' : doc) :
  env_fault e (ticks s) OpInsertOne name = false ->
  dget d "_id" = VUndef ->
  coll (env_interfere e (ticks s) (st_db s)) name !! env_oid e (ticks s) = Some d' ->
  insertOne name d e s =
    (Thrown "E11000 duplicate key error",
     after s OpInsertOne name false (env_interfere e (ticks s) (st_db s))).
Proof.
  intros Hf Hid Hl. unfold insertOne. rewrite db_call_run by done. simpl.
  rewrite Hid. by rewrite Hl.
Qed.

(** X12.  A move that fails changes nothing.  Served without concurrent
    requests, a move always answers; when the answer is not a success,
    every collection is as it was before the request. *)
Theorem move_order_failure_changes_nothing (gen : nat -> oid) (now : nat -> Z)
    (db : Database) (req_body : doc) :
  exists r s',
    run (move_order req_body) (quiet gen now) db = (Done r, s')
    /\ (status r <> 200 -> st_db s' = db).
Proof.
  destruct (negb (truthy (dget req_body "orderId"))
            || negb (truthy (dget req_body "operation"))
            || negb (truthy (dget req_body "fromCollection"))
            || negb (truthy (dget req_body "toCollection"))) eqn:Hreq.
  { unfold run, move_order. rewrite Hreq. by eexists _, _. }
  pose proof Hreq as Hreq'.
  apply orb_false_elim in Hreq' as [Hreq' Hto].
  apply orb_false_elim in Hreq' as [Hreq' Hfrom].
  apply orb_false_elim in Hreq' as [Hid Hop].
  apply negb_false_iff in Hid, Hop, Hfrom, Hto.
  destruct (collectionMapping (dget req_body "fromCollection")) as [src| |] eqn:Hsrc;
    destruct (collectionMapping (dget req_body "toCollection")) as [tgt| |] eqn:Htgt;
    try (unfold run, move_order; rewrite Hreq, ?Hsrc, ?Htgt; simpl;
         eexists _, _; split; [reflexivity | intros _; reflexivity]).
  destruct (ObjectId_new (dget req_body "orderId")) as [o|] eqn:Ho.
  2:{ unfold run, move_order. rewrite Hreq, Hsrc, Htgt. simpl.
      erewrite try_catch_thrown.
      2:{ rewrite !bind_ret.
          erewrite bind_thrown; [reflexivity | by apply new_ObjectId_none]. }
      by eexists _, _. }
  destruct (coll db src !! o) as [order|] eqn:Hord.
  2:{ unfold run, move_order. rewrite Hreq, Hsrc, Htgt. simpl.
      erewrite try_catch_done.
      2:{ rewrite !bind_ret. step new_ObjectId_some. step findOne_id_none. reflexivity. }
      eexists _, _. split; [reflexivity|]. intros _. by norm. }
  destruct (coll db tgt !! gen 1%nat) as [other|] eqn:Hfresh.
  - unfold run, move_order. rewrite Hreq, Hsrc, Htgt. simpl.
    erewrite try_catch_thrown.
    2:{ rewrite !bind_ret. step new_ObjectId_some. step findOne_id_some. step new_Date_run.
        fold (moved_order req_body order (now 1%nat)).
        erewrite bind_thrown; [reflexivity|].
        eapply insertOne_duplicate; [done | apply moved_order_no_id | norm; exact Hfresh]. }
    eexists _, _. split; [reflexivity|]. intros _. by norm.
  - destruct (move_order_run gen now db req_body o order src tgt
                Hid Hop Hfrom Hto Hsrc Htgt Ho Hord Hfresh) as (r & s' & Hrun & Hst & _).
    exists r, s'. split; [exact Hrun|]. by intros Hne.
Qed.

End MoveFailure.

(** ** Looking an order up *)

Section OrderLookupTheorems.
Context `{Runtime}.

Lemma details_search_run (gen : nat -> oid) (now : nat -> Z) (id : string) (o : oid) :
  ObjectId_new (VStr id) = Some o ->
  forall (cols : list (string * string * string)) (s : State),
    exists v s',
      details_search cols id (quiet gen now) s = (Done v, s')
      /\ st_db s' = st_db s
      /\ match first_holding (st_db s) (map snd cols) o with
         | Some (name, d) =>
             exists short disp,
               (short, disp, name) ∈ cols
               /\ v = VObj (dspread d
                              [("collection", VStr short);
                               ("displayStatus",
                                 (dget d "displayStatus" || VStr disp)%js)])
         | None => v = VNull
         end.
Proof.
  intros Ho. induction cols as [|[[short disp] name] cols IH]; intros s.
  - by eexists _, s.
  - cbn [details_search map snd first_holding].
    destruct (coll (st_db s) name !! o) as [d|] eqn:Hl.
    + eapply bind_ex.
      { apply try_catch_done. step new_ObjectId_some. by eapply findOne_id_some. }
      norm. eexists _, _. split; [reflexivity|]. split; [by norm|].
      exists short, disp. split; [by left | done].
    + eapply bind_ex.
      { apply try_catch_done. step new_ObjectId_some. by eapply findOne_id_none. }
      norm. cbn iota.
      destruct (IH (after s OpFindOne name true (st_db s))) as (v & s' & Hrun & Hdb & Hres).
      exists v, s'. split; [exact Hrun|]. revert Hdb Hres. norm. intros Hdb Hres.
      split; [done|].
      destruct (first_holding (st_db s) (map snd cols) o) as [[name' d']|]; [|done].
      destruct Hres as (short' & disp' & Hin & ->).
      exists short', disp'. split; [by right | done].
Qed.

Lemma details_search_malformed e (id : string) :
  ObjectId_new (VStr id) = None ->
  forall (cols : list (string * string * string)) (s : State),
    details_search cols id e s = (Done VNull, s).
Proof.
  intros Ho. induction cols as [|[[short disp] name] cols IH]; intros s; [done|].
  cbn [details_search].
  erewrite bind_done.
  2:{ erewrite try_catch_thrown; [reflexivity|].
      erewrite bind_thrown; [reflexivity | by apply new_ObjectId_none]. }
  apply IH.
Qed.

Lemma order_details_run (gen : nat -> oid) (now : nat -> Z) (db : Database)
    (id : string) (o : oid) :
  ObjectId_new (VStr id) = Some o ->
  exists r s',
    run (order_details id) (quiet gen now) db = (Done r, s')
    /\ st_db s' = db
    /\ match first_holding db detail_names o with
       | Some (name, d) =>
           status r = 200
           /\ (exists short disp,
                 (short, disp, name) ∈ detail_collections
                 /\ dget (body r) "collection" = VStr short
                 /\ dget (body r) "displayStatus"
                    = (dget d "displayStatus" || VStr disp)%js)
           /\ (forall k, k <> "collection" -> k <> "displayStatus" ->
                         dget (body r) k = dget d k)
       | None => status r = 404
       end.
Proof.
  intros Ho. unfold run, order_details.
  destruct (details_search_run gen now id o Ho detail_collections (initial db))
    as (v & s' & Hrun & Hdb & Hres).
  change (map snd detail_collections) with detail_names in Hres.
  cbn [st_db initial] in Hres, Hdb.
  apply try_catch_ex. eapply bind_ex; [exact Hrun|].
  destruct (first_holding db detail_names o) as [[name d]|].
  - destruct Hres as (short & disp & Hin & ->).
    eexists _, s'. split; [reflexivity|]. split; [done|]. split; [done|]. split.
    + exists short, disp. split; [done|]. cbn [body]. by rewrite !dget_dspread2.
    + intros k Hk1 Hk2. cbn [body]. rewrite dget_dspread2.
      rewrite (proj2 (String.eqb_neq _ _)) by done.
      by rewrite (proj2 (String.eqb_neq _ _)) by done.
  - subst v. by eexists _, s'.
Qed.

(** X13.  What the details of an order are.  The lookup searches the
    pending, accepted, delivered, walk-in and returned orders, in this
    order, and answers the first document with the identifier, with all
    its fields, the short name of the collection that holds it and a
    display status (the document's own, or else the collection's); it
    answers 404 when none of the five holds the identifier.  An identifier
    that is not well formed is answered 404 as well, without a call to the
    database. *)
Theorem order_details_reports_first_holder (gen : nat -> oid) (now : nat -> Z)
    (db : Database) (id : string) :
  (forall o, ObjectId_new (VStr id) = Some o ->
     exists r s',
       run (order_details id) (quiet gen now) db = (Done r, s')
       /\ st_db s' = db
       /\ match first_holding db detail_names o with
          | Some (name, d) =>
              status r = 200
              /\ (exists short disp,
                    (short, disp, name) ∈ detail_collections
                    /\ dget (body r) "collection" = VStr short
                    /\ dget (body r) "displayStatus"
                       = (dget d "displayStatus" || VStr disp)%js)
              /\ (forall k, k <> "collection" -> k <> "displayStatus" ->
                            dget (body r) k = dget d k)
          | None => status r = 404
          end)
  /\ (ObjectId_new (VStr id) = None ->
      forall e,
        run (order_details id) e db
        = (Done {| status := 404; body := [("error", VStr "Order not found")] |},
           initial db)).
Proof.
  split.
  - intros o Ho. by apply order_details_run.
  - intros Ho e. unfold run, order_details.
    apply try_catch_done.
    erewrite bind_done by (by apply details_search_malformed). reflexivity.
Qed.

Lemma first_holding_only (db : Database) (names : list string) o tgt (d : doc) :
  tgt ∈ names ->
  coll db tgt !! o = Some d ->
  (forall name, name ∈ names -> name <> tgt -> coll db name !! o = None) ->
  first_holding db names o = Some (tgt, d).
Proof.
  induction names as [|n names IH]; intros Hin Hl Hnone.
  - by apply elem_of_nil in Hin.
  - cbn [first_holding]. destruct (decide (n = tgt)) as [->|Hne].
    + by rewrite Hl.
    + rewrite (Hnone n) by (by left + done). apply IH; [|done|].
      * apply elem_of_cons in Hin as [->|Hin]; done.
      * intros name Hname. apply Hnone. by right.
Qed.

Lemma first_holding_nowhere (db : Database) (names : list string) o :
  (forall name, name ∈ names -> coll db name !! o = None) ->
  first_holding db names o = None.
Proof.
  induction names as [|n names IH]; intros Hnone; [done|].
  cbn [first_holding]. rewrite (Hnone n) by (by left).
  apply IH. intros name Hname. apply Hnone. by right.
Qed.

Lemma truthy_to_bson v : truthy (to_bson v) = truthy v.
Proof. by destruct v. Qed.

(** X14.  A moved order is looked up under its new identifier.  After a
    move, the details of the new identifier are those of the copy: the
    short name of the target collection and the status of the target.
    The denied orders are not among the collections searched, so after a
    move to them the lookup answers 404. *)
Theorem moved_order_is_found_by_details (gen gen' : nat -> oid) (now now' : nat -> Z)
    (db : Database) (req_body : doc) (o : oid) (order : doc) (src tgt : string)
    (id' : string) :
  truthy (dget req_body "orderId") = true ->
  truthy (dget req_body "operation") = true ->
  truthy (dget req_body "fromCollection") = true ->
  truthy (dget req_body "toCollection") = true ->
  collectionMapping (dget req_body "fromCollection") = Mapped src ->
  collectionMapping (dget req_body "toCollection") = Mapped tgt ->
  ObjectId_new (dget req_body "orderId") = Some o ->
  coll db src !! o = Some order ->
  (forall name, coll db name !! gen 1%nat = None) ->
  ObjectId_new (VStr id') = Some (gen 1%nat) ->
  exists r1 s1 r2 s2,
    run (move_order req_body) (quiet gen now) db = (Done r1, s1)
    /\ status r1 = 200
    /\ dget (body r1) "newOrderId" = VOid (gen 1%nat)
    /\ run (order_details id') (quiet gen' now') (st_db s1) = (Done r2, s2)
    /\ (tgt ∈ detail_names ->
        status r2 = 200
        /\ (exists short disp,
              (short, disp, tgt) ∈ detail_collections
              /\ dget (body r2) "collection" = VStr short)
        /\ (forall key word, (key, word) ∈ target_status ->
                             dget req_body "toCollection" = VStr key ->
                             dget (body r2) "status" = VStr word
                             /\ dget (body r2) "displayStatus" = VStr word))
    /\ (tgt ∉ detail_names -> status r2 = 404).
Proof.
  intros Hid Hop Hfrom Hto Hsrc Htgt Hoid Hord Hfresh Hid'.
  destruct (move_order_run gen now db req_body o order src tgt
              Hid Hop Hfrom Hto Hsrc Htgt Hoid Hord (Hfresh tgt))
    as (r1 & s1 & Hrun1 & Hst1 & Hnew & Hgone & Hthere & _ & _ & Hnone).
  destruct (order_details_run gen' now' (st_db s1) id' (gen 1%nat) Hid')
    as (r2 & s2 & Hrun2 & Hdb2 & Hres).
  exists r1, s1, r2, s2. repeat (split; [done|]). split.
  - intros Hin.
    rewrite (first_holding_only (st_db s1) detail_names (gen 1%nat) tgt _ Hin Hthere) in Hres.
    2:{ intros name _ Hne. apply Hnone; [done | apply Hfresh]. }
    destruct Hres as (Hst2 & (short & disp & Hcol & Hshort & Hdisp) & Hfields).
    split; [done|]. split; [by exists short, disp|].
    intros key word Hkw Hkey.
    destruct (moved_order_status req_body order (now 1%nat) key word Hkw Hkey) as [H1 H2].
    assert (Hs : dget (stored (gen 1%nat) (moved_order req_body order (now 1%nat))) "status"
                 = VStr word) by (by apply (dget_stored _ _ _ (VStr word))).
    assert (Hd : dget (stored (gen 1%nat) (moved_order req_body order (now 1%nat)))
                      "displayStatus" = VStr word)
      by (by apply (dget_stored _ _ _ (VStr word))).
    split.
    + by rewrite Hfields.
    + rewrite Hdisp, Hd. unfold js_or.
      assert (Hw : truthy (VStr word) = true).
      { unfold target_status in Hkw.
        repeat (apply elem_of_cons in Hkw as [[= -> ->]|Hkw]); try done.
        by apply elem_of_nil in Hkw. }
      by rewrite Hw.
  - intros Hnotin.
    rewrite first_holding_nowhere in Hres; [done|].
    intros name Hname. apply Hnone; [|apply Hfresh]. intros ->. done.
Qed.

Lemma collectionMapping_returned :
  collectionMapping (VStr "returned") = Mapped "ReturnedOrders".
Proof. unfold collectionMapping. by rewrite ToString_str. Qed.

(** X15.  The documentation of a return is what the move recorded.  After
    an order was moved to the returned orders with a reason and an image,
    the documentation of the new identifier answers that reason and that
    image, the time of the move, and "staff" as the party that processed
    it. *)
Theorem return_documentation_round_trip (gen gen' : nat -> oid) (now now' : nat -> Z)
    (db : Database) (req_body : doc) (o : oid) (order : doc) (src : string)
    (id' : string) :
  truthy (dget req_body "orderId") = true ->
  truthy (dget req_body "operation") = true ->
  truthy (dget req_body "fromCollection") = true ->
  collectionMapping (dget req_body "fromCollection") = Mapped src ->
  dget req_body "toCollection" = VStr "returned" ->
  truthy (dget req_body "returnReason") = true ->
  truthy (dget req_body "returnImage") = true ->
  ObjectId_new (dget req_body "orderId") = Some o ->
  coll db src !! o = Some order ->
  coll db "ReturnedOrders" !! gen 1%nat = None ->
  id' <> EmptyString ->
  ObjectId_new (VStr id') = Some (gen 1%nat) ->
  exists r1 s1 r2 s2,
    run (move_order req_body) (quiet gen now) db = (Done r1, s1)
    /\ status r1 = 200
    /\ dget (body r1) "newOrderId" = VOid (gen 1%nat)
    /\ run (return_documentation id') (quiet gen' now') (st_db s1) = (Done r2, s2)
    /\ status r2 = 200
    /\ dget (body r2) "orderId" = VOid (gen 1%nat)
    /\ dget (body r2) "returnReason" = to_bson (dget req_body "returnReason")
    /\ dget (body r2) "returnImage" = to_bson (dget req_body "returnImage")
    /\ dget (body r2) "returnedAt" = VDate (now 1%nat)
    /\ dget (body r2) "returnImageUploadedAt" = VDate (now 1%nat)
    /\ dget (body r2) "returnProcessedBy" = VStr "staff".
Proof.
  intros Hid Hop Hfrom Hsrc Hto Hreason Himage Hoid Hord Hfresh Hid'ne Hid'.
  destruct (move_order_run gen now db req_body o order src "ReturnedOrders"
              Hid Hop Hfrom ltac:(by rewrite Hto) Hsrc
              ltac:(rewrite Hto; apply collectionMapping_returned) Hoid Hord Hfresh)
    as (r1 & s1 & Hrun1 & Hst1 & Hnew & _ & Hthere & _).
  exists r1, s1. 
  set (moved := stored (gen 1%nat) (moved_order req_body order (now 1%nat))) in *.
  assert (Hfields :
    dget moved "_id" = VOid (gen 1%nat)
    /\ dget moved "returnReason" = to_bson (dget req_body "returnReason")
    /\ dget moved "returnImage" = to_bson (dget req_body "returnImage")
    /\ dget moved "returnedAt" = VDate (now 1%nat)
    /\ dget moved "returnImageUploadedAt" = VDate (now 1%nat)
    /\ dget moved "returnProcessedBy" = VStr "staff").
  { split; [done|]. unfold moved.
    assert (Hm : forall k v, k <> "_id" -> k <> "updatedAt" -> k <> "lastModifiedBy" ->
                             v <> VUndef ->
                             dget (stamp_for_target (VStr "returned")
                                     (dget req_body "denialReason")
                                     (dget req_body "returnReason")
                                     (dget req_body "returnImage") (VDate (now 1%nat))
                                     (ddel order "_id")) k = v ->
                             dget (stored (gen 1%nat) (moved_order req_body order (now 1%nat))) k
                             = to_bson v).
    { intros k v Hk1 Hk2 Hk3 Hv Hget. apply dget_stored; [done| |done].
      unfold moved_order. rewrite Hto. by rewrite !dget_dset_ne. }
    unfold stamp_for_target, set_if_truthy in Hm.
    cbn [is_str String.eqb Ascii.eqb Bool.eqb] in Hm. rewrite Hreason, Himage in Hm.
    repeat split.
    - apply Hm; try done; [by destruct (dget req_body "returnReason")|].
      rewrite !dget_dset_ne by done. apply dget_dset_eq.
    - apply Hm; try done; [by destruct (dget req_body "returnImage")|].
      rewrite !dget_dset_ne by done. apply dget_dset_eq.
    - apply (Hm _ (VDate (now 1%nat))); try done.
      rewrite !dget_dset_ne by done. apply dget_dset_eq.
    - apply (Hm _ (VDate (now 1%nat))); try done.
      rewrite !dget_dset_ne by done. apply dget_dset_eq.
    - apply (Hm _ (VStr "staff")); try done.
      rewrite !dget_dset_ne by done. apply dget_dset_eq. }
  destruct Hfields as (Hf1 & Hf2 & Hf3 & Hf4 & Hf5 & Hf6).
  assert (Hrun2 : exists r2 s2,
             run (return_documentation id') (quiet gen' now') (st_db s1) = (Done r2, s2)
             /\ status r2 = 200
             /\ dget (body r2) "orderId" = dget moved "_id"
             /\ dget (body r2) "returnReason"
                = (dget moved "returnReason" || VStr "No reason provided")%js
             /\ dget (body r2) "returnImage" = (dget moved "returnImage" || VNull)%js
             /\ dget (body r2) "returnedAt"
                = (dget moved "returnedAt" || dget moved "returnProcessingDate")%js
             /\ dget (body r2) "returnImageUploadedAt"
                = (dget moved "returnImageUploadedAt" || VNull)%js
             /\ dget (body r2) "returnProcessedBy"
                = (dget moved "returnProcessedBy" || VStr "staff")%js).
  { unfold run, return_documentation. rewrite (truthy_str _ Hid'ne). cbn [negb].
    apply try_catch_ex.
    eapply bind_ex; [by apply new_ObjectId_some|]. cbn beta.
    eapply bind_ex; [by eapply findOne_id_some|]. cbn beta iota.
    destruct (truthy (dget moved "orderNumber")).
    - rewrite bind_ret. by eexists _, _.
    - eapply bind_ex.
      { unfold method_toString. rewrite Hf1. rewrite bind_ret. reflexivity. }
      by eexists _, _. }
  destruct Hrun2 as (r2 & s2 & Hrun2 & Hst2 & Hb1 & Hb2 & Hb3 & Hb4 & Hb5 & Hb6).
  exists r2, s2. repeat (split; [done|]).
  rewrite ?Hb1, ?Hb2, ?Hb3, ?Hb4, ?Hb5, ?Hb6, ?Hf1, ?Hf2, ?Hf3, ?Hf4, ?Hf5, ?Hf6.
  unfold js_or. rewrite !truthy_to_bson, Hreason, Himage. by cbn [truthy].
Qed.

(** A request to cancel an order whose status is not one of the three that
    allow it is refused, and nothing is written. *)
Lemma cancel_request_refuses (gen : nat -> oid) (now : nat -> Z) (db : Database)
    (req_body : doc) (sid : string) (o : oid) (order : doc) (st : string) :
  dget req_body "orderId" = VStr sid ->
  truthy (VStr sid) = true ->
  truthy (dget req_body "reason") = true ->
  comments_ok (dget req_body "additionalComments") = true ->
  ObjectId_new (VStr sid) = Some o ->
  coll db "PendingOrders" !! o = Some order ->
  (dget order "status" || VStr "pending")%js = VStr st ->
  includes ["pending"; "active"; "approved"] (VStr (toLowerCase st)) = false ->
  exists s',
    run (cancel_request req_body) (quiet gen now) db
    = (Done {| status := 400;
               body := [("success", VBool false);
                        ("message", VStr "This order cannot be cancelled at this stage")] |},
       s')
    /\ st_db s' = db.
Proof.
  intros Hid Htid Hreason Hcomm Hoid Hord Hst Hno.
  unfold run, cancel_request. rewrite Hid, Htid, Hreason.
  erewrite try_catch_done.
  2:{ step check_substring_ok. simpl.
      erewrite bind_done.
      2:{ step new_ObjectId_some. step findOne_id_some. reflexivity. }
      cbn beta iota. rewrite Hst.
      step js_toLowerCase_str. rewrite Hno. cbn [negb]. reflexivity. }
  eexists. split; [reflexivity|]. by norm.
Qed.

(** X16.  A verified order can no longer be cancelled by the customer.
    Verifying the payment of a pending order sets its status to
    "confirmed"; a request to cancel that order is then answered 400, the
    order stays where it is, and no cancellation request is stored. *)
Theorem verified_order_cannot_be_cancelled (gen gen' : nat -> oid) (now now' : nat -> Z)
    (db : Database) (id sid : string) (o : oid) (order : doc)
    (verify_body cancel_body : doc) :
  ObjectId_new (VStr id) = Some o ->
  coll db "PendingOrders" !! o = Some order ->
  truthy (dget verify_body "verified") = true ->
  dget cancel_body "orderId" = VStr sid ->
  truthy (VStr sid) = true ->
  ObjectId_new (VStr sid) = Some o ->
  truthy (dget cancel_body "reason") = true ->
  comments_ok (dget cancel_body "additionalComments") = true ->
  exists r1 s1 r2 s2 order',
    run (verify_payment id verify_body) (quiet gen now) db = (Done r1, s1)
    /\ status r1 = 200
    /\ coll (st_db s1) "PendingOrders" !! o = Some order'
    /\ dget order' "status" = VStr "confirmed"
    /\ run (cancel_request cancel_body) (quiet gen' now') (st_db s1) = (Done r2, s2)
    /\ status r2 = 400
    /\ dget (body r2) "message" = VStr "This order cannot be cancelled at this stage"
    /\ st_db s2 = st_db s1.
Proof.
  intros Ho Hord Hver Hsid Htid Ho' Hreason Hcomm.
  assert (Hrun1 : exists r1 s1 order',
             run (verify_payment id verify_body) (quiet gen now) db = (Done r1, s1)
             /\ status r1 = 200
             /\ coll (st_db s1) "PendingOrders" !! o = Some order'
             /\ dget order' "status" = VStr "confirmed").
  { unfold run, verify_payment. rewrite Hver.
    erewrite try_catch_done.
    2:{ step new_Date_run. step new_Date_run. step new_ObjectId_some.
        step updateOne_set_some. reflexivity. }
    eexists _, _, _. split; [reflexivity|]. split; [done|]. norm.
    split; [rewrite coll_set_coll_eq; apply lookup_insert_eq|].
    unfold dspread. cbn [dset doc_to_bson map fst snd String.eqb Ascii.eqb Bool.eqb
                         fold_left to_bson].
    apply dget_dset_eq. }
  destruct Hrun1 as (r1 & s1 & order' & Hrun1 & Hst1 & Hord' & Hstatus).
  destruct (cancel_request_refuses gen' now' (st_db s1) cancel_body sid o order' "confirmed"
              Hsid Htid Hreason Hcomm Ho' Hord') as (s2 & Hrun2 & Hdb2).
  { rewrite Hstatus. reflexivity. }
  { reflexivity. }
  by eexists r1, s1, _, s2, order'.
Qed.

End OrderLookupTheorems.

(** ** The default address *)

Section AddressTheorems.
Context `{Runtime}.

Lemma documents_elem (db : Database) name (d : doc) :
  In d (documents db name) <-> exists o, coll db name !! o = Some d.
Proof.
  unfold documents. rewrite in_map_iff. split.
  - intros ([o d'] & Heq & Hin). simpl in Heq. subst d'.
    exists o. by apply elem_of_map_to_list, list_elem_of_In.
  - intros (o & Hl). exists (o, d). split; [done|].
    by apply list_elem_of_In, elem_of_map_to_list.
Qed.

(** The address the lookup designates is a document of the collection. *)
Lemma find_address_designates (gen : nat -> oid) (now : nat -> Z) (db : Database)
    (id : string) (address : doc) s0 :
  find_address id (quiet gen now) (initial db) = (Done (VObj address), s0) ->
  st_db s0 = db /\ exists o, coll db "UserAddresses" !! o = Some address.
Proof.
  unfold find_address. intros Hrun.
  apply bind_inv in Hrun as (v & s1 & Hfind & Hrun).
  rewrite findOne_where_run in Hfind by done. revert Hfind. norm. intros [= <- <-].
  destruct (List.filter _ (documents db "UserAddresses")) as [|d rest] eqn:Hfilter.
  - cbn [truthy negb andb] in Hrun. destruct (is_hex24 id).
    + unfold try_catch in Hrun.
      destruct (ObjectId_new (VStr id)) as [o|] eqn:Ho.
      * rewrite (bind_done _ _ _ _ _ _ (new_ObjectId_some _ _ _ _ Ho)) in Hrun.
        destruct (coll db "UserAddresses" !! o) as [d|] eqn:Hl.
        -- erewrite findOne_id_some in Hrun by (norm; done).
           revert Hrun. norm. intros [= <- <-]. split; [by norm|]. by exists o.
        -- erewrite findOne_id_none in Hrun by (norm; done). by injection Hrun.
      * rewrite (bind_thrown _ _ _ _ _ _ (new_ObjectId_none _ _ _ Ho)) in Hrun.
        by injection Hrun.
    + by injection Hrun.
  - cbn [truthy negb andb] in Hrun. injection Hrun as <- <-. split; [by norm|].
    apply documents_elem. eapply (proj1 (filter_In _ _ _)). rewrite Hfilter. by left.
Qed.

(** X17.  One default address.  When the lookup designates an address,
    whose user identifier and e-mail address are plain values, setting it
    as default answers 200 and marks it; of the other addresses
    with the user identifier and the e-mail address of that address (each
    compared where the address has it), none is marked as default any
    more; the addresses of other users are left as they are. *)
Theorem default_address_is_the_only_one (gen : nat -> oid) (now : nat -> Z)
    (db : Database) (id : string) (address : doc) s0 :
  keyed db "UserAddresses" ->
  find_address id (quiet gen now) (initial db) = (Done (VObj address), s0) ->
  by_equality (dget address "userId") = true ->
  by_equality (dget address "email") = true ->
  exists r s' o marked,
    run (set_default_address id) (quiet gen now) db = (Done r, s')
    /\ status r = 200
    /\ dget address "_id" = VOid o
    /\ coll (st_db s') "UserAddresses" !! o = Some marked
    /\ dget marked "isDefault" = VBool true
    /\ (forall o' d', o' <> o -> coll (st_db s') "UserAddresses" !! o' = Some d' ->
                      other_defaults (VObj address) d' = false)
    /\ (forall o' d, o' <> o -> coll db "UserAddresses" !! o' = Some d ->
                     other_defaults (VObj address) d = false ->
                     coll (st_db s') "UserAddresses" !! o' = Some d)
    /\ (forall name, name <> "UserAddresses" -> coll (st_db s') name = coll db name).
Proof.
  intros Hkeyed Hfind _ _.
  destruct (find_address_designates gen now db id address s0 Hfind) as (Hdb0 & o & Hl).
  pose proof (Hkeyed o address Hl) as Hid.
  unfold run, set_default_address.
  destruct (updateMany_set_run (quiet gen now) s0 "UserAddresses"
              (other_defaults (VObj address)) [("isDefault", VBool false)] eq_refl)
    as (res & Hmany).
  revert Hmany. norm. rewrite Hdb0. intros Hmany.
  set (unset := fun d : doc =>
                  if other_defaults (VObj address) d
                  then dspread d (doc_to_bson [("isDefault", VBool false)]) else d) in *.
  erewrite try_catch_done.
  2:{ erewrite bind_done by exact Hfind. cbn [truthy negb].
      erewrite bind_done by exact Hmany. cbn [prop]. rewrite Hid. cbn [updateOne_set_by].
      step updateOne_set_some.
      2:{ rewrite coll_set_coll_eq, lookup_fmap, Hl. reflexivity. }
      reflexivity. }
  eexists _, _, o, _. split; [reflexivity|]. split; [done|]. split; [done|].
  cbn [st_db]. norm. rewrite !coll_set_coll_eq.
  split; [apply lookup_insert_eq|]. split.
  { unfold dspread. cbn [doc_to_bson map fst snd to_bson fold_left]. apply dget_dset_eq. }
  split; [|split].
  - intros o' d' Hne Hl'. rewrite lookup_insert_ne in Hl' by done.
    rewrite lookup_fmap in Hl'.
    destruct (coll db "UserAddresses" !! o') as [d0|] eqn:Hl0; [|done].
    injection Hl' as <-. unfold unset.
    destruct (other_defaults (VObj address) d0) eqn:Hod; [|done].
    unfold other_defaults. unfold dspread.
    cbn [doc_to_bson map fst snd to_bson fold_left]. rewrite dget_dset_eq.
    apply andb_false_r.
  - intros o' d Hne Hl' Hno. rewrite lookup_insert_ne by done.
    rewrite lookup_fmap, Hl'. cbn [fmap option_fmap option_map]. unfold unset.
    by rewrite Hno.
  - intros name Hne. by rewrite !coll_set_coll_ne.
Qed.

End AddressTheorems.

(** ** Staff notifications *)

Section NotificationTheorems.
Context `{Runtime} `{Host}.

(** What [GET /api/staff/notifications] answers on a quiet server. *)
Lemma staff_notifications_run (gen : nat -> oid) (now : nat -> Z) (db : Database) :
  exists s',
    run staff_notifications (quiet gen now) db
    = (Done {| status := 200;
               body :=
                 let notifications :=
                   sort_desc "createdAt"
                     (List.filter (fun d => mongo_eq (dget d "read") (VBool false))
                        (documents db "StaffNotifications")) in
                 [("success", VBool true);
                  ("count", VNum (Z.of_nat (length notifications)));
                  ("notifications", VArr (map VObj notifications))] |}, s')
    /\ st_db s' = db.
Proof.
  unfold run, staff_notifications.
  erewrite try_catch_done.
  2:{ erewrite bind_done.
      2:{ unfold aggregate_match_sort. rewrite db_call_run by done. reflexivity. }
      reflexivity. }
  eexists. split; [reflexivity|]. by norm.
Qed.

(** The listed notifications are the unread documents of the collection. *)
Lemma listed_unread (gen : nat -> oid) (now : nat -> Z) (db : Database) r s' v :
  run staff_notifications (quiet gen now) db = (Done r, s') ->
  In v (listed r) <->
  exists o d, v = VObj d /\ coll db "StaffNotifications" !! o = Some d
              /\ mongo_eq (dget d "read") (VBool false) = true.
Proof.
  destruct (staff_notifications_run gen now db) as (s1 & Hrun & _).
  rewrite Hrun. intros [= <- <-]. unfold listed. cbn [body dget String.eqb Ascii.eqb Bool.eqb].
  rewrite in_map_iff. split.
  - intros (d & <- & Hin).
    apply list_elem_of_In in Hin. rewrite sort_desc_perm in Hin.
    apply list_elem_of_In, filter_In in Hin as [Hin Hunread].
    apply documents_elem in Hin as (o & Hl). by exists o, d.
  - intros (o & d & -> & Hl & Hunread). exists d. split; [done|].
    apply list_elem_of_In. rewrite sort_desc_perm. apply list_elem_of_In, filter_In.
    split; [|done]. apply documents_elem. by exists o.
Qed.


(** A request to cancel an order that goes through stores a notification
    for the staff. *)
Lemma cancel_request_notifies (gen : nat -> oid) (now : nat -> Z) (db : Database)
    (req_body : doc) (sid : string) (o : oid) (order : doc) (src : string) :
  dget req_body "orderId" = VStr sid ->
  truthy (VStr sid) = true ->
  truthy (dget req_body "reason") = true ->
  comments_ok (dget req_body "additionalComments") = true ->
  ObjectId_new (VStr sid) = Some o ->
  src = "PendingOrders" \/ (src = "AcceptedOrders" /\ coll db "PendingOrders" !! o = None) ->
  coll db src !! o = Some order ->
  cancellable order = true ->
  coll db "CancellationRequests" !! gen (lookups src) = None ->
  coll db "StaffNotifications" !! gen (2 + lookups src)%nat = None ->
  exists r s' note,
    run (cancel_request req_body) (quiet gen now) db = (Done r, s')
    /\ status r = 200
    /\ dget (body r) "requestId" = VOid (gen (lookups src))
    /\ coll (st_db s') "StaffNotifications"
       = <[gen (2 + lookups src)%nat := note]> (coll db "StaffNotifications")
    /\ dget note "type" = VStr "cancellation_request"
    /\ dget note "orderId" = VStr sid
    /\ dget note "requestId" = VOid (gen (lookups src))
    /\ dget note "read" = VBool false.
Proof.
  intros Hid Htid Hreason Hcomm Hoid Hsrc Hord Hcan Hfresh Hfresh2.
  unfold cancellable in Hcan.
  destruct (dget order "status" || VStr "pending")%js as [| | | |st| | | | |] eqn:Hst; try done.
  unfold run, cancel_request.
  rewrite Hid, Htid, Hreason.
  destruct Hsrc as [-> | [-> Hnot]].
  - cbn [lookups String.eqb Ascii.eqb Bool.eqb] in *.
    erewrite try_catch_done.
    2:{ step check_substring_ok. simpl.
        erewrite bind_done.
        2:{ step new_ObjectId_some. step findOne_id_some. reflexivity. }
        cbn beta iota. rewrite Hst.
        step js_toLowerCase_str. rewrite Hcan. cbn [negb]. cbn iota.
        step order_number_run.
        step new_Date_run.
        step insertOne_fresh.
        step new_ObjectId_some.
        step deleteOne_id_some.
        2:{ by rewrite coll_set_coll_ne. }
        simpl.
        step Date_now_run. step new_Date_run.
        step insertOne_fresh.
        2:{ by rewrite !coll_set_coll_ne. }
        reflexivity. }
    norm. eexists _, _, _. split; [reflexivity|]. simpl.
    split; [done|]. split; [done|]. split.
    { rewrite coll_set_coll_eq. by rewrite !coll_set_coll_ne. }
    repeat split.
  - cbn [lookups String.eqb Ascii.eqb Bool.eqb] in *.
    erewrite try_catch_done.
    2:{ step check_substring_ok. simpl.
        erewrite bind_done.
        2:{ step new_ObjectId_some. step findOne_id_none.
            step new_ObjectId_some. step findOne_id_some. reflexivity. }
        cbn beta iota. rewrite Hst.
        step js_toLowerCase_str. rewrite Hcan. cbn [negb]. cbn iota.
        step order_number_run.
        step new_Date_run.
        step insertOne_fresh.
        step new_ObjectId_some.
        step deleteOne_id_some.
        2:{ by rewrite coll_set_coll_ne. }
        simpl.
        step Date_now_run. step new_Date_run.
        step insertOne_fresh.
        2:{ by rewrite !coll_set_coll_ne. }
        reflexivity. }
    norm. eexists _, _, _. split; [reflexivity|]. simpl.
    split; [done|]. split; [done|]. split.
    { rewrite coll_set_coll_eq. by rewrite !coll_set_coll_ne. }
    repeat split.
Qed.

(** X19.  A cancellation request reaches the staff.  After a request to
    cancel a pending or accepted order went through, the list of unread
    staff notifications holds a notification of type
    "cancellation_request" that names the order and the stored request. *)
Theorem cancel_request_reaches_staff (gen gen' : nat -> oid) (now now' : nat -> Z)
    (db : Database) (req_body : doc) (sid : string) (o : oid) (order : doc)
    (src : string) :
  dget req_body "orderId" = VStr sid ->
  truthy (VStr sid) = true ->
  truthy (dget req_body "reason") = true ->
  comments_ok (dget req_body "additionalComments") = true ->
  ObjectId_new (VStr sid) = Some o ->
  src = "PendingOrders" \/ (src = "AcceptedOrders" /\ coll db "PendingOrders" !! o = None) ->
  coll db src !! o = Some order ->
  cancellable order = true ->
  coll db "CancellationRequests" !! gen (lookups src) = None ->
  coll db "StaffNotifications" !! gen (2 + lookups src)%nat = None ->
  exists r1 s1 r2 s2 v,
    run (cancel_request req_body) (quiet gen now) db = (Done r1, s1)
    /\ status r1 = 200
    /\ run staff_notifications (quiet gen' now') (st_db s1) = (Done r2, s2)
    /\ status r2 = 200
    /\ In v (listed r2)
    /\ prop v "type" = VStr "cancellation_request"
    /\ prop v "orderId" = VStr sid
    /\ prop v "requestId" = dget (body r1) "requestId"
    /\ prop v "read" = VBool false.
Proof.
  intros Hid Htid Hreason Hcomm Hoid Hsrc Hord Hcan Hfresh Hfresh2.
  destruct (cancel_request_notifies gen now db req_body sid o order src
              Hid Htid Hreason Hcomm Hoid Hsrc Hord Hcan Hfresh Hfresh2)
    as (r1 & s1 & note & Hrun1 & Hst1 & Hrid & Hnotes & Htype & Horder & Hreq & Hread).
  destruct (staff_notifications_run gen' now' (st_db s1)) as (s2 & Hrun2 & Hdb2).
  eexists r1, s1, _, s2, (VObj note).
  split; [exact Hrun1|]. split; [done|]. split; [exact Hrun2|]. split; [done|].
  split.
  { apply (listed_unread gen' now' (st_db s1) _ s2 _ Hrun2).
    exists (gen (2 + lookups src)%nat), note. split; [done|].
    rewrite Hnotes, lookup_insert_eq. split; [done|]. by rewrite Hread. }
  cbn [prop]. by rewrite Hrid.
Qed.

End NotificationTheorems.

(** ** Deleting an address, and the status of a pending order *)

Section AddressAndStatusTheorems.
Context `{Runtime}.

(** X20.  Deleting an address.  When the lookup designates an address,
    the deletion answers 200 and removes that address, found by its [_id],
    and nothing else: the other addresses and the other collections are as
    before. *)
Theorem delete_address_removes_designated (gen : nat -> oid) (now : nat -> Z)
    (db : Database) (id : string) (address : doc) s0 :
  keyed db "UserAddresses" ->
  find_address id (quiet gen now) (initial db) = (Done (VObj address), s0) ->
  exists r s' o,
    run (delete_address id) (quiet gen now) db = (Done r, s')
    /\ status r = 200
    /\ dget address "_id" = VOid o
    /\ coll db "UserAddresses" !! o = Some address
    /\ coll (st_db s') "UserAddresses" = delete o (coll db "UserAddresses")
    /\ (forall name, name <> "UserAddresses" -> coll (st_db s') name = coll db name).
Proof.
  intros Hkeyed Hfind.
  destruct (find_address_designates gen now db id address s0 Hfind) as (Hdb0 & o & Hl).
  pose proof (Hkeyed o address Hl) as Hid.
  unfold run, delete_address.
  erewrite try_catch_done.
  2:{ erewrite bind_done by exact Hfind. cbn [truthy negb prop]. rewrite Hid.
      cbn [deleteOne_by].
      step deleteOne_id_some.
      2:{ rewrite Hdb0. exact Hl. }
      reflexivity. }
  eexists _, _, o. split; [reflexivity|]. split; [done|]. split; [done|].
  split; [done|]. cbn [st_db]. norm. rewrite Hdb0. split.
  - by rewrite coll_set_coll_eq.
  - intros name Hne. by rewrite coll_set_coll_ne.
Qed.

(** X21.  The status update reaches pending orders only.  With a status
    given, the update of an order that is pending answers 200 and stores
    the status on it, leaving its other fields; for an identifier that is
    not among the pending orders, wherever else the order may be, it
    answers 404 and changes nothing. *)
Theorem status_update_reaches_pending_orders_only (gen : nat -> oid) (now : nat -> Z)
    (db : Database) (id : string) (o : oid) (req_body : doc) :
  truthy (dget req_body "status") = true ->
  ObjectId_new (VStr id) = Some o ->
  exists r s',
    run (update_order_status id req_body) (quiet gen now) db = (Done r, s')
    /\ match coll db "PendingOrders" !! o with
       | Some order =>
           status r = 200
           /\ (exists order',
                 coll (st_db s') "PendingOrders"
                 = <[o := order']> (coll db "PendingOrders")
                 /\ dget order' "status" = to_bson (dget req_body "status")
                 /\ forall k, k <> "status" -> dget order' k = dget order k)
           /\ forall name, name <> "PendingOrders" -> coll (st_db s') name = coll db name
       | None => status r = 404 /\ st_db s' = db
       end.
Proof.
  intros Hstatus Ho. unfold run, update_order_status. rewrite Hstatus. cbn [negb].
  destruct (coll db "PendingOrders" !! o) as [order|] eqn:Hl.
  - erewrite try_catch_done.
    2:{ step new_ObjectId_some. step updateOne_set_some. reflexivity. }
    eexists _, _. split; [reflexivity|]. split; [done|]. cbn [st_db]. norm. split.
    + eexists. split; [by rewrite coll_set_coll_eq|].
      unfold dspread. cbn [doc_to_bson map fst snd fold_left]. split.
      * apply dget_dset_eq.
      * intros k Hk. by rewrite dget_dset_ne.
    + intros name Hne. by rewrite coll_set_coll_ne.
  - erewrite try_catch_done.
    2:{ step new_ObjectId_some.
        erewrite bind_done.
        2:{ unfold updateOne_set. rewrite db_call_run by done. norm.
            cbn beta zeta. rewrite Hl. reflexivity. }
        reflexivity. }
    eexists _, _. split; [reflexivity|]. split; [done|]. by norm.
Qed.

End AddressAndStatusTheorems.

(** ** The route table *)

Lemma toLowerCase_empty s : toLowerCase s = EmptyString -> s = EmptyString.
Proof. by destruct s. Qed.

Lemma segment_covers_sound p' p s :
  segment_covers p' p = true -> segment_matches p s = true -> segment_matches p' s = true.
Proof.
  unfold segment_covers, segment_matches.
  destruct (is_param p'), (is_param p); simpl; try done.
  - intros Hp Hs. apply negb_true_iff, String.eqb_neq in Hp.
    apply String.eqb_eq in Hs. apply negb_true_iff, String.eqb_neq.
    intros ->. by rewrite Hs in Hp.
  - intros Hp Hs. apply String.eqb_eq in Hp, Hs. apply String.eqb_eq. congruence.
Qed.

Lemma segments_cover_sound pattern' : forall pattern path,
  segments_cover pattern' pattern = true ->
  segments_match pattern path = true -> segments_match pattern' path = true.
Proof.
  induction pattern' as [|p' pattern' IH]; intros [|p pattern] path; simpl; try done.
  destruct path as [|s path]; [done|].
  intros [Hp Hrest]%andb_true_iff [Hs Hm]%andb_true_iff.
  apply andb_true_iff. split; [by eapply segment_covers_sound | by eapply IH].
Qed.

Lemma verb_eqb_eq a b : verb_eqb a b = true <-> a = b.
Proof. by destruct a, b. Qed.

Lemma covered_sound earlier r v path :
  covered earlier r = true -> route_matches v path r = true ->
  exists r', In r' earlier /\ route_matches v path r' = true.
Proof.
  unfold covered, route_matches.
  intros (r' & Hin & [Hv Hc]%andb_true_iff)%existsb_exists [Hv' Hm]%andb_true_iff.
  exists r'. split; [done|]. apply andb_true_iff. split.
  - apply verb_eqb_eq in Hv, Hv'. apply verb_eqb_eq. congruence.
  - by eapply segments_cover_sound.
Qed.

(** A route covered by an earlier one is not the first to match. *)
Lemma covered_at_sound line v path rest : forall earlier r,
  (forall r', In r' earlier -> route_matches v path r' = false) ->
  covered_at line earlier rest = true ->
  List.find (route_matches v path) rest = Some r ->
  registered_at r <> line.
Proof.
  induction rest as [|r0 rest IH]; intros earlier r Hearlier Hcov Hfind; [done|].
  simpl in Hcov, Hfind. apply andb_true_iff in Hcov as [Hhere Hcov].
  destruct (route_matches v path r0) eqn:Hm.
  - injection Hfind as <-. intros Hline. apply Nat.eqb_eq in Hline.
    rewrite Hline in Hhere.
    destruct (covered_sound earlier r0 v path Hhere Hm) as (r' & Hin & Hm').
    by rewrite (Hearlier r' Hin) in Hm'.
  - apply (IH (earlier ++ [r0])%list r); [|done..].
    intros r' [Hin | [<- | []]]%in_app_iff; [by apply Hearlier | done].
Qed.

Lemma routes_checked : forallb route_checked routes = true.
Proof. vm_compute. reflexivity. Qed.

(** X22.  Which routes are served.  A registered route serves some request
    exactly when it is not shadowed: six of the [GET /api/orders/...]
    routes registered after [GET /api/orders/:userId],
    [GET /api/orders/stats/comprehensive] registered after
    [GET /api/orders/stats/:userId], and the second registration of
    [PUT /api/orders/:orderId/status] never receive a request; every other
    route does. *)
Theorem shadowed_routes_are_never_served (r : route) :
  In r routes ->
  (exists path, dispatch (route_verb r) path = Some r)
  <-> ~ In (registered_at r) shadowed.
Proof.
  intros Hin.
  pose proof (proj1 (forallb_forall _ _) routes_checked r Hin) as Hcheck.
  unfold route_checked in Hcheck.
  destruct (existsb (Nat.eqb (registered_at r)) shadowed) eqn:Hsh.
  - apply existsb_exists in Hsh as (line & Hline & ->%Nat.eqb_eq).
    split; [|done]. intros (path & Hd) _.
    by apply (covered_at_sound (registered_at r) (route_verb r) path routes [] r).
  - split.
    + intros _ Hline. apply not_true_iff_false in Hsh. apply Hsh.
      apply existsb_exists. exists (registered_at r). split; [done|]. apply Nat.eqb_refl.
    + intros _. exists (sample_path r).
      destruct (dispatch (route_verb r) (sample_path r)) as [r'|]; [|done].
      apply andb_true_iff in Hcheck as [[Hl Hp]%andb_true_iff Hv].
      apply Nat.eqb_eq in Hl. apply String.eqb_eq in Hp. apply verb_eqb_eq in Hv.
      destruct r, r'; simpl in *. congruence.
Qed.

(** ** The further theorems at the example data *)

(** A collection is keyed when each of its entries is. *)
Lemma keyed_by_evaluation (db : Database) (name : string) :
  forallb (fun kv : oid * doc =>
             match dget (snd kv) "_id" with
             | VOid o => String.eqb o (fst kv)
             | _ => false
             end)
          (map_to_list (coll db name)) = true ->
  keyed db name.
Proof.
  intros Hall o d Hl.
  apply elem_of_map_to_list, list_elem_of_In in Hl.
  apply (proj1 (forallb_forall _ _) Hall) in Hl. simpl in Hl.
  destruct (dget d "_id"); try done. by apply String.eqb_eq in Hl as ->.
Qed.

Lemma only_open_code_by_evaluation (db : Database) (lowered : string) (o : oid) :
  forallb (fun kv : oid * doc => negb (open_code lowered (snd kv)) || String.eqb (fst kv) o)
          (map_to_list (coll db "AuthCodes")) = true ->
  only_open_code db lowered o.
Proof.
  intros Hall o' d' Hl Hopen.
  apply elem_of_map_to_list, list_elem_of_In in Hl.
  apply (proj1 (forallb_forall _ _) Hall) in Hl. simpl in Hl.
  rewrite Hopen in Hl. by apply String.eqb_eq in Hl.
Qed.

Lemma absent_by_evaluation (db : Database) (o : oid) :
  forallb (fun kv : string * collection =>
             match snd kv !! o with Some _ => false | None => true end)
          (map_to_list db) = true ->
  forall name, coll db name !! o = None.
Proof.
  intros Hall name. unfold coll.
  destruct (db !! name) as [c|] eqn:Hc; [|done]. simpl.
  apply elem_of_map_to_list, list_elem_of_In in Hc.
  apply (proj1 (forallb_forall _ _) Hall) in Hc. simpl in Hc.
  by destruct (c !! o).
Qed.

(** Evaluation of a closed premise, by its form. *)
Ltac evp :=
  lazymatch goal with
  | |- keyed _ _ => apply keyed_by_evaluation; vm_compute; reflexivity
  | |- only_open_code _ _ _ => apply only_open_code_by_evaluation; vm_compute; reflexivity
  | |- forall name : string, coll _ name !! _ = None =>
      apply absent_by_evaluation; vm_compute; reflexivity
  | |- _ <> _ => first [discriminate | vm_compute; discriminate]
  | |- (_ <= _)%Z => vm_compute; discriminate
  | |- (_ < _)%Z => vm_compute; reflexivity
  | |- _ => ev
  end.






Lemma validate_stock_reads_only_witness :
  let out := run (validate_stock (items_body [upd pA 3; upd pB 10])) (quiet gen0 now0)
                 db_products in
  is_done (fst out) = true
  /\ st_db (snd out) = db_products
  /\ Forall product_read (st_calls (snd out)).
Proof.
  apply (validate_stock_reads_only (quiet gen0 now0) db_products
           (items_body [upd pA 3; upd pB 10])).
  intros k db'. reflexivity.
Defined.

Lemma validate_stock_all_valid_witness :
  exists r s',
    run (validate_stock (items_body [upd pA 3; upd pB 10])) (quiet gen0 now0) db_products
    = (Done r, s')
    /\ status r = 200
    /\ dget (body r) "allValid" = VBool false.
Proof.
  destruct (validate_stock_all_valid gen0 now0 db_products
              (items_body [upd pA 3; upd pB 10]) [upd pA 3; upd pB 10]
              [(pA, 3); (pB, 10)])
    as (r & s' & Hrun & Hst & Hall & _); try evp.
  exists r, s'. split; [exact Hrun|]. split; [exact Hst|].
  rewrite Hall. vm_compute. reflexivity.
Defined.


Lemma bulk_stock_keeps_stock_non_negative_witness :
  stock_kept_non_negative db_products
    (st_db (snd (run (bulk_stock (batch [upd pA 3; upd pB 10])) (quiet gen0 now0)
                     db_products))).
Proof.
  apply (bulk_stock_keeps_stock_non_negative (quiet gen0 now0) db_products
           (batch [upd pA 3; upd pB 10])).
  intros k db'. reflexivity.
Defined.

Lemma update_stock_sets_level_witness :
  exists r s',
    run (update_stock pA [("quantity", VNum 7)]) (quiet gen0 now0) db_products
    = (Done r, s')
    /\ status r = 200
    /\ stock (st_db s') pA = Some 7
    /\ in_stock (st_db s') (pA, 8) = false.
Proof.
  destruct (update_stock_sets_level gen0 now0 db_products pA [("quantity", VNum 7)] 7)
    as [_ Hset]; [reflexivity|].
  destruct (Hset ltac:(vm_compute; discriminate) pA (product pA "Hammer" 5)
                 ltac:(ev) ltac:(ev))
    as (r & s' & Hrun & Hst & Hstock & _ & Hin).
  exists r, s'. split; [exact Hrun|]. split; [exact Hst|]. split; [exact Hstock|].
  rewrite Hin. reflexivity.
Defined.

Lemma move_order_carries_order_witness :
  exists r s' moved,
    run (move_order move_body) (quiet gen0 now0) db_pending = (Done r, s')
    /\ status r = 200
    /\ coll (st_db s') "PendingOrders" !! order1 = None
    /\ coll (st_db s') "AcceptedOrders" !! gen0 1 = Some moved
    /\ dget moved "fullName" = VStr "Ann"
    /\ dget moved "status" = VStr "approved".
Proof.
  destruct (move_order_carries_order gen0 now0 db_pending move_body order1 pending_order
              "PendingOrders" "AcceptedOrders")
    as (r & s' & moved & Hrun & Hst & _ & Hgone & Hmoved & Hkeeps & Hstatus & _);
    try evp.
  exists r, s', moved.
  split; [exact Hrun|]. split; [exact Hst|]. split; [exact Hgone|].
  split; [exact Hmoved|]. split.
  - apply (Hkeeps "fullName" (VStr "Ann")); [|reflexivity|discriminate].
    intros Hin. apply list_elem_of_In in Hin. vm_compute in Hin.
    repeat (destruct Hin as [Hin | Hin]; [discriminate|]). exact Hin.
  - apply (Hstatus "accepted" "approved"); [|reflexivity].
    apply list_elem_of_In. right. left. reflexivity.
Defined.

Lemma moved_order_is_found_by_details_witness :
  exists r1 s1 r2 s2,
    run (move_order move_body) (quiet gen0 now0) db_pending = (Done r1, s1)
    /\ status r1 = 200
    /\ run (order_details (gen0 1)) (quiet gen0 now0) (st_db s1) = (Done r2, s2)
    /\ status r2 = 200
    /\ dget (body r2) "status" = VStr "approved".
Proof.
  destruct (moved_order_is_found_by_details gen0 gen0 now0 now0 db_pending move_body
              order1 pending_order "PendingOrders" "AcceptedOrders" (gen0 1))
    as (r1 & s1 & r2 & s2 & Hrun1 & Hst1 & _ & Hrun2 & Hfound & _); try evp.
  destruct Hfound as (Hst2 & _ & Hstatus).
  { apply list_elem_of_In. right. left. reflexivity. }
  exists r1, s1, r2, s2.
  split; [exact Hrun1|]. split; [exact Hst1|]. split; [exact Hrun2|].
  split; [exact Hst2|].
  apply (Hstatus "accepted" "approved"); [|reflexivity].
  apply list_elem_of_In. right. left. reflexivity.
Defined.

Lemma return_documentation_round_trip_witness :
  exists r1 s1 r2 s2,
    run (move_order return_move_body) (quiet gen0 now0) db_delivered = (Done r1, s1)
    /\ status r1 = 200
    /\ run (return_documentation (gen0 1)) (quiet gen0 now0) (st_db s1) = (Done r2, s2)
    /\ status r2 = 200
    /\ dget (body r2) "returnReason" = VStr "Damaged"
    /\ dget (body r2) "returnImage" = VStr image1.
Proof.
  destruct (return_documentation_round_trip gen0 gen0 now0 now0 db_delivered
              return_move_body order1 guest_order "DeliveredOrders" (gen0 1))
    as (r1 & s1 & r2 & s2 & Hrun1 & Hst1 & _ & Hrun2 & Hst2 & _ & Hreason & Himage & _);
    try evp.
  exists r1, s1, r2, s2.
  split; [exact Hrun1|]. split; [exact Hst1|]. split; [exact Hrun2|].
  split; [exact Hst2|]. split; [exact Hreason | exact Himage].
Defined.

Lemma verified_order_cannot_be_cancelled_witness :
  exists r1 s1 r2 s2,
    run (verify_payment order1 payment_body) (quiet gen0 now0) db_pending = (Done r1, s1)
    /\ status r1 = 200
    /\ run (cancel_request cancel_body) (quiet gen0 now0) (st_db s1) = (Done r2, s2)
    /\ status r2 = 400.
Proof.
  destruct (verified_order_cannot_be_cancelled gen0 gen0 now0 now0 db_pending
              order1 order1 order1 pending_order payment_body cancel_body)
    as (r1 & s1 & r2 & s2 & order' & Hrun1 & Hst1 & _ & _ & Hrun2 & Hst2 & _); try evp.
  exists r1, s1, r2, s2.
  split; [exact Hrun1|]. split; [exact Hst1|]. split; [exact Hrun2 | exact Hst2].
Defined.

Lemma default_address_is_the_only_one_witness :
  exists r s' marked,
    run (set_default_address "addr_2") (quiet gen0 now0) db_addresses = (Done r, s')
    /\ status r = 200
    /\ coll (st_db s') "UserAddresses" !! address2 = Some marked
    /\ dget marked "isDefault" = VBool true
    /\ forall d', coll (st_db s') "UserAddresses" !! address1 = Some d' ->
                  other_defaults (VObj (address address2 "addr_2" false)) d' = false.
Proof.
  destruct (default_address_is_the_only_one gen0 now0 db_addresses "addr_2"
              (address address2 "addr_2" false)
              (snd (find_address "addr_2" (quiet gen0 now0) (initial db_addresses))))
    as (r & s' & o & marked & Hrun & Hst & Hid & Hmarked & Hdefault & Hothers & _);
    try evp.
  injection Hid as <-.
  exists r, s', marked.
  split; [exact Hrun|]. split; [exact Hst|]. split; [exact Hmarked|].
  split; [exact Hdefault|].
  intros d'. apply Hothers. discriminate.
Defined.


Lemma cancel_request_reaches_staff_witness :
  exists r1 s1 r2 s2 v,
    run (cancel_request cancel_body) (quiet gen0 now0) db_pending = (Done r1, s1)
    /\ status r1 = 200
    /\ run staff_notifications (quiet gen0 now0) (st_db s1) = (Done r2, s2)
    /\ In v (listed r2)
    /\ prop v "type" = VStr "cancellation_request"
    /\ prop v "orderId" = VStr order1.
Proof.
  destruct (cancel_request_reaches_staff gen0 gen0 now0 now0 db_pending cancel_body
              order1 order1 pending_order "PendingOrders")
    as (r1 & s1 & r2 & s2 & v & Hrun1 & Hst1 & Hrun2 & _ & Hin & Htype & Horder & _);
    try evp.
  { left. reflexivity. }
  exists r1, s1, r2, s2, v.
  split; [exact Hrun1|]. split; [exact Hst1|]. split; [exact Hrun2|].
  split; [exact Hin|]. split; [exact Htype | exact Horder].
Defined.

Lemma delete_address_removes_designated_witness :
  exists r s',
    run (delete_address "addr_2") (quiet gen0 now0) db_addresses = (Done r, s')
    /\ status r = 200
    /\ coll (st_db s') "UserAddresses" !! address2 = None
    /\ coll (st_db s') "UserAddresses" !! address1 = Some (address address1 "addr_1" true).
Proof.
  destruct (delete_address_removes_designated gen0 now0 db_addresses "addr_2"
              (address address2 "addr_2" false)
              (snd (find_address "addr_2" (quiet gen0 now0) (initial db_addresses))))
    as (r & s' & o & Hrun & Hst & Hid & _ & Hleft & _); try evp.
  injection Hid as <-.
  exists r, s'. split; [exact Hrun|]. split; [exact Hst|]. rewrite Hleft. split.
  - apply lookup_delete_eq.
  - rewrite lookup_delete_ne by discriminate. vm_compute. reflexivity.
Defined.

Lemma status_update_reaches_pending_orders_only_witness :
  (exists r s',
     run (update_order_status order1 status_body) (quiet gen0 now0) db_pending
     = (Done r, s')
     /\ status r = 200)
  /\ (exists r s',
        run (update_order_status order1 status_body) (quiet gen0 now0) db_delivered
        = (Done r, s')
        /\ status r = 404
        /\ st_db s' = db_delivered).
Proof.
  split.
  - destruct (status_update_reaches_pending_orders_only gen0 now0 db_pending order1
                order1 status_body) as (r & s' & Hrun & Hcase); try evp.
    assert (Hl : coll db_pending "PendingOrders" !! order1 = Some pending_order) by ev.
    rewrite Hl in Hcase. destruct Hcase as (Hst & _).
    exists r, s'. split; [exact Hrun | exact Hst].
  - destruct (status_update_reaches_pending_orders_only gen0 now0 db_delivered order1
                order1 status_body) as (r & s' & Hrun & Hcase); try evp.
    assert (Hl : coll db_delivered "PendingOrders" !! order1 = None) by ev.
    rewrite Hl in Hcase. destruct Hcase as (Hst & Hdb).
    exists r, s'. split; [exact Hrun|]. split; [exact Hst | exact Hdb].
Defined.

Lemma shadowed_routes_are_never_served_witness :
  ((exists path,
      dispatch GET path
      = Some {| route_verb := GET; route_path := "/api/orders/analytics";
                registered_at := 2474 |})
   <-> ~ In 2474%nat shadowed)
  /\ dispatch GET "/api/orders/analytics"
     = Some {| route_verb := GET; route_path := "/api/orders/:userId";
               registered_at := 1193 |}.
Proof.
  split; [|vm_compute; reflexivity].
  apply (shadowed_routes_are_never_served
           {| route_verb := GET; route_path := "/api/orders/analytics";
              registered_at := 2474 |}).
  cbn [routes In]. repeat (first [left; reflexivity | right]).
Defined.
